(** * Benchmark analysis scripts of falcon-rust: a shallow embedding

    The repository holds three stand-alone Python scripts that read
    Criterion's [estimates.json] records, build the plotted series and
    look for the breakeven point of fast verification against full
    verification:

    - [benchmark/plot_fverify_1024_benchmark.py]  (module [Fverify1024])
    - [plotting/plot_fverify_benchmark.py]        (module [Fverify])
    - [plotting/plot_fast_full_verify_benchmark.py] (module [FastFullVerify])

    Python floats and numpy's [float64] are IEEE 754 binary64 numbers; they
    are embedded as Rocq's primitive [float], so every comparison and every
    arithmetic step below is the one the scripts perform, NaN included.
    Python ints are unbounded and are embedded as [Z]; where an int meets a
    float, or is divided, the conversion is Python's, [OverflowError]
    included.  File-system probes and [print] calls are recorded in a
    trace; Python exceptions are an explicit outcome. *)

From Stdlib Require Import ZArith List Bool String Ascii Floats Lia DecimalString.
From Stdlib Require Import Sorted Permutation.
From Stdlib Require DecimalPos DecimalZ.
Import ListNotations.

Set Warnings "-register-all,-inexact-float".

Local Open Scope string_scope.
Local Open Scope list_scope.

(** ** Numbers *)

(** numpy converts an [int64] to [float64] by rounding to nearest, ties to
    even; [binary_normalize] is that rounding. *)
Definition float_of_Z (z : Z) : float :=
  SF2Prim (binary_normalize prec emax z 0%Z false).

(** [np.int64] arithmetic wraps around modulo 2^64. *)
Definition wrap64 (z : Z) : Z :=
  ((z + 2 ^ 63) mod 2 ^ 64 - 2 ^ 63)%Z.

Definition int64_sub (a b : Z) : Z := wrap64 (a - b).

Definition in_int64 (z : Z) : Prop := (- 2 ^ 63 <= z < 2 ^ 63)%Z.

(** Rounding to nearest stays finite below [2^1024 - 2^970], the midpoint
    between the largest binary64 number and [2^1024]; from there on Python
    raises [OverflowError] where it has to produce a float from ints. *)
Definition float_overflow_bound : Z := (2 ^ 1024 - 2 ^ 970)%Z.

(** The quotient [n / d] of two ints ([d] positive), rounded once to
    nearest, ties to even: the quotient is taken with at least 56 bits and
    a sticky bit for the remainder, then rounded. *)
Definition round_quotient (n d : Z) : float :=
  let a := Z.abs n in
  let k := Z.max 0 (Z.log2 d + 56 - Z.log2 a)%Z in
  let q := (a * 2 ^ k / d)%Z in
  let r := (a * 2 ^ k mod d)%Z in
  let m := (2 * q + (if (r =? 0)%Z then 0 else 1))%Z in
  SF2Prim (binary_normalize prec emax (Z.sgn n * m) (- k - 1) false).

(** CPython's [long_true_divide]: when both ints are below [2^53] they are
    exact as floats and the quotient is the binary64 division; otherwise
    the correctly rounded quotient is computed from the ints. *)
Definition small_int (n : Z) : bool := (Z.abs n <? 2 ^ 53)%Z.

Definition int_quotient (n d : Z) : float :=
  if small_int n && small_int d then (float_of_Z n / float_of_Z d)%float
  else round_quotient n d.

(** [str(n)] of a Python int. *)
Definition str_of_int (n : Z) : string := NilZero.string_of_int (Z.to_int n).

(** [f"{x:.2f}"]: the exact binary value, rounded to two decimals with
    ties to even, as CPython's correctly rounded formatting does. *)
Definition round_scaled (m : positive) (e : Z) : Z :=
  let n := (Z.pos m * 100)%Z in
  match e with
  | Z0 => n
  | Zpos _ => (n * 2 ^ e)%Z
  | Zneg p =>
      let d := (2 ^ Z.pos p)%Z in
      let q := (n / d)%Z in
      let r := (n mod d)%Z in
      match (2 * r ?= d)%Z with
      | Lt => q
      | Gt => (q + 1)%Z
      | Eq => if Z.even q then q else (q + 1)%Z
      end
  end.

Definition two_digits (z : Z) : string :=
  if (z <? 10)%Z then ("0" ++ str_of_int z)%string else str_of_int z.

Definition format_2f (x : float) : string :=
  match Prim2SF x with
  | S754_nan => "nan"
  | S754_infinity s => if s then "-inf" else "inf"
  | S754_zero s => if s then "-0.00" else "0.00"
  | S754_finite s m e =>
      let n := round_scaled m e in
      ((if s then "-" else "") ++ str_of_int (n / 100) ++ "." ++ two_digits (n mod 100))%string
  end.

(** ** Python values and exceptions *)

(** What [json.load] returns.  A number written without fraction and
    exponent is a Python int of any size ([JInt]); any other number,
    [NaN] and [Infinity] included, is a float ([JNum]).  A JSON object
    becomes a [dict]; its keys are unique after parsing, so an
    association list read by its first match is the same map. *)
Inductive json : Type :=
| JNull
| JBool (b : bool)
| JInt (n : Z)
| JNum (x : float)
| JStr (s : string)
| JArr (items : list json)
| JObj (fields : list (string * json)).

Inductive exn : Type :=
| FileNotFoundError
| NotADirectoryError
| IsADirectoryError
| UnicodeDecodeError
| JSONDecodeError
| KeyError (key : string)
| TypeError
| OverflowError
| ValueError
| SystemExit (code : Z).

Inductive outcome (A : Type) : Type :=
| Ok (a : A)
| Raise (e : exn).
Arguments Ok {A} a.
Arguments Raise {A} e.

Fixpoint dict_get (fields : list (string * json)) (key : string) : option json :=
  match fields with
  | [] => None
  | (k, v) :: rest => if String.eqb k key then Some v else dict_get rest key
  end.

(** [obj[key]] with a string key: only a dict has such an item; a missing
    key is a [KeyError], any other value a [TypeError]. *)
Definition subscript (obj : json) (key : string) : outcome json :=
  match obj with
  | JObj fields =>
      match dict_get fields key with
      | Some v => Ok v
      | None => Raise (KeyError key)
      end
  | _ => Raise TypeError
  end.

(** A Python number: an int or a float.  [True] and [False] are the ints
    1 and 0 in every operation the scripts apply to them. *)
Inductive pynum : Type :=
| PyInt (n : Z)
| PyFloat (x : float).

(** The operand of [-] and [/]: a number; anything else that JSON can
    hold raises [TypeError]. *)
Definition as_number (v : json) : outcome pynum :=
  match v with
  | JNum x => Ok (PyFloat x)
  | JInt n => Ok (PyInt n)
  | JBool b => Ok (PyInt (if b then 1 else 0))
  | _ => Raise TypeError
  end.

(** Sequencing of steps that may raise, outside the file system. *)
Definition and_then {A B} (r : outcome A) (k : A -> outcome B) : outcome B :=
  match r with
  | Ok a => k a
  | Raise e => Raise e
  end.

(** [float(n)], the conversion Python applies to an int that meets a
    float: "int too large to convert to float" beyond the range. *)
Definition py_float (n : Z) : outcome float :=
  if (float_overflow_bound <=? Z.abs n)%Z then Raise OverflowError
  else Ok (float_of_Z n).

(** [a - b] on numbers: exact on two ints, binary64 otherwise. *)
Definition pynum_sub (a b : pynum) : outcome pynum :=
  match a, b with
  | PyInt m, PyInt n => Ok (PyInt (m - n)%Z)
  | PyFloat x, PyFloat y => Ok (PyFloat (x - y)%float)
  | PyInt m, PyFloat y => and_then (py_float m) (fun x => Ok (PyFloat (x - y)%float))
  | PyFloat x, PyInt n => and_then (py_float n) (fun y => Ok (PyFloat (x - y)%float))
  end.

(** [a / d] where [d] is one of the positive int literals of the scripts
    (2, 1000, 1_000_000): a float is divided by the float of [d]; an int
    by the int, "integer division result too large for a float" when the
    rounded quotient is out of range. *)
Definition pynum_truediv (a : pynum) (d : Z) : outcome float :=
  match a with
  | PyFloat x => Ok (x / float_of_Z d)%float
  | PyInt n =>
      if (d * float_overflow_bound <=? Z.abs n)%Z then Raise OverflowError
      else Ok (int_quotient n d)
  end.

Fixpoint all_ok {A} (rs : list (outcome A)) : outcome (list A) :=
  match rs with
  | [] => Ok []
  | r :: rest => and_then r (fun a => and_then (all_ok rest) (fun l => Ok (a :: l)))
  end.

(** [np.array(vals) / d] for a list of Python numbers.  An int outside
    [-2^63, 2^64) has no numpy integer type and makes the array an object
    array, whose elements are divided one by one as Python divides them.
    Otherwise the array is numeric (bool, int64, uint64 or float64) and
    every element is divided as a float64. *)
Definition fits_numeric_dtype (v : pynum) : bool :=
  match v with
  | PyFloat _ => true
  | PyInt n => (- 2 ^ 63 <=? n)%Z && (n <? 2 ^ 64)%Z
  end.

Definition float64_of (v : pynum) : float :=
  match v with
  | PyInt n => float_of_Z n
  | PyFloat x => x
  end.

Definition np_array_truediv (vals : list pynum) (d : Z) : outcome (list float) :=
  if forallb fits_numeric_dtype vals
  then Ok (map (fun v => (float64_of v / float_of_Z d)%float) vals)
  else all_ok (map (fun v => pynum_truediv v d) vals).

(** ** The file system and the run's effects *)

(** A path is its list of components below [criterion_dir]. *)
Definition path := list string.

(** The bytes of a file, as far as [json.load] tells: they do not decode
    as text, or the text does not parse, or it parses. *)
Inductive contents : Type :=
| Undecodable
| Garbage
| Parsed (j : json).

Inductive node : Type :=
| Dir
| File (c : contents).

(** What a path resolves to; [None] when it does not resolve.  The empty
    path is [criterion_dir] itself. *)
Definition filesystem := path -> option node.

(** Lines written by [print]; the number a line shows is kept as the
    float that is formatted. *)
Inductive line : Type :=
| LnEstimate (label : string) (microseconds : float)
| LnWarningMissing (subdir_name : string)
| LnStarting
| LnDirNotFound (dir : path)
| LnPleaseRun.

Inductive event : Type :=
| EvExists (p : path)
| EvOpen (p : path)
| EvPrint (l : line).

Definition trace := list event.

(** A run reads the file system, appends to the trace and either returns
    or raises. *)
Definition IO (A : Type) : Type := filesystem -> trace * outcome A.

Definition ret {A} (a : A) : IO A := fun _ => ([], Ok a).

Definition raise {A} (e : exn) : IO A := fun _ => ([], Raise e).

Definition bind {A B} (m : IO A) (k : A -> IO B) : IO B :=
  fun fs =>
    match m fs with
    | (t1, Ok a) => let (t2, r) := k a fs in (t1 ++ t2, r)
    | (t1, Raise e) => (t1, Raise e)
    end.

Declare Scope io_scope.
Delimit Scope io_scope with io.
Notation "x <- m ;; k" := (bind m (fun x => k))
  (at level 61, m at next level, right associativity) : io_scope.
Notation "m ;;; k" := (bind m (fun _ => k))
  (at level 61, right associativity) : io_scope.
Local Open Scope io_scope.

Definition lift {A} (r : outcome A) : IO A := fun _ => ([], r).

(** [Path.exists()] *)
Definition path_exists (p : path) : IO bool :=
  fun fs => ([EvExists p], Ok (match fs p with Some _ => true | None => false end)).

(** The paths on the way to [p], [criterion_dir] first. *)
Fixpoint ancestors (p : path) : list path :=
  match p with
  | [] => []
  | a :: rest => [] :: map (cons a) (ancestors rest)
  end.

Definition is_regular_file (n : option node) : bool :=
  match n with
  | Some (File _) => true
  | _ => false
  end.

(** What [open] raises on a path that does not resolve: ENOTDIR when a
    regular file stands on the way to it, ENOENT otherwise.  A regular
    file at the empty path stands for one on the way to [criterion_dir]. *)
Definition open_missing (fs : filesystem) (p : path) : exn :=
  if existsb (fun q => is_regular_file (fs q)) (ancestors p)
  then NotADirectoryError else FileNotFoundError.

(** [with open(p) as f: data = json.load(f)] *)
Definition open_json_load (p : path) : IO json :=
  fun fs =>
    ([EvOpen p],
     match fs p with
     | None => Raise (open_missing fs p)
     | Some Dir => Raise IsADirectoryError
     | Some (File Undecodable) => Raise UnicodeDecodeError
     | Some (File Garbage) => Raise JSONDecodeError
     | Some (File (Parsed j)) => Ok j
     end).

Definition print (l : line) : IO unit := fun _ => ([EvPrint l], Ok tt).

(** [for x in xs: body], threading the variables the body updates. *)
Fixpoint for_in {A S} (xs : list A) (body : A -> S -> IO S) (s : S) : IO S :=
  match xs with
  | [] => ret s
  | x :: rest => s' <- body x s ;; for_in rest body s'
  end.

(** [p / "a" / "b"] *)
Definition join (p : path) (names : list string) : path := p ++ names.

(** [a - b] and [a / d] on values read from JSON. *)
Definition py_sub (a b : json) : outcome pynum :=
  and_then (as_number a) (fun x => and_then (as_number b) (fun y => pynum_sub x y)).

Definition py_truediv (a : json) (d : Z) : outcome float :=
  and_then (as_number a) (fun x => pynum_truediv x d).

(** ** numpy

    [np.median] and [np.nanmedian] are library functions; they are
    written here after numpy's documentation, for the one-dimensional
    arrays the script passes. *)

(** [np.median] of a NaN-free array: sort, then the middle value or the
    mean of the two middle values ([np.mean] of one or two elements). *)
Fixpoint insert_sorted (x : float) (l : list float) : list float :=
  match l with
  | [] => [x]
  | y :: rest => if (x <=? y)%float then x :: l else y :: insert_sorted x rest
  end.

Definition np_sort (a : list float) : list float := fold_right insert_sorted [] a.

Definition np_median (a : list float) : float :=
  let part := np_sort a in
  let sz := List.length part in
  if Nat.even sz
  then ((nth (sz / 2 - 1) part nan + nth (sz / 2) part nan) / 2)%float
  else nth ((sz - 1) / 2) part nan.

(** [np.nanmedian] of a one-dimensional array: the NaN entries are
    removed; an empty or all-NaN array gives NaN (numpy warns
    "All-NaN slice encountered" and returns it). *)
Definition remove_nan (a : list float) : list float :=
  filter (fun x => negb (is_nan x)) a.

Definition np_nanmedian (a : list float) : float :=
  match remove_nan a with
  | [] => nan
  | kept => np_median kept
  end.

(** ** The breakeven loop

    [for i in range(len(means) - 1): if means[i] < verify_mean <= means[i + 1]: ...; break]
    It is written three times (once in [plot_fverify_1024_benchmark.py],
    twice in [plot_fverify_benchmark.py]) with the same body up to the names
    of the arrays.  The value returned is the [breakeven] that the body
    hands to [ax.annotate]; [None] when the loop ends without drawing.
    The loop index stays below [len(means) - 1] and [indices] has the
    length of [means], so no item lookup is out of range; [x2 - x1] is a
    difference of [np.int64] values. *)

Definition crosses (means : list float) (verify_mean : float) (i : nat) : bool :=
  (nth i means nan <? verify_mean)%float && (verify_mean <=? nth (S i) means nan)%float.

Definition interpolate (indices : list Z) (means : list float) (verify_mean : float)
    (i : nat) : float :=
  let x1 := nth i indices 0%Z in
  let x2 := nth (S i) indices 0%Z in
  let y1 := nth i means nan in
  let y2 := nth (S i) means nan in
  (float_of_Z x1 + (verify_mean - y1) * float_of_Z (int64_sub x2 x1) / (y2 - y1))%float.

Fixpoint breakeven_loop (indices : list Z) (means : list float) (verify_mean : float)
    (range : list nat) : option float :=
  match range with
  | [] => None
  | i :: rest =>
      if crosses means verify_mean i
      then Some (interpolate indices means verify_mean i)
      else breakeven_loop indices means verify_mean rest
  end.

Definition find_breakeven (indices : list Z) (means : list float) (verify_mean : float)
    : option float :=
  breakeven_loop indices means verify_mean (seq 0 (List.length means - 1)).

(** ** [benchmark/plot_fverify_1024_benchmark.py] *)

Module Fverify1024.

(** The dict that [load_criterion_estimate] returns.  Its five entries
    are numbers once the two subtractions have succeeded. *)
Record estimate : Type := {
  mean : pynum;
  ci_lower : pynum;
  ci_upper : pynum;
  error_lower : pynum;
  error_upper : pynum
}.

Definition read_estimate (data : json) : outcome estimate :=
  and_then (subscript data "mean") (fun m =>
  and_then (subscript m "point_estimate") (fun mean =>
  and_then (subscript data "mean") (fun m =>
  and_then (subscript m "confidence_interval") (fun ci =>
  and_then (subscript ci "lower_bound") (fun ci_lower =>
  and_then (subscript data "mean") (fun m =>
  and_then (subscript m "confidence_interval") (fun ci =>
  and_then (subscript ci "upper_bound") (fun ci_upper =>
  and_then (py_sub mean ci_lower) (fun error_lower =>
  and_then (py_sub ci_upper mean) (fun error_upper =>
  and_then (as_number mean) (fun mean' =>
  and_then (as_number ci_lower) (fun ci_lower' =>
  and_then (as_number ci_upper) (fun ci_upper' =>
  Ok {| mean := mean'; ci_lower := ci_lower'; ci_upper := ci_upper';
        error_lower := error_lower; error_upper := error_upper |}))))))))))))).

Definition load_criterion_estimate (p : path) : IO estimate :=
  new_exists <- path_exists (join p ["new"; "estimates.json"]) ;;
  let estimates_path :=
    if (new_exists : bool) then join p ["new"; "estimates.json"]
    else join p ["base"; "estimates.json"] in
  data <- open_json_load estimates_path ;;
  lift (read_estimate data).

Definition index_counts : list Z := [1; 2; 4; 8; 16; 32; 48; 64]%Z.

Definition fverify_path (n : Z) : path :=
  ["falcon-rust"; ("fast verify 1024 - " ++ str_of_int n ++ " indices")%string].

(** The first loop of [main]; an entry [(n, estimate)] is the dict
    [estimate] after [estimate["indices"] = n]. *)
Definition load_fverify_data (index_counts : list Z) : IO (list (Z * estimate)) :=
  for_in index_counts (fun n fverify_data =>
    dir_exists <- path_exists (fverify_path n) ;;
    if (dir_exists : bool) then
      estimate <- load_criterion_estimate (fverify_path n) ;;
      microseconds <- lift (pynum_truediv (mean estimate) 1000) ;;
      print (LnEstimate ("fverify 1024 (" ++ str_of_int n ++ " indices)")%string
                        microseconds) ;;;
      ret (fverify_data ++ [(n, estimate)])
    else ret fverify_data) [].

(** What [main] hands to matplotlib; the model of [main] ends there, the
    drawing and saving of the figure are not part of it. *)
Record figure : Type := {
  indices : list Z;
  means : list float;
  errors_lower : list float;
  errors_upper : list float;
  verify_mean : float;
  verify_ci : float;
  ffi_mean : float;
  ffi_ci : float;
  breakeven : option float
}.

(** [(d["ci_upper"] - d["ci_lower"]) / 2 / 1000] *)
Definition half_width (d : estimate) : outcome float :=
  and_then (pynum_sub (ci_upper d) (ci_lower d)) (fun width =>
  and_then (pynum_truediv width 2) (fun half => Ok (half / float_of_Z 1000)%float)).

Definition main : IO figure :=
  fverify_data <- load_fverify_data index_counts ;;
  verify_1024 <- load_criterion_estimate ["falcon-rust"; "verify 1024"] ;;
  microseconds <- lift (pynum_truediv (mean verify_1024) 1000) ;;
  print (LnEstimate "verify 1024" microseconds) ;;;
  ffi_verify <- load_criterion_estimate ["c ffi"; "verify 1024"] ;;
  microseconds <- lift (pynum_truediv (mean ffi_verify) 1000) ;;
  print (LnEstimate "C FFI verify 1024" microseconds) ;;;
  let indices := map fst fverify_data in
  means <- lift (np_array_truediv (map (fun d => mean (snd d)) fverify_data) 1000) ;;
  errors_lower <- lift (np_array_truediv (map (fun d => error_lower (snd d)) fverify_data)
                                         1000) ;;
  errors_upper <- lift (np_array_truediv (map (fun d => error_upper (snd d)) fverify_data)
                                         1000) ;;
  verify_mean <- lift (pynum_truediv (mean verify_1024) 1000) ;;
  verify_ci <- lift (half_width verify_1024) ;;
  ffi_mean <- lift (pynum_truediv (mean ffi_verify) 1000) ;;
  ffi_ci <- lift (half_width ffi_verify) ;;
  ret {| indices := indices; means := means;
         errors_lower := errors_lower; errors_upper := errors_upper;
         verify_mean := verify_mean; verify_ci := verify_ci;
         ffi_mean := ffi_mean; ffi_ci := ffi_ci;
         breakeven := find_breakeven indices means verify_mean |}.

End Fverify1024.

(** ** [plotting/plot_fverify_benchmark.py] *)

Module Fverify.

(** [load_criterion_estimate] has the same text as in
    [plot_fverify_1024_benchmark.py]. *)
Definition estimate := Fverify1024.estimate.
Definition load_criterion_estimate : path -> IO estimate :=
  Fverify1024.load_criterion_estimate.

Definition index_counts : list Z := [1; 4; 8; 16; 32; 48; 64]%Z.

(** [bits] is "512" in the first loading loop and "1024" in the second. *)
Definition fverify_path (bits : string) (n : Z) : path :=
  ["falcon-rust"; ("fast verify " ++ bits ++ " - " ++ str_of_int n ++ " indices")%string].

Definition load_fverify_data (bits : string) (index_counts : list Z)
    : IO (list (Z * estimate)) :=
  for_in index_counts (fun n fverify_data =>
    dir_exists <- path_exists (fverify_path bits n) ;;
    if (dir_exists : bool) then
      estimate <- load_criterion_estimate (fverify_path bits n) ;;
      microseconds <- lift (pynum_truediv (Fverify1024.mean estimate) 1000) ;;
      print (LnEstimate ("fverify " ++ bits ++ " (" ++ str_of_int n ++ " indices)")%string
                        microseconds) ;;;
      ret (fverify_data ++ [(n, estimate)])
    else ret fverify_data) [].

Record figure : Type := {
  indices_512 : list Z;
  means_512 : list float;
  indices_1024 : list Z;
  means_1024 : list float;
  verify_512_mean : float;
  verify_1024_mean : float;
  breakeven_512 : option float;
  breakeven_1024 : option float
}.

(** [np.array([d["mean"] for d in data]) / 1000] *)
Definition scaled_means (data : list (Z * estimate)) : outcome (list float) :=
  np_array_truediv (map (fun d => Fverify1024.mean (snd d)) data) 1000.

(** [means_512.max()] and [means_1024.max()] raise [ValueError] on an
    empty array; this happens after both breakeven loops, before the
    figure is saved. *)
Definition main : IO figure :=
  fverify_512_data <- load_fverify_data "512" index_counts ;;
  fverify_1024_data <- load_fverify_data "1024" index_counts ;;
  verify_512 <- load_criterion_estimate ["falcon-rust"; "verify 512"] ;;
  microseconds <- lift (pynum_truediv (Fverify1024.mean verify_512) 1000) ;;
  print (LnEstimate "verify 512" microseconds) ;;;
  verify_1024 <- load_criterion_estimate ["falcon-rust"; "verify 1024"] ;;
  microseconds <- lift (pynum_truediv (Fverify1024.mean verify_1024) 1000) ;;
  print (LnEstimate "verify 1024" microseconds) ;;;
  let indices_512 := map fst fverify_512_data in
  means_512 <- lift (scaled_means fverify_512_data) ;;
  let indices_1024 := map fst fverify_1024_data in
  means_1024 <- lift (scaled_means fverify_1024_data) ;;
  verify_512_mean <- lift (pynum_truediv (Fverify1024.mean verify_512) 1000) ;;
  verify_1024_mean <- lift (pynum_truediv (Fverify1024.mean verify_1024) 1000) ;;
  let breakeven_512 := find_breakeven indices_512 means_512 verify_512_mean in
  let breakeven_1024 := find_breakeven indices_1024 means_1024 verify_1024_mean in
  match means_512, means_1024 with
  | [], _ | _, [] => raise ValueError
  | _, _ =>
      ret {| indices_512 := indices_512; means_512 := means_512;
             indices_1024 := indices_1024; means_1024 := means_1024;
             verify_512_mean := verify_512_mean; verify_1024_mean := verify_1024_mean;
             breakeven_512 := breakeven_512; breakeven_1024 := breakeven_1024 |}
  end.

End Fverify.

(** ** [plotting/plot_fast_full_verify_benchmark.py] *)

Module FastFullVerify.

(** The dict [{"mean": mean}]; [mean] is whatever the record holds
    under [mean.point_estimate]. *)
Record estimate : Type := { mean : json }.

Definition load_criterion_estimate (p : path) : IO (option estimate) :=
  new_exists <- path_exists (join p ["new"; "estimates.json"]) ;;
  let estimates_path :=
    if (new_exists : bool) then join p ["new"; "estimates.json"]
    else join p ["base"; "estimates.json"] in
  found <- path_exists estimates_path ;;
  if negb found then ret None
  else
    data <- open_json_load estimates_path ;;
    mean <- lift (and_then (subscript data "mean")
                           (fun m => subscript m "point_estimate")) ;;
    ret (Some {| mean := mean |}).

Definition base_dir : path := ["stream_verification"].
Definition variants : list string := ["falcon512"; "falcon1024"].
Definition index_counts : list Z := [1; 8]%Z.
Definition invalid_fractions : list float := [0.01; 0.1; 0.5; 0.9; 0.99]%float.

Definition baseline_subdir (variant : string) (frac : float) : string :=
  (variant ++ "_baseline_invalid_" ++ format_2f frac)%string.

Definition optimized_subdir (variant : string) (idx : Z) (frac : float) : string :=
  (variant ++ "_indices_" ++ str_of_int idx ++ "_invalid_" ++ format_2f frac)%string.

(** The body of the two loading loops: [series] is the list appended
    to, [results[variant]["baseline"]] or
    [results[variant]["optimized"][idx]]. *)
Definition load_cell (subdir_name : string) (series : list (option float))
    : IO (list (option float)) :=
  data <- load_criterion_estimate (join base_dir [subdir_name]) ;;
  match data with
  | Some d =>
      ms <- lift (py_truediv (mean d) 1000000) ;;
      ret (series ++ [Some ms])
  | None =>
      print (LnWarningMissing subdir_name) ;;;
      ret (series ++ [None])
  end.

Definition load_baseline (variant : string) (invalid_fractions : list float)
    : IO (list (option float)) :=
  for_in invalid_fractions
    (fun frac series => load_cell (baseline_subdir variant frac) series) [].

Definition load_optimized (variant : string) (idx : Z) (invalid_fractions : list float)
    : IO (list (option float)) :=
  for_in invalid_fractions
    (fun frac series => load_cell (optimized_subdir variant idx frac) series) [].

(** [results[variant]]: the two dicts are keyed by the distinct literals
    of [variants] and [index_counts], kept here in insertion order. *)
Record variant_results : Type := {
  baseline : list (option float);
  optimized : list (Z * list (option float))
}.

Definition load_variant (variant : string) : IO variant_results :=
  baseline <- load_baseline variant invalid_fractions ;;
  optimized <- for_in index_counts (fun idx acc =>
                 series <- load_optimized variant idx invalid_fractions ;;
                 ret (acc ++ [(idx, series)])) [] ;;
  ret {| baseline := baseline; optimized := optimized |}.

(** [x if x is not None else np.nan] *)
Definition nan_of_none (x : option float) : float :=
  match x with
  | Some v => v
  | None => nan
  end.

Definition baseline_raw (baseline : list (option float)) : list float :=
  map nan_of_none baseline.

Definition baseline_median (baseline : list (option float)) : float :=
  np_nanmedian (baseline_raw baseline).

(** What the plotting loop draws for one variant: the flat baseline
    line and one line per index count. *)
Record variant_plot : Type := {
  median_line : float;
  opt_lines : list (Z * list float)
}.

Definition plot_variant (r : variant_results) : variant_plot :=
  {| median_line := baseline_median (baseline r);
     opt_lines := map (fun s => (fst s, map nan_of_none (snd s))) (optimized r) |}.

Definition main : IO (list (string * variant_plot)) :=
  print LnStarting ;;;
  found <- path_exists base_dir ;;
  if negb found then
    print (LnDirNotFound base_dir) ;;;
    print LnPleaseRun ;;;
    raise (SystemExit 1)
  else
    results <- for_in variants (fun variant acc =>
                 r <- load_variant variant ;;
                 ret (acc ++ [(variant, r)])) [] ;;
    ret (map (fun vr => (fst vr, plot_variant (snd vr))) results).

End FastFullVerify.

(** ** Concrete file systems, for running the scripts *)

Fixpoint path_eqb (p q : path) : bool :=
  match p, q with
  | [], [] => true
  | a :: p', b :: q' => String.eqb a b && path_eqb p' q'
  | _, _ => false
  end.

Fixpoint fs_of (entries : list (path * node)) : filesystem :=
  fun p =>
    match entries with
    | [] => None
    | (q, n) :: rest => if path_eqb q p then Some n else fs_of rest p
    end.

(** A record as Criterion writes it, reduced to the [mean] entry. *)
Definition record_json (mean lower upper : float) : json :=
  JObj [("mean",
         JObj [("confidence_interval",
                JObj [("confidence_level", JNum 0.95%float);
                      ("lower_bound", JNum lower);
                      ("upper_bound", JNum upper)]);
               ("point_estimate", JNum mean);
               ("standard_error", JNum 1%float)])].

(** A record with a point estimate and no confidence interval. *)
Definition mean_only_json (mean : float) : json :=
  JObj [("mean", JObj [("point_estimate", JNum mean)])].

(** The directory [cell] with one run variant ("new" or "base") holding
    [estimates.json]. *)
Definition measured (cell : path) (run : string) (c : contents) : list (path * node) :=
  [(cell, Dir); (join cell [run], Dir); (join cell [run; "estimates.json"], File c)].

(** ** Vocabulary of the statements *)

(** A series is the list of its measured points [(x, y)], in the order
    of the control values; the scripts hold it as the two arrays
    [indices] and [means]. *)
Definition series := list (Z * float).

Definition crossover (s : series) (baseline : float) : option float :=
  find_breakeven (map fst s) (map snd s) baseline.

(** [y1 < baseline <= y2] *)
Definition brackets (y1 y2 baseline : float) : bool :=
  (y1 <? baseline)%float && (baseline <=? y2)%float.

(** [x1 + (baseline - y1) * (x2 - x1) / (y2 - y1)], the difference of the
    control values taken in the integers. *)
Definition linear_interpolation (x1 : Z) (y1 : float) (x2 : Z) (y2 : float)
    (baseline : float) : float :=
  (float_of_Z x1 + (baseline - y1) * float_of_Z (x2 - x1) / (y2 - y1))%float.

(** The least exponent of a binary64 number. *)
Definition emin64 : Z := (-1074)%Z.

Definition SFnonzero (x : spec_float) : Prop :=
  match x with
  | S754_zero _ => False
  | _ => True
  end.

(** A run aborts when it ends in an exception. *)
Definition aborts {A} (r : trace * outcome A) : Prop :=
  exists e, snd r = Raise e.

(** The two places of a record below a storage location. *)
Definition new_file (p : path) : path := join p ["new"; "estimates.json"].
Definition base_file (p : path) : path := join p ["base"; "estimates.json"].

(** The record of a storage location: the "new" run variant, or the
    "base" one when there is no "new". *)
Definition record_file (fs : filesystem) (p : path) : option node :=
  match fs (new_file p) with
  | Some n => Some n
  | None => fs (base_file p)
  end.

(** [j[k1][k2]...] *)
Fixpoint lookup (j : json) (keys : list string) : outcome json :=
  match keys with
  | [] => Ok j
  | k :: rest => and_then (subscript j k) (fun v => lookup v rest)
  end.

Definition has_field (j : json) (keys : list string) : bool :=
  match lookup j keys with
  | Ok _ => true
  | Raise _ => false
  end.

Definition point_estimate_key : list string := ["mean"; "point_estimate"].
Definition lower_bound_key : list string := ["mean"; "confidence_interval"; "lower_bound"].
Definition upper_bound_key : list string := ["mean"; "confidence_interval"; "upper_bound"].

(** A record that does not parse or lacks the point estimate. *)
Definition lacks_point_estimate (c : contents) : bool :=
  match c with
  | Undecodable | Garbage => true
  | Parsed j => negb (has_field j point_estimate_key)
  end.

(** A record that does not parse or lacks the point estimate or one of
    the two confidence bounds. *)
Definition lacks_estimate_or_bound (c : contents) : bool :=
  match c with
  | Undecodable | Garbage => true
  | Parsed j =>
      negb (has_field j point_estimate_key && has_field j lower_bound_key
            && has_field j upper_bound_key)
  end.

(** What reading one existing node gives, in each of the two loaders. *)
Definition stream_read (n : node) : outcome (option FastFullVerify.estimate) :=
  match n with
  | Dir => Raise IsADirectoryError
  | File Undecodable => Raise UnicodeDecodeError
  | File Garbage => Raise JSONDecodeError
  | File (Parsed j) =>
      and_then (lookup j point_estimate_key)
               (fun v => Ok (Some {| FastFullVerify.mean := v |}))
  end.

Definition fverify_read (n : node) : outcome Fverify1024.estimate :=
  match n with
  | Dir => Raise IsADirectoryError
  | File Undecodable => Raise UnicodeDecodeError
  | File Garbage => Raise JSONDecodeError
  | File (Parsed j) => Fverify1024.read_estimate j
  end.

(** The storage locations of the stream-verification analysis, in the
    order in which [main] asks for them. *)
Definition stream_subdirs : list string :=
  flat_map (fun variant =>
      map (FastFullVerify.baseline_subdir variant) FastFullVerify.invalid_fractions
      ++ flat_map (fun idx =>
           map (FastFullVerify.optimized_subdir variant idx)
               FastFullVerify.invalid_fractions)
         FastFullVerify.index_counts)
    FastFullVerify.variants.

(** The two baselines of [plot_fverify_1024_benchmark.py]. *)
Definition baselines_1024 : list path :=
  [["falcon-rust"; "verify 1024"]; ["c ffi"; "verify 1024"]].

(** Every storage location that [plot_fverify_1024_benchmark.py] asks
    for. *)
Definition fverify_1024_locations : list path :=
  map Fverify1024.fverify_path Fverify1024.index_counts ++ baselines_1024.

(** ** File systems used in the examples *)

(** One stream-verification cell whose record has a point estimate and no
    confidence interval; nothing else was benchmarked. *)
Definition cell_without_bounds : path :=
  join FastFullVerify.base_dir ["falcon512_baseline_invalid_0.01"].

Definition fs_without_bounds : filesystem :=
  fs_of ((FastFullVerify.base_dir, Dir)
         :: measured cell_without_bounds "new" (Parsed (mean_only_json 5000000%float))).

(** Nothing was benchmarked at all. *)
Definition fs_empty : filesystem := fs_of [].

(** The stream-verification group of the falcon512 baseline with the cell
    of fraction 0.01 never measured, mean 10 with interval [8, 12] at
    0.10, mean 12 with interval [9, upper] at 0.50, and the remaining cells
    never measured. *)
Definition stream_group_fs (upper : float) : filesystem :=
  fs_of ((FastFullVerify.base_dir, Dir)
         :: measured (join FastFullVerify.base_dir ["falcon512_baseline_invalid_0.10"])
                     "new" (Parsed (record_json 10 8 12))
         ++ measured (join FastFullVerify.base_dir ["falcon512_baseline_invalid_0.50"])
                     "new" (Parsed (record_json 12 9 upper))).

(** ** Vocabulary of the reduction claims *)

(** The members of a group that are not missing. *)
Definition present (group : list (option float)) : list float :=
  flat_map (fun x => match x with Some v => [v] | None => [] end) group.

Definition fmax (a b : float) : float := if (a <? b)%float then b else a.
Definition fmin (a b : float) : float := if (b <? a)%float then b else a.

(** [(max(ciUpper) - min(ciLower)) / 2] over the [(ciLower, ciUpper)]
    pairs of a group, as the specification words it; the scripts compute
    it for one estimate at a time only. *)
Definition claimed_half_width (bounds : list (float * float)) : float :=
  match bounds with
  | [] => nan
  | (lower, upper) :: rest =>
      ((fold_left fmax (map snd rest) upper - fold_left fmin (map fst rest) lower) / 2)%float
  end.

(** ** Vocabulary of the series claims *)

Definition returns {A} (r : trace * outcome A) : Prop :=
  exists a, snd r = Ok a.

Definition stream_cell (subdir_name : string) : path :=
  join FastFullVerify.base_dir [subdir_name].

(** The loader reports the cell absent. *)
Definition stream_absent (fs : filesystem) (subdir_name : string) : bool :=
  match snd (FastFullVerify.load_criterion_estimate (stream_cell subdir_name) fs) with
  | Ok None => true
  | _ => false
  end.

(** The entry of the series at a cell: the loaded mean in milliseconds,
    [None] when the loader reports the cell absent. *)
Definition stream_entry (fs : filesystem) (subdir_name : string) : option float :=
  match snd (FastFullVerify.load_criterion_estimate (stream_cell subdir_name) fs) with
  | Ok (Some d) =>
      match py_truediv (FastFullVerify.mean d) 1000000 with
      | Ok ms => Some ms
      | Raise _ => None
      end
  | _ => None
  end.

(** What one round of a loading loop leaves in the trace: the loader's
    probes, then the warning when the cell is absent. *)
Definition stream_cell_trace (fs : filesystem) (subdir_name : string) : trace :=
  fst (FastFullVerify.load_criterion_estimate (stream_cell subdir_name) fs)
  ++ (if stream_absent fs subdir_name then [EvPrint (LnWarningMissing subdir_name)] else []).

(** The cell is absent, or its record loads and its mean is a number. *)
Definition stream_cell_loads (fs : filesystem) (subdir_name : string) : Prop :=
  stream_absent fs subdir_name = true \/
  exists d ms,
    snd (FastFullVerify.load_criterion_estimate (stream_cell subdir_name) fs) = Ok (Some d) /\
    py_truediv (FastFullVerify.mean d) 1000000 = Ok ms.

Definition dir_present (fs : filesystem) (p : path) : bool :=
  match fs p with
  | Some _ => true
  | None => false
  end.

(** The same for a cell of [plot_fverify_1024_benchmark.py]: what the
    round for [n] appends to [fverify_data] and to the trace. *)
Definition fverify_entry (fs : filesystem) (n : Z) : list (Z * Fverify1024.estimate) :=
  if dir_present fs (Fverify1024.fverify_path n) then
    match snd (Fverify1024.load_criterion_estimate (Fverify1024.fverify_path n) fs) with
    | Ok est => [(n, est)]
    | Raise _ => []
    end
  else [].

Definition fverify_cell_trace (fs : filesystem) (n : Z) : trace :=
  EvExists (Fverify1024.fverify_path n)
  :: (if dir_present fs (Fverify1024.fverify_path n) then
        fst (Fverify1024.load_criterion_estimate (Fverify1024.fverify_path n) fs)
        ++ match snd (Fverify1024.load_criterion_estimate (Fverify1024.fverify_path n) fs) with
           | Ok est =>
               match pynum_truediv (Fverify1024.mean est) 1000 with
               | Ok microseconds =>
                   [EvPrint (LnEstimate
                               ("fverify 1024 (" ++ str_of_int n ++ " indices)")%string
                               microseconds)]
               | Raise _ => []
               end
           | Raise _ => []
           end
      else []).

(** The cell's directory is missing, or its record loads and its mean is
    printed in microseconds. *)
Definition fverify_cell_loads (fs : filesystem) (n : Z) : Prop :=
  dir_present fs (Fverify1024.fverify_path n) = true ->
  exists est microseconds,
    snd (Fverify1024.load_criterion_estimate (Fverify1024.fverify_path n) fs) = Ok est /\
    pynum_truediv (Fverify1024.mean est) 1000 = Ok microseconds.

(** An estimate whose ints, if it has any, are below [2^1000] in absolute
    value: every difference and quotient that [main] derives from it is
    then within the range of floats. *)
Definition moderate (v : pynum) : Prop :=
  match v with
  | PyFloat _ => True
  | PyInt n => (Z.abs n < 2 ^ 1000)%Z
  end.

Definition within_float_range (est : Fverify1024.estimate) : Prop :=
  moderate (Fverify1024.mean est) /\ moderate (Fverify1024.ci_lower est)
  /\ moderate (Fverify1024.ci_upper est).

(** The lines printed along a trace, and the probes made below a
    directory. *)
Definition printed (t : trace) : list line :=
  flat_map (fun ev => match ev with EvPrint l => [l] | _ => [] end) t.

Fixpoint is_below (dir p : path) : bool :=
  match dir, p with
  | [], _ => true
  | a :: dir', b :: p' => String.eqb a b && is_below dir' p'
  | _ :: _, [] => false
  end.

Definition probes_below (dir : path) (t : trace) : list event :=
  filter (fun ev => match ev with
                    | EvExists p | EvOpen p => is_below dir p
                    | EvPrint _ => false
                    end) t.

(** Three of the eight cells of [plot_fverify_1024_benchmark.py] and both
    baselines were measured; the cell of 2 indices was not. *)
Definition fs_partial_1024 : filesystem :=
  fs_of (measured (Fverify1024.fverify_path 1) "new" (Parsed (record_json 5000 4000 6000))
         ++ measured (Fverify1024.fverify_path 4) "base" (Parsed (record_json 8000 7000 9000))
         ++ measured (Fverify1024.fverify_path 8) "base" (Parsed (record_json 15000 14000 16000))
         ++ measured ["falcon-rust"; "verify 1024"] "new" (Parsed (record_json 10000 9000 12000))
         ++ measured ["c ffi"; "verify 1024"] "new" (Parsed (record_json 11000 9000 12000))).

(** The two baselines of [plot_fverify_benchmark.py]. *)
Definition baselines_fverify : list path :=
  [["falcon-rust"; "verify 512"]; ["falcon-rust"; "verify 1024"]].

(** [x <= y] as a relation between binary64 numbers. *)
Definition fle (x y : float) : Prop := (x <=? y)%float = true.

(** ** The stream-verification run as a function of its cells *)

(** The storage locations of one variant, in the order of the loading
    loops: the baseline cells, then the cells of each index count. *)
Definition variant_subdirs (variant : string) : list string :=
  map (FastFullVerify.baseline_subdir variant) FastFullVerify.invalid_fractions
  ++ flat_map (fun idx =>
       map (FastFullVerify.optimized_subdir variant idx) FastFullVerify.invalid_fractions)
     FastFullVerify.index_counts.

(** [results[variant]] read off the cells. *)
Definition stream_variant_results (fs : filesystem) (variant : string)
    : FastFullVerify.variant_results :=
  {| FastFullVerify.baseline :=
       map (fun frac => stream_entry fs (FastFullVerify.baseline_subdir variant frac))
           FastFullVerify.invalid_fractions;
     FastFullVerify.optimized :=
       map (fun idx =>
              (idx,
               map (fun frac =>
                      stream_entry fs (FastFullVerify.optimized_subdir variant idx frac))
                   FastFullVerify.invalid_fractions))
           FastFullVerify.index_counts |}.

(** The point drawn for a cell: its entry, NaN where there is none. *)
Definition stream_point (fs : filesystem) (subdir_name : string) : float :=
  FastFullVerify.nan_of_none (stream_entry fs subdir_name).

Definition stream_figure (fs : filesystem) : list (string * FastFullVerify.variant_plot) :=
  map (fun variant =>
         (variant,
          {| FastFullVerify.median_line :=
               np_nanmedian
                 (map (fun frac =>
                         stream_point fs (FastFullVerify.baseline_subdir variant frac))
                      FastFullVerify.invalid_fractions);
             FastFullVerify.opt_lines :=
               map (fun idx =>
                      (idx,
                       map (fun frac =>
                              stream_point fs
                                (FastFullVerify.optimized_subdir variant idx frac))
                           FastFullVerify.invalid_fractions))
                   FastFullVerify.index_counts |}))
      FastFullVerify.variants.

Definition stream_trace (fs : filesystem) : trace :=
  EvPrint LnStarting :: EvExists FastFullVerify.base_dir
  :: flat_map (stream_cell_trace fs) stream_subdirs.

(** The warnings a run prints: one per absent cell, in the order of the
    cells. *)
Definition stream_warnings (fs : filesystem) : list line :=
  map LnWarningMissing (filter (stream_absent fs) stream_subdirs).

(** What a run returned, [d] if it raised. *)
Definition returned {A} (d : A) (r : trace * outcome A) : A :=
  match snd r with
  | Ok a => a
  | Raise _ => d
  end.

(** A stream cell whose record holds a point estimate that is a string. *)
Definition fs_text_estimate : filesystem :=
  fs_of ((FastFullVerify.base_dir, Dir)
         :: measured cell_without_bounds "new"
              (Parsed (JObj [("mean", JObj [("point_estimate", JStr "12.5")])]))).

(** A point estimate that Python divides by the int [d] into a float: a
    float, a bool, or an int whose quotient stays within the range of
    floats. *)
Definition divides_to_float (v : json) (d : Z) : bool :=
  match v with
  | JNum _ | JBool _ => true
  | JInt n => (Z.abs n <? d * float_overflow_bound)%Z
  | _ => false
  end.

(** A stream cell as the tree holds it: no record at all, or a record
    that parses and holds a mean point estimate that divides into
    milliseconds. *)
Definition stream_cell_ok (fs : filesystem) (subdir_name : string) : Prop :=
  record_file fs (stream_cell subdir_name) = None \/
  exists j v,
    record_file fs (stream_cell subdir_name) = Some (File (Parsed j)) /\
    lookup j point_estimate_key = Ok v /\
    divides_to_float v 1000000 = true.

(** A stream cell whose record holds an integer point estimate beyond
    [2^53]. *)
Definition fs_int_estimate : filesystem :=
  fs_of ((FastFullVerify.base_dir, Dir)
         :: measured cell_without_bounds "new"
              (Parsed (JObj [("mean", JObj [("point_estimate", JInt 9007199254740993)])]))).


(** ** The fverify runs as functions of their cells *)

(** The measured points of [plot_fverify_1024_benchmark.py], read off the
    cells. *)
Definition fverify_data_of (fs : filesystem) : list (Z * Fverify1024.estimate) :=
  flat_map (fverify_entry fs) Fverify1024.index_counts.

(** The series the breakeven loop scans: [indices] against [means]. *)
Definition plotted_series (fig : Fverify1024.figure) : series :=
  combine (Fverify1024.indices fig) (Fverify1024.means fig).

(** The cells and entries of [plot_fverify_benchmark.py], for either
    parameter set. *)
Definition fverify_sized_loads (fs : filesystem) (bits : string) (n : Z) : Prop :=
  dir_present fs (Fverify.fverify_path bits n) = true ->
  exists est microseconds,
    snd (Fverify.load_criterion_estimate (Fverify.fverify_path bits n) fs) = Ok est /\
    pynum_truediv (Fverify1024.mean est) 1000 = Ok microseconds.

Definition fverify_sized_entry (fs : filesystem) (bits : string) (n : Z)
    : list (Z * Fverify.estimate) :=
  if dir_present fs (Fverify.fverify_path bits n) then
    match snd (Fverify.load_criterion_estimate (Fverify.fverify_path bits n) fs) with
    | Ok est => [(n, est)]
    | Raise _ => []
    end
  else [].

Definition fverify_sized_trace (fs : filesystem) (bits : string) (n : Z) : trace :=
  EvExists (Fverify.fverify_path bits n)
  :: (if dir_present fs (Fverify.fverify_path bits n) then
        fst (Fverify.load_criterion_estimate (Fverify.fverify_path bits n) fs)
        ++ match snd (Fverify.load_criterion_estimate (Fverify.fverify_path bits n) fs) with
           | Ok est =>
               match pynum_truediv (Fverify1024.mean est) 1000 with
               | Ok microseconds =>
                   [EvPrint (LnEstimate
                               ("fverify " ++ bits ++ " (" ++ str_of_int n ++ " indices)")%string
                               microseconds)]
               | Raise _ => []
               end
           | Raise _ => []
           end
      else []).

(** A baseline of [plot_fverify_benchmark.py] that loads and whose mean
    is printed in microseconds. *)
Definition baseline_prints (fs : filesystem) (p : path) : Prop :=
  exists est microseconds,
    snd (Fverify.load_criterion_estimate p fs) = Ok est /\
    pynum_truediv (Fverify1024.mean est) 1000 = Ok microseconds.

(** A record with the three entries the loader of the fverify scripts
    reads, and nothing else. *)
Definition record_values (mean lower upper : json) : json :=
  JObj [("mean",
         JObj [("confidence_interval",
                JObj [("lower_bound", lower); ("upper_bound", upper)]);
               ("point_estimate", mean)])].

(** The point estimate and the two confidence bounds of a record, when
    it holds all three and they are numbers. *)
Definition record_numbers (j : json) : option (pynum * pynum * pynum) :=
  match lookup j point_estimate_key, lookup j lower_bound_key, lookup j upper_bound_key with
  | Ok vm, Ok vl, Ok vu =>
      match as_number vm, as_number vl, as_number vu with
      | Ok m, Ok l, Ok u => Some (m, l, u)
      | _, _, _ => None
      end
  | _, _, _ => None
  end.

(** A storage location whose record parses and holds the three numbers. *)
Definition has_numbers (fs : filesystem) (p : path) : Prop :=
  exists j, record_file fs p = Some (File (Parsed j)) /\ record_numbers j <> None.

(** No record at the given locations holds an int of [2^1000] or more in
    absolute value among its three numbers. *)
Definition moderate_records (fs : filesystem) (locations : list path) : Prop :=
  forall p j m l u,
    In p locations ->
    record_file fs p = Some (File (Parsed j)) ->
    record_numbers j = Some (m, l, u) ->
    moderate m /\ moderate l /\ moderate u.

(** A point estimate that is the same number for Python and for numpy's
    [float64]: a float, a bool, or an int below [2^53] in absolute
    value. *)
Definition exact_as_float (v : json) : bool :=
  match v with
  | JNum _ | JBool _ => true
  | JInt n => small_int n
  | _ => false
  end.

(** The index counts of a parameter set that have a directory. *)
Definition measured_counts (fs : filesystem) (bits : string) : list Z :=
  filter (fun n => dir_present fs (Fverify.fverify_path bits n)) Fverify.index_counts.

(** Falcon-1024 measured at one index count, both baselines measured, and
    no fast-verify cell of Falcon-512. *)
Definition fs_no_512 : filesystem :=
  fs_of (measured (Fverify.fverify_path "1024" 4) "new" (Parsed (record_json 6000 5900 6100))
         ++ measured ["falcon-rust"; "verify 512"] "new" (Parsed (record_json 20000 19000 21000))
         ++ measured ["falcon-rust"; "verify 1024"] "new"
                     (Parsed (record_json 40000 39000 41000))).

(** A tree on which both fverify scripts complete: each parameter set
    measured at 4 indices, Falcon-1024 also at 2, and the three
    baselines. *)
Definition fs_all_scripts : filesystem :=
  fs_of (measured (Fverify.fverify_path "512" 4) "new" (Parsed (record_json 3000 2900 3100))
         ++ measured (Fverify.fverify_path "1024" 2) "new" (Parsed (record_json 5000 4900 5100))
         ++ measured (Fverify.fverify_path "1024" 4) "new" (Parsed (record_json 6000 5900 6100))
         ++ measured ["falcon-rust"; "verify 512"] "new" (Parsed (record_json 20000 19000 21000))
         ++ measured ["falcon-rust"; "verify 1024"] "new"
                     (Parsed (record_json 40000 39000 41000))
         ++ measured ["c ffi"; "verify 1024"] "new" (Parsed (record_json 38000 37000 39000))).

(** The tree of [fs_partial_1024] with the record of the cell of 1
    index holding the int mean [2^53 + 3] between int bounds. *)
Definition fs_int_mean : filesystem :=
  fs_of (measured (Fverify1024.fverify_path 1) "new"
           (Parsed (record_values (JInt 9007199254740995) (JInt 9007199254740000)
                                  (JInt 9007199254741000)))
         ++ measured ["falcon-rust"; "verify 1024"] "new"
                     (Parsed (record_json 10000 9000 12000))
         ++ measured ["c ffi"; "verify 1024"] "new" (Parsed (record_json 11000 9000 12000))).

(** Figures with nothing in them, for naming what a run returned. *)
Definition no_figure_1024 : Fverify1024.figure :=
  {| Fverify1024.indices := []; Fverify1024.means := [];
     Fverify1024.errors_lower := []; Fverify1024.errors_upper := [];
     Fverify1024.verify_mean := nan; Fverify1024.verify_ci := nan;
     Fverify1024.ffi_mean := nan; Fverify1024.ffi_ci := nan;
     Fverify1024.breakeven := None |}.

Definition no_figure : Fverify.figure :=
  {| Fverify.indices_512 := []; Fverify.means_512 := [];
     Fverify.indices_1024 := []; Fverify.means_1024 := [];
     Fverify.verify_512_mean := nan; Fverify.verify_1024_mean := nan;
     Fverify.breakeven_512 := None; Fverify.breakeven_1024 := None |}.

(** ** The ticks of the y-axis

    Both [plot_fast_full_verify_benchmark.py] and
    [plot_fverify_benchmark.py] add the baselines to the ticks that
    matplotlib chose, keep the ticks between 0 and [max_y], and pass
    [sorted(set(yticks))] to [ax.set_yticks].  The ticks of matplotlib
    ([ax.get_yticks()]) are an input here; so is [max_y] in the first
    script, where it is [ax.get_ylim()[1]]. *)

(** [0 <= y <= max_y] *)
Definition tick_in_range (max_y y : float) : bool :=
  (0 <=? y)%float && (y <=? max_y)%float.

(** [set(yticks)]: of the ticks that are [==] to one another the first
    one met is kept. *)
Fixpoint py_set (l : list float) : list float :=
  match l with
  | [] => []
  | x :: rest => x :: filter (fun y => negb (y =? x)%float) (py_set rest)
  end.

(** [sorted] of floats that compare. *)
Definition py_sorted (l : list float) : list float := fold_right insert_sorted [] l.

Definition filter_ticks (yticks : list float) (max_y : float) : list float :=
  py_sorted (py_set (filter (tick_in_range max_y) yticks)).

(** [plot_fast_full_verify_benchmark.py]: [for bm in baseline_medians: yticks.append(bm)] *)
Definition stream_yticks (auto_ticks baseline_medians : list float) (max_y : float)
    : list float :=
  filter_ticks (auto_ticks ++ baseline_medians) max_y.

(** [plot_fverify_benchmark.py]: the two baselines are appended. *)
Definition fverify_yticks (auto_ticks : list float) (verify_512_mean verify_1024_mean : float)
    (max_y : float) : list float :=
  filter_ticks (auto_ticks ++ [verify_512_mean; verify_1024_mean]) max_y.

(** [a < b] as a relation, and lists without two [==] members. *)
Definition flt (x y : float) : Prop := (x <? y)%float = true.

Fixpoint distinct (l : list float) : Prop :=
  match l with
  | [] => True
  | x :: rest => (forall y, In y rest -> (x =? y)%float = false) /\ distinct rest
  end.

(** ** The upper limit of the y-axis in [plot_fverify_benchmark.py]

    [max_y = max(means_512.max(), means_1024.max(), verify_512_mean, verify_1024_mean) * 1.1] *)

(** numpy's [maximum] of two [float64]: the first operand when it is NaN
    or at least the second, the second otherwise. *)
Definition np_maximum (a b : float) : float :=
  if (b <=? a)%float || is_nan a then a else b.

(** [ndarray.max()]: [ValueError] on an empty array. *)
Definition np_max (a : list float) : outcome float :=
  match a with
  | [] => Raise ValueError
  | x :: rest => Ok (fold_left np_maximum rest x)
  end.

(** Python's [max(first, *rest)]: an item replaces the maximum so far
    when it is greater. *)
Definition py_max (first : float) (rest : list float) : float :=
  fold_left (fun maxitem item => if (maxitem <? item)%float then item else maxitem)
            rest first.

Definition fverify_max_y (means_512 means_1024 : list float)
    (verify_512_mean verify_1024_mean : float) : outcome float :=
  and_then (np_max means_512) (fun m512 =>
  and_then (np_max means_1024) (fun m1024 =>
  Ok (py_max m512 [m1024; verify_512_mean; verify_1024_mean] * 1.1)%float)).

(** A step that picks the larger of two comparable numbers. *)
Definition picks_larger (step : float -> float -> float) : Prop :=
  forall a b, is_nan a = false -> is_nan b = false ->
    (step a b = a \/ step a b = b) /\ fle a (step a b) /\ fle b (step a b).

(** ** The ticks of the x-axis in [plot_fverify_benchmark.py]

    [all_indices = sorted(set(indices_512.tolist() + indices_1024.tolist()))]:
    the members are Python ints. *)
Fixpoint py_set_int (l : list Z) : list Z :=
  match l with
  | [] => []
  | x :: rest => x :: filter (fun y => negb (y =? x)%Z) (py_set_int rest)
  end.

Fixpoint insert_sorted_int (x : Z) (l : list Z) : list Z :=
  match l with
  | [] => [x]
  | y :: rest => if (x <=? y)%Z then x :: l else y :: insert_sorted_int x rest
  end.

Definition py_sorted_int (l : list Z) : list Z := fold_right insert_sorted_int [] l.

Definition all_indices (indices_512 indices_1024 : list Z) : list Z :=
  py_sorted_int (py_set_int (indices_512 ++ indices_1024)).

(** An index count measured for at least one parameter set. *)
Definition measured_somewhere (fs : filesystem) (n : Z) : bool :=
  dir_present fs (Fverify.fverify_path "512" n)
  || dir_present fs (Fverify.fverify_path "1024" n).

(** The line printed for a measured point of
    [plot_fverify_1024_benchmark.py]. *)
Definition estimate_line_1024 (point : Z * float) : line :=
  LnEstimate ("fverify 1024 (" ++ str_of_int (fst point) ++ " indices)")%string (snd point).

(** * Properties *)

(** ** Rounding keeps a nonzero mantissa nonzero *)

Lemma iter_pos_nat {A} (f : A -> A) (p : positive) (x : A) :
  iter_pos f p x = Nat.iter (Pos.to_nat p) f x.
Proof.
  revert x; induction p as [p IH | p IH | ]; intros x; cbn [iter_pos].
  - rewrite !IH, Pos2Nat.inj_xI.
    replace (S (2 * Pos.to_nat p)) with (Pos.to_nat p + (Pos.to_nat p + 1))%nat by lia.
    rewrite !Nat.iter_add. reflexivity.
  - rewrite !IH, Pos2Nat.inj_xO.
    replace (2 * Pos.to_nat p)%nat with (Pos.to_nat p + Pos.to_nat p)%nat by lia.
    rewrite Nat.iter_add. reflexivity.
  - reflexivity.
Qed.

Lemma digits2_pos_iter_xO (m d : positive) :
  digits2_pos (Pos.iter xO m d) = (digits2_pos m + d)%positive.
Proof.
  revert m. induction d as [|d IH] using Pos.peano_ind; intros m.
  - cbn. lia.
  - rewrite Pos.iter_succ. cbn [digits2_pos]. rewrite IH.
    change PosDef.Pos.succ with Pos.succ. lia.
Qed.

Lemma shr_1_iter_pos (n : nat) (q : positive) (r s : bool) :
  (Z.of_nat n < Zpos (digits2_pos q))%Z ->
  exists q', shr_m (Nat.iter n shr_1 (Build_shr_record (Zpos q) r s)) = Zpos q' /\
             Zpos (digits2_pos q') = (Zpos (digits2_pos q) - Z.of_nat n)%Z.
Proof.
  induction n as [|n IH]; intros Hn.
  - exists q. cbn. split; [reflexivity | lia].
  - destruct IH as (q' & Hm & Hd); [lia|].
    change (Nat.iter (S n) shr_1 ?x) with (shr_1 (Nat.iter n shr_1 x)).
    destruct (Nat.iter n shr_1 _) as [m' r' s']. cbn in Hm. subst m'.
    destruct q' as [q' | q' | ]; cbn [digits2_pos] in Hd;
      rewrite ?Pos2Z.inj_succ in Hd.
    + exists q'. split; [reflexivity | lia].
    + exists q'. split; [reflexivity | lia].
    + lia.
Qed.

Ltac cmp_cases :=
  repeat match goal with
  | H : context [Z.compare ?a ?b] |- _ =>
      let E := fresh "E" in
      destruct (Z.compare_spec a b) as [E|E|E]; try subst
  | |- context [Z.compare ?a ?b] =>
      let E := fresh "E" in
      destruct (Z.compare_spec a b) as [E|E|E]; try subst
  | H : context [Pos.compare ?a ?b] |- _ =>
      let E := fresh "E" in
      destruct (Pos.compare_spec a b) as [E|E|E]; try subst
  | |- context [Pos.compare ?a ?b] =>
      let E := fresh "E" in
      destruct (Pos.compare_spec a b) as [E|E|E]; try subst
  end.

Lemma SFcompare_lt_le_trans (a b c : spec_float) :
  SFcompare a b = Some Lt ->
  (SFcompare b c = Some Lt \/ SFcompare b c = Some Eq) ->
  SFcompare a c = Some Lt.
Proof.
  intros Hab [Hbc | Hbc];
  destruct a as [sa | sa | | sa ma ea], b as [sb | sb | | sb mb eb],
           c as [sc | sc | | sc mc ec];
  try destruct sa; try destruct sb; try destruct sc;
  cbn in *; try congruence;
  rewrite ?Pos.compare_cont_spec in *; cbn in *;
  cmp_cases; cbn in *; try congruence; try lia.
Qed.

Lemma SFcompare_lt_gt (a b : spec_float) :
  SFcompare a b = Some Lt -> SFcompare b a = Some Gt.
Proof.
  intros Hab;
  destruct a as [sa | sa | | sa ma ea], b as [sb | sb | | sb mb eb];
  try destruct sa; try destruct sb;
  cbn in *; try congruence;
  rewrite ?Pos.compare_cont_spec in *; cbn in *;
  cmp_cases; cbn in *; try congruence; try lia.
Qed.

Lemma shr_fexp_positive (q : positive) (e : Z) (l : location) :
  (emin64 <= e)%Z ->
  exists mrs e' q', shr_fexp prec emax (Zpos q) e l = (mrs, e') /\
                    shr_m mrs = Zpos q' /\ (emin64 <= e')%Z.
Proof.
  intros He. unfold shr_fexp, shr, emin64 in *.
  assert (Hm : shr_m (shr_record_of_loc (Zpos q) l) = Zpos q)
    by (destruct l as [|[| |]]; reflexivity).
  cbn [Zdigits2].
  destruct (fexp prec emax (Zpos (digits2_pos q) + e) - e)%Z as [|p|p] eqn:En.
  - eauto 6.
  - assert (Hp : (Zpos p < Zpos (digits2_pos q))%Z).
    { unfold fexp, SpecFloat.emin, prec, emax in En. lia. }
    rewrite iter_pos_nat.
    destruct (shr_record_of_loc (Zpos q) l) as [m r s]. cbn in Hm. subst m.
    destruct (shr_1_iter_pos (Pos.to_nat p) q r s) as (q' & Hq' & _).
    { rewrite positive_nat_Z. exact Hp. }
    exists (Nat.iter (Pos.to_nat p) shr_1 {| shr_m := Zpos q; shr_r := r; shr_s := s |}).
    exists (e + Zpos p)%Z, q'. repeat split; [exact Hq' | lia].
  - eauto 6.
Qed.

Lemma round_nearest_even_positive (q : positive) (l : location) :
  exists q', round_nearest_even (Zpos q) l = Zpos q'.
Proof.
  destruct l as [|[| |]]; cbn [round_nearest_even]; eauto.
  - destruct (Z.even (Zpos q)); [eauto | exists (q + 1)%positive; reflexivity].
  - exists (q + 1)%positive; reflexivity.
Qed.

Lemma binary_round_aux_nonzero (sx : bool) (q : positive) (e : Z) (l : location) :
  (emin64 <= e)%Z -> SFnonzero (binary_round_aux prec emax sx (Zpos q) e l).
Proof.
  intros He. unfold binary_round_aux.
  destruct (shr_fexp_positive q e l He) as (mrs & e' & q' & -> & Hq' & He').
  rewrite Hq'.
  destruct (round_nearest_even_positive q' (loc_of_shr_record mrs)) as (q2 & ->).
  destruct (shr_fexp_positive q2 e' loc_Exact He') as (mrs2 & e2 & q3 & -> & -> & _).
  destruct (e2 <=? emax - prec)%Z; exact I.
Qed.

Lemma binary_normalize_nonzero (m e : Z) :
  m <> 0%Z -> (emin64 <= e)%Z -> SFnonzero (binary_normalize prec emax m e false).
Proof.
  intros Hm He.
  assert (Hr : forall s q, SFnonzero (binary_round prec emax s q e)).
  { intros s q. unfold binary_round, shl_align.
    set (t := fexp prec emax (Zpos (digits2_pos q) + e)).
    assert (Ht : (emin64 <= t)%Z)
      by (unfold t, fexp, SpecFloat.emin, prec, emax, emin64; lia).
    destruct (t - e)%Z; apply binary_round_aux_nonzero; assumption. }
  destruct m; [congruence | apply Hr | apply Hr].
Qed.

Lemma canonical_exponent (m : positive) (e : Z) :
  canonical_mantissa prec emax m e = true ->
  (emin64 <= e)%Z /\ (Zpos (digits2_pos m) <= 53)%Z /\
  ((emin64 < e)%Z -> Zpos (digits2_pos m) = 53%Z).
Proof.
  unfold canonical_mantissa, fexp, SpecFloat.emin, prec, emax, emin64.
  intros H. apply Z.eqb_eq in H. lia.
Qed.

Lemma shl_align_fst (m : positive) (e e' : Z) :
  (e' <= e)%Z ->
  Zpos (digits2_pos (fst (shl_align m e e'))) = (Zpos (digits2_pos m) + (e - e'))%Z.
Proof.
  intros H. unfold shl_align.
  destruct (e' - e)%Z as [|p|p] eqn:E; cbn [fst]; try lia.
  rewrite digits2_pos_iter_xO. lia.
Qed.

Lemma SFsub_nonzero (a b : spec_float) :
  valid_binary a = true -> valid_binary b = true ->
  SFcompare a b = Some Lt ->
  SFnonzero (SF64sub b a).
Proof.
  intros Va Vb Hlt.
  destruct a as [sa | sa | | sa ma ea], b as [sb | sb | | sb mb eb];
    try destruct sa; try destruct sb; cbn in Hlt; try congruence; try exact I.
  all: cbn [valid_binary] in Va, Vb; unfold bounded in Va, Vb;
    apply andb_prop in Va, Vb; destruct Va as [Va _], Vb as [Vb _];
    apply canonical_exponent in Va, Vb;
    destruct Va as (Ea & Da & Na), Vb as (Eb & Db & Nb).
  all: unfold SF64sub, SFsub; apply binary_normalize_nonzero; [| lia].
  all: pose proof (shl_align_fst ma ea (Z.min eb ea) ltac:(lia)) as Sa;
    pose proof (shl_align_fst mb eb (Z.min eb ea) ltac:(lia)) as Sb.
  all: cbn [cond_Zopp]; try lia.
  all: rewrite ?Pos.compare_cont_spec in Hlt; cbn in Hlt.
  all: intros Hz;
    assert (Heq : fst (shl_align mb eb (Z.min eb ea)) = fst (shl_align ma ea (Z.min eb ea))) by lia;
    rewrite Heq in Sb; rewrite Sa in Sb.
  all: destruct (Z.compare_spec ea eb) as [E|E|E]; try congruence.
  all: try (assert (ea = eb) by lia; try lia).
  all: subst; rewrite Z.min_id in Heq; unfold shl_align in Heq; rewrite Z.sub_diag in Heq;
    cbn in Heq; subst; rewrite Pos.compare_refl in Hlt; cbn in Hlt; congruence.
Qed.


(** ** Order and subtraction on binary64 *)

Lemma Prim2SF_zero : Prim2SF 0%float = S754_zero false.
Proof. reflexivity. Qed.

Lemma SFnonzero_eqb_zero (x : spec_float) :
  SFnonzero x -> SFeqb x (S754_zero false) = false.
Proof. destruct x as [s | s | | s m e]; cbn; try destruct s; tauto. Qed.

Lemma ltb_leb_trans (x y z : float) :
  (x <? y)%float = true -> (y <=? z)%float = true -> (x <? z)%float = true.
Proof.
  rewrite !FloatAxioms.ltb_spec, FloatAxioms.leb_spec. unfold SFltb, SFleb.
  destruct (SFcompare (Prim2SF x) (Prim2SF y)) as [[| |]|] eqn:Hxy; try discriminate.
  destruct (SFcompare (Prim2SF y) (Prim2SF z)) as [[| |]|] eqn:Hyz; try discriminate;
    intros _ _; erewrite SFcompare_lt_le_trans; eauto.
Qed.

Lemma ltb_asym (x y : float) :
  (x <? y)%float = true -> (y <? x)%float = false.
Proof.
  rewrite !FloatAxioms.ltb_spec. unfold SFltb.
  destruct (SFcompare (Prim2SF x) (Prim2SF y)) as [[| |]|] eqn:Hxy; try discriminate.
  intros _. rewrite (SFcompare_lt_gt _ _ Hxy). reflexivity.
Qed.

Lemma ltb_not_leb (x y : float) :
  (x <? y)%float = true -> (y <=? x)%float = false.
Proof.
  rewrite FloatAxioms.ltb_spec, FloatAxioms.leb_spec. unfold SFltb, SFleb.
  destruct (SFcompare (Prim2SF x) (Prim2SF y)) as [[| |]|] eqn:Hxy; try discriminate.
  intros _. rewrite (SFcompare_lt_gt _ _ Hxy). reflexivity.
Qed.

Lemma ltb_not_eqb (x y : float) :
  (x <? y)%float = true -> (x =? y)%float = false.
Proof.
  rewrite FloatAxioms.ltb_spec, FloatAxioms.eqb_spec. unfold SFltb, SFeqb.
  destruct (SFcompare (Prim2SF x) (Prim2SF y)) as [[| |]|]; congruence.
Qed.

Lemma ltb_sub_nonzero (x y : float) :
  (x <? y)%float = true -> (y - x =? 0)%float = false.
Proof.
  rewrite FloatAxioms.ltb_spec, FloatAxioms.eqb_spec, sub_spec, Prim2SF_zero. unfold SFltb.
  destruct (SFcompare (Prim2SF x) (Prim2SF y)) as [[| |]|] eqn:Hxy; try discriminate.
  intros _. apply SFnonzero_eqb_zero, SFsub_nonzero; auto using Prim2SF_valid.
Qed.

(** ** Sorting binary64 numbers *)

Lemma SFcompare_total (a b : spec_float) :
  a <> S754_nan -> b <> S754_nan ->
  exists c, SFcompare a b = Some c /\ SFcompare b a = Some (CompOpp c).
Proof.
  intros Ha Hb.
  destruct a as [sa | sa | | sa ma ea], b as [sb | sb | | sb mb eb];
    try congruence; try destruct sa; try destruct sb; cbn;
    try (eexists; split; reflexivity).
  all: rewrite !Pos.compare_cont_spec; cbn;
    rewrite (Z.compare_antisym ea eb), (Pos.compare_antisym ma mb);
    destruct (Z.compare ea eb); cbn; try (eexists; split; reflexivity);
    destruct (Pos.compare ma mb); cbn; eexists; split; reflexivity.
Qed.

Lemma is_nan_false_spec (x : float) : is_nan x = false -> Prim2SF x <> S754_nan.
Proof.
  unfold is_nan. rewrite FloatAxioms.eqb_spec. intros H E. rewrite E in H.
  discriminate.
Qed.

Lemma leb_total (x y : float) :
  is_nan x = false -> is_nan y = false ->
  (x <=? y)%float = false -> (y <=? x)%float = true.
Proof.
  intros Hx Hy. rewrite !FloatAxioms.leb_spec. unfold SFleb.
  destruct (SFcompare_total _ _ (is_nan_false_spec x Hx) (is_nan_false_spec y Hy))
    as (c & -> & ->).
  destruct c; cbn; congruence.
Qed.

Lemma insert_sorted_perm (x : float) (l : list float) :
  Permutation (insert_sorted x l) (x :: l).
Proof.
  induction l as [|y rest IH]; cbn [insert_sorted]; [apply Permutation_refl|].
  destruct (x <=? y)%float; [apply Permutation_refl|].
  apply perm_trans with (y :: x :: rest); [apply perm_skip, IH | apply perm_swap].
Qed.

Lemma np_sort_perm (l : list float) : Permutation (np_sort l) l.
Proof.
  induction l as [|x rest IH]; cbn [np_sort fold_right]; [apply perm_nil|].
  apply perm_trans with (x :: np_sort rest);
    [apply insert_sorted_perm | apply perm_skip, IH].
Qed.

Lemma insert_sorted_hd (x a : float) (l : list float) :
  fle a x -> HdRel fle a l -> HdRel fle a (insert_sorted x l).
Proof.
  intros Hax Hal. destruct l as [|y rest]; cbn [insert_sorted].
  - constructor. exact Hax.
  - destruct (x <=? y)%float; constructor; [exact Hax |].
    inversion Hal; assumption.
Qed.

Lemma insert_sorted_sorted (x : float) (l : list float) :
  is_nan x = false -> (forall v, In v l -> is_nan v = false) ->
  Sorted fle l -> Sorted fle (insert_sorted x l).
Proof.
  intros Hx Hl Hs. induction Hs as [|y rest Hrest IH Hhd]; cbn [insert_sorted].
  - repeat constructor.
  - destruct (x <=? y)%float eqn:Hxy.
    + constructor; [constructor; assumption | constructor; exact Hxy].
    + constructor.
      * apply IH. intros v Hv. apply Hl. right. exact Hv.
      * apply insert_sorted_hd; [| exact Hhd].
        apply leb_total; [exact Hx | apply Hl; left; reflexivity | exact Hxy].
Qed.

Lemma np_sort_sorted (l : list float) :
  (forall v, In v l -> is_nan v = false) -> Sorted fle (np_sort l).
Proof.
  induction l as [|x rest IH]; intros Hl; cbn [np_sort fold_right]; [constructor|].
  apply insert_sorted_sorted.
  - apply Hl. left. reflexivity.
  - intros v Hv. apply Hl. right.
    apply (Permutation_in v (np_sort_perm rest)). exact Hv.
  - apply IH. intros v Hv. apply Hl. right. exact Hv.
Qed.

(** ** Runs *)

Lemma bind_ok_inv {A B} (m : IO A) (k : A -> IO B) fs tr (b : B) :
  bind m k fs = (tr, Ok b) ->
  exists t1 a t2, m fs = (t1, Ok a) /\ k a fs = (t2, Ok b) /\ tr = t1 ++ t2.
Proof.
  unfold bind. destruct (m fs) as [t1 [a | e]]; [| discriminate].
  destruct (k a fs) as [t2 r] eqn:Ek. intros [= <- ->]. eauto 6.
Qed.

Lemma aborts_bind_l {A B} (m : IO A) (k : A -> IO B) fs :
  aborts (m fs) -> aborts (bind m k fs).
Proof.
  unfold aborts, bind. intros [e He].
  destruct (m fs) as [t1 [a | e']]; cbn in He; [discriminate|].
  exists e'. reflexivity.
Qed.

Lemma aborts_bind_r {A B} (m : IO A) (k : A -> IO B) fs :
  (forall a, aborts (k a fs)) -> aborts (bind m k fs).
Proof.
  unfold aborts, bind. intros Hk.
  destruct (m fs) as [t1 [a | e']]; [| exists e'; reflexivity].
  destruct (Hk a) as [e He]. destruct (k a fs) as [t2 r]. cbn in *. eauto.
Qed.

(** A loop aborts as soon as one of its rounds is bound to abort. *)
Lemma for_in_aborts {A S} (xs : list A) (body : A -> S -> IO S) fs (x : A) :
  In x xs -> (forall s, aborts (body x s fs)) ->
  forall s, aborts (for_in xs body s fs).
Proof.
  induction xs as [|y rest IH]; intros Hin Hx s; [contradiction|].
  cbn [for_in]. destruct Hin as [-> | Hin].
  - apply aborts_bind_l, Hx.
  - apply aborts_bind_r. intros s'. apply IH; assumption.
Qed.

(** A loop whose rounds all return and append: the traces of the rounds
    follow one another, and so do the appended entries. *)
Lemma for_in_append {A B} (xs : list A) (body : A -> list B -> IO (list B)) fs
    (t : A -> trace) (g : A -> list B) :
  (forall x s, In x xs -> body x s fs = (t x, Ok (s ++ g x))) ->
  forall s, for_in xs body s fs = (flat_map t xs, Ok (s ++ flat_map g xs)).
Proof.
  induction xs as [|x rest IH]; intros Hbody s; cbn [for_in flat_map].
  - unfold ret. rewrite app_nil_r. reflexivity.
  - unfold bind. rewrite (Hbody x s) by (left; reflexivity).
    rewrite IH by (intros y s' Hy; apply Hbody; right; exact Hy).
    rewrite <- app_assoc. reflexivity.
Qed.

Lemma returns_bind {A B} (m : IO A) (k : A -> IO B) fs :
  returns (m fs) -> (forall a, returns (k a fs)) -> returns (bind m k fs).
Proof.
  unfold returns, bind. intros [a Ha] Hk.
  destruct (m fs) as [t1 [a' | e]]; cbn in Ha; [| discriminate].
  destruct (Hk a') as [b Hb]. destruct (k a' fs) as [t2 r]. cbn in *. eauto.
Qed.

Lemma returns_ret {A} (a : A) fs : returns (ret a fs).
Proof. exists a. reflexivity. Qed.

Lemma returns_print (l : line) fs : returns (print l fs).
Proof. exists tt. reflexivity. Qed.

Lemma for_in_returns {A S} (xs : list A) (body : A -> S -> IO S) fs :
  (forall x s, In x xs -> returns (body x s fs)) ->
  forall s, returns (for_in xs body s fs).
Proof.
  induction xs as [|x rest IH]; intros Hbody s; cbn [for_in].
  - apply returns_ret.
  - apply returns_bind; [apply Hbody; left; reflexivity |].
    intros s'. apply IH. intros y s'' Hy. apply Hbody. right. exact Hy.
Qed.

Lemma returns_bind_exists {A} (p : path) (k : bool -> IO A) fs :
  returns (k (match fs p with Some _ => true | None => false end) fs) ->
  returns (bind (path_exists p) k fs).
Proof.
  unfold returns, bind, path_exists. intros [a Ha].
  destruct (k _ fs) as [t2 r]. cbn in *. eauto.
Qed.

Lemma lift_ok_inv {A} (r : outcome A) fs tr (a : A) :
  lift r fs = (tr, Ok a) -> r = Ok a /\ tr = [].
Proof. unfold lift. intros [= <- ->]. split; reflexivity. Qed.

Lemma print_ok_inv (l : line) fs tr (u : unit) :
  print l fs = (tr, Ok u) -> tr = [EvPrint l].
Proof. unfold print. intros [= <-]. reflexivity. Qed.

(** The int literals the scripts divide by are exact as floats. *)
Lemma float_of_Z_1000 : float_of_Z 1000 = 1000%float.
Proof. vm_compute. reflexivity. Qed.

Lemma float_of_Z_2 : float_of_Z 2 = 2%float.
Proof. vm_compute. reflexivity. Qed.

Lemma float_of_Z_1000000 : float_of_Z 1000000 = 1000000%float.
Proof. vm_compute. reflexivity. Qed.

(** ** The breakeven loop *)

Lemma wrap64_in_range (z : Z) : in_int64 z -> wrap64 z = z.
Proof.
  unfold in_int64, wrap64. intros H.
  rewrite Z.mod_small; lia.
Qed.

Lemma nth_means (s : series) (i : nat) (x : Z) (y : float) :
  nth_error s i = Some (x, y) -> nth i (map snd s) nan = y.
Proof.
  intros H. apply nth_error_nth. rewrite nth_error_map, H. reflexivity.
Qed.

Lemma nth_indices (s : series) (i : nat) (x : Z) (y : float) :
  nth_error s i = Some (x, y) -> nth i (map fst s) 0%Z = x.
Proof.
  intros H. apply nth_error_nth. rewrite nth_error_map, H. reflexivity.
Qed.

Lemma crosses_brackets (s : series) (baseline : float) (i : nat) x1 y1 x2 y2 :
  nth_error s i = Some (x1, y1) -> nth_error s (S i) = Some (x2, y2) ->
  crosses (map snd s) baseline i = brackets y1 y2 baseline.
Proof.
  intros H1 H2. unfold crosses, brackets.
  rewrite (nth_means s i x1 y1 H1), (nth_means s (S i) x2 y2 H2). reflexivity.
Qed.

Lemma interpolate_linear (s : series) (baseline : float) (i : nat) x1 y1 x2 y2 :
  nth_error s i = Some (x1, y1) -> nth_error s (S i) = Some (x2, y2) ->
  in_int64 (x2 - x1) ->
  interpolate (map fst s) (map snd s) baseline i
  = linear_interpolation x1 y1 x2 y2 baseline.
Proof.
  intros H1 H2 Hr. unfold interpolate, linear_interpolation, int64_sub.
  rewrite (nth_means s i x1 y1 H1), (nth_means s (S i) x2 y2 H2).
  rewrite (nth_indices s i x1 y1 H1), (nth_indices s (S i) x2 y2 H2).
  rewrite (wrap64_in_range _ Hr). reflexivity.
Qed.

(** The loop over [range(a, a + n)] stops at the first index that
    crosses. *)
Lemma breakeven_loop_first indices means baseline (n a i : nat) :
  a <= i < a + n ->
  crosses means baseline i = true ->
  (forall j, a <= j < i -> crosses means baseline j = false) ->
  breakeven_loop indices means baseline (seq a n)
  = Some (interpolate indices means baseline i).
Proof.
  revert a. induction n as [|n IH]; intros a Hi Hc Hfirst; [lia|].
  cbn [seq breakeven_loop].
  destruct (Nat.eq_dec a i) as [->|Hne].
  - rewrite Hc. reflexivity.
  - rewrite (Hfirst a) by lia. apply IH; [lia | exact Hc |].
    intros j Hj. apply Hfirst. lia.
Qed.

Lemma breakeven_loop_none indices means baseline (n a : nat) :
  (forall j, a <= j < a + n -> crosses means baseline j = false) ->
  breakeven_loop indices means baseline (seq a n) = None.
Proof.
  revert a. induction n as [|n IH]; intros a Hnone; [reflexivity|].
  cbn [seq breakeven_loop]. rewrite (Hnone a) by lia.
  apply IH. intros j Hj. apply Hnone. lia.
Qed.

(** Whatever the loop returns was interpolated at an index that crosses. *)
Lemma breakeven_loop_some indices means baseline (range : list nat) (x : float) :
  breakeven_loop indices means baseline range = Some x ->
  exists i, In i range /\ crosses means baseline i = true /\
            x = interpolate indices means baseline i.
Proof.
  induction range as [|i rest IH]; cbn [breakeven_loop]; [discriminate|].
  destruct (crosses means baseline i) eqn:Hc.
  - intros [= <-]. exists i. cbn. auto.
  - intros H. destruct (IH H) as (k & Hin & Hk). exists k. cbn. auto.
Qed.

Lemma crossover_first (s : series) (baseline : float) (i : nat) x1 y1 x2 y2 :
  nth_error s i = Some (x1, y1) -> nth_error s (S i) = Some (x2, y2) ->
  brackets y1 y2 baseline = true ->
  (forall j a b c d, j < i ->
     nth_error s j = Some (a, b) -> nth_error s (S j) = Some (c, d) ->
     brackets b d baseline = false) ->
  crossover s baseline = Some (interpolate (map fst s) (map snd s) baseline i).
Proof.
  intros H1 H2 Hb Hfirst. unfold crossover, find_breakeven.
  assert (Hlen : S i < List.length s) by (apply nth_error_Some; congruence).
  apply breakeven_loop_first.
  - rewrite length_map. lia.
  - rewrite (crosses_brackets s baseline i x1 y1 x2 y2 H1 H2). exact Hb.
  - intros j Hj.
    destruct (nth_error s j) as [[a b]|] eqn:Ej;
      [| apply nth_error_None in Ej; lia].
    destruct (nth_error s (S j)) as [[c d]|] eqn:Ej';
      [| apply nth_error_None in Ej'; lia].
    rewrite (crosses_brackets s baseline j a b c d Ej Ej').
    apply (Hfirst j a b c d); [lia | assumption | assumption].
Qed.

Lemma crossover_none (s : series) (baseline : float) :
  (forall i x1 y1 x2 y2,
     nth_error s i = Some (x1, y1) -> nth_error s (S i) = Some (x2, y2) ->
     brackets y1 y2 baseline = false) ->
  crossover s baseline = None.
Proof.
  intros Hnone. unfold crossover, find_breakeven.
  apply breakeven_loop_none. rewrite length_map. intros j Hj.
  destruct (nth_error s j) as [[a b]|] eqn:Ej;
    [| apply nth_error_None in Ej; lia].
  destruct (nth_error s (S j)) as [[c d]|] eqn:Ej';
    [| apply nth_error_None in Ej'; lia].
  rewrite (crosses_brackets s baseline j a b c d Ej Ej').
  apply (Hnone j a b c d); assumption.
Qed.

(** ** Claims about the crossover finder *)

(** C1, as stated, fails on its own example: the series
    [(1,20),(2,15),(4,8)] falls through the baseline 10, no adjacent pair
    has [y1 < 10 <= y2], and the loop ends without a breakeven instead of
    reporting [2 + 10/7]. *)
Lemma falling_series_has_no_crossover :
  crossover [(1%Z, 20%float); (2%Z, 15%float); (4%Z, 8%float)] 10%float = None /\
  crossover [(1%Z, 20%float); (2%Z, 15%float); (4%Z, 8%float)] 10%float <> Some (2 + 10 / 7)%float.
Proof. split; [vm_compute; reflexivity | vm_compute; discriminate]. Qed.

(** C1 (amended).  At the first adjacent pair [(x1,y1),(x2,y2)] of the
    series with [y1 < baseline <= y2] the finder returns
    [x1 + (baseline - y1) * (x2 - x1) / (y2 - y1)], computed in binary64
    (the control values are [int64]; their difference must not wrap).
    The series [(1,20),(2,15),(4,8)] with baseline 10 has no such pair and
    no crossover is reported. *)
Theorem crossover_interpolates_first_bracketing_pair :
  (forall (s : series) (baseline : float) (i : nat) x1 y1 x2 y2,
     nth_error s i = Some (x1, y1) -> nth_error s (S i) = Some (x2, y2) ->
     brackets y1 y2 baseline = true ->
     (forall j a b c d, j < i ->
        nth_error s j = Some (a, b) -> nth_error s (S j) = Some (c, d) ->
        brackets b d baseline = false) ->
     in_int64 (x2 - x1) ->
     crossover s baseline = Some (linear_interpolation x1 y1 x2 y2 baseline)) /\
  crossover [(1%Z, 20%float); (2%Z, 15%float); (4%Z, 8%float)] 10%float = None.
Proof.
  split; [| vm_compute; reflexivity].
  intros s baseline i x1 y1 x2 y2 H1 H2 Hb Hfirst Hr.
  rewrite (crossover_first s baseline i x1 y1 x2 y2 H1 H2 Hb Hfirst).
  rewrite (interpolate_linear s baseline i x1 y1 x2 y2 H1 H2 Hr). reflexivity.
Qed.

(** The rising series [(1,5),(2,8),(4,15)] crosses 10 between x = 2 and
    x = 4. *)
Lemma crossover_interpolates_first_bracketing_pair_witness :
  crossover [(1%Z, 5%float); (2%Z, 8%float); (4%Z, 15%float)] 10%float
  = Some (linear_interpolation 2 8 4 15 10).
Proof.
  apply (proj1 crossover_interpolates_first_bracketing_pair
               [(1%Z, 5%float); (2%Z, 8%float); (4%Z, 15%float)] 10%float 1%nat 2%Z 8%float 4%Z 15%float).
  - reflexivity.
  - reflexivity.
  - vm_compute; reflexivity.
  - intros j a b c d Hj Ha Hc.
    destruct j as [|j]; [| lia].
    cbn in Ha, Hc. injection Ha as <- <-. injection Hc as <- <-.
    vm_compute; reflexivity.
  - unfold in_int64. lia.
Defined.

(** C2.  Only the first adjacent pair with [y1 < baseline <= y2] is
    reported and the scan stops there: two series that agree up to that
    pair give the same breakeven, whatever follows, later crossings
    included.  For [(1,5),(2,15),(4,5),(8,15)] with baseline 10 the
    crossing between indices 0 and 1 is reported (1.5) although indices 2
    and 3 bracket the baseline again. *)
Theorem crossover_reports_first_crossing_only :
  (forall (s s' : series) (baseline : float) (i : nat) x1 y1 x2 y2,
     nth_error s i = Some (x1, y1) -> nth_error s (S i) = Some (x2, y2) ->
     brackets y1 y2 baseline = true ->
     (forall j a b c d, j < i ->
        nth_error s j = Some (a, b) -> nth_error s (S j) = Some (c, d) ->
        brackets b d baseline = false) ->
     firstn (S (S i)) s' = firstn (S (S i)) s ->
     crossover s' baseline = crossover s baseline /\
     crossover s baseline = Some (interpolate (map fst s) (map snd s) baseline i)) /\
  (crossover [(1%Z, 5%float); (2%Z, 15%float); (4%Z, 5%float); (8%Z, 15%float)] 10%float
   = Some (linear_interpolation 1 5 2 15 10) /\
   linear_interpolation 1 5 2 15 10 = 1.5%float /\
   crosses [5; 15; 5; 15]%float 10%float 0 = true /\
   crosses [5; 15; 5; 15]%float 10%float 2 = true).
Proof.
  split; [| repeat split; vm_compute; congruence].
  intros s s' baseline i x1 y1 x2 y2 H1 H2 Hb Hfirst Hpre.
  assert (Hnth : forall j, j < S (S i) -> nth_error s' j = nth_error s j).
  { intros j Hj.
    pose proof (f_equal (fun l => nth_error l j) Hpre) as E. cbn beta in E.
    rewrite !nth_error_firstn in E.
    apply Nat.ltb_lt in Hj. rewrite Hj in E. exact E. }
  assert (H1' : nth_error s' i = Some (x1, y1)) by (rewrite Hnth by lia; exact H1).
  assert (H2' : nth_error s' (S i) = Some (x2, y2)) by (rewrite Hnth by lia; exact H2).
  rewrite (crossover_first s baseline i x1 y1 x2 y2 H1 H2 Hb Hfirst).
  split; [| reflexivity].
  rewrite (crossover_first s' baseline i x1 y1 x2 y2 H1' H2' Hb).
  - unfold interpolate.
    rewrite (nth_means s i x1 y1 H1), (nth_means s (S i) x2 y2 H2).
    rewrite (nth_means s' i x1 y1 H1'), (nth_means s' (S i) x2 y2 H2').
    rewrite (nth_indices s i x1 y1 H1), (nth_indices s (S i) x2 y2 H2).
    rewrite (nth_indices s' i x1 y1 H1'), (nth_indices s' (S i) x2 y2 H2').
    reflexivity.
  - intros j a b c d Hj Ha Hc. rewrite Hnth in Ha, Hc by lia.
    apply (Hfirst j a b c d Hj Ha Hc).
Qed.

(** The series of the claim against the same series cut after its first
    crossing. *)
Lemma crossover_reports_first_crossing_only_witness :
  crossover [(1%Z, 5%float); (2%Z, 15%float)] 10%float
  = crossover [(1%Z, 5%float); (2%Z, 15%float); (4%Z, 5%float); (8%Z, 15%float)] 10%float.
Proof.
  apply (proj1 crossover_reports_first_crossing_only
               [(1%Z, 5%float); (2%Z, 15%float); (4%Z, 5%float); (8%Z, 15%float)] [(1%Z, 5%float); (2%Z, 15%float)]
               10%float 0%nat 1%Z 5%float 2%Z 15%float).
  - reflexivity.
  - reflexivity.
  - vm_compute; reflexivity.
  - intros j a b c d Hj. lia.
  - reflexivity.
Defined.

(** C5.  When no adjacent pair of the series has [y1 < baseline <= y2]
    the finder returns [None]; this covers a series entirely above the
    baseline, one entirely below it and one with fewer than two points,
    and [(1,5),(2,4),(4,3)] with baseline 10.  The outcome is a value, not
    an exception: a run of either fverify script that returns holds as
    its breakeven exactly what the finder returned. *)
Theorem crossover_absent_without_bracketing_pair :
  (forall (s : series) (baseline : float),
     (forall i x1 y1 x2 y2,
        nth_error s i = Some (x1, y1) -> nth_error s (S i) = Some (x2, y2) ->
        brackets y1 y2 baseline = false) ->
     crossover s baseline = None) /\
  (forall (s : series) (baseline : float),
     (forall x y, In (x, y) s -> (baseline <? y)%float = true) ->
     crossover s baseline = None) /\
  (forall (s : series) (baseline : float),
     (forall x y, In (x, y) s -> (y <? baseline)%float = true) ->
     crossover s baseline = None) /\
  (forall (s : series) (baseline : float),
     List.length s < 2 -> crossover s baseline = None) /\
  crossover [(1%Z, 5%float); (2%Z, 4%float); (4%Z, 3%float)] 10%float = None /\
  (forall fs tr fig,
     Fverify1024.main fs = (tr, Ok fig) ->
     Fverify1024.breakeven fig
     = find_breakeven (Fverify1024.indices fig) (Fverify1024.means fig)
                      (Fverify1024.verify_mean fig)) /\
  (forall fs tr fig,
     Fverify.main fs = (tr, Ok fig) ->
     Fverify.breakeven_512 fig
     = find_breakeven (Fverify.indices_512 fig) (Fverify.means_512 fig)
                      (Fverify.verify_512_mean fig) /\
     Fverify.breakeven_1024 fig
     = find_breakeven (Fverify.indices_1024 fig) (Fverify.means_1024 fig)
                      (Fverify.verify_1024_mean fig)).
Proof.
  repeat apply conj.
  - exact crossover_none.
  - intros s baseline Habove. apply crossover_none.
    intros i x1 y1 x2 y2 H1 _. unfold brackets.
    rewrite (ltb_asym baseline y1); [reflexivity |].
    apply (Habove x1). eapply nth_error_In; eassumption.
  - intros s baseline Hbelow. apply crossover_none.
    intros i x1 y1 x2 y2 _ H2. unfold brackets.
    rewrite (ltb_not_leb y2 baseline); [apply andb_false_r |].
    apply (Hbelow x2). eapply nth_error_In; eassumption.
  - intros s baseline Hlen. apply crossover_none.
    intros i x1 y1 x2 y2 _ H2.
    assert (S i < List.length s) by (apply nth_error_Some; congruence). lia.
  - vm_compute; reflexivity.
  - intros fs tr fig Hmain. unfold Fverify1024.main in Hmain.
    repeat (apply bind_ok_inv in Hmain; destruct Hmain as (? & ? & ? & _ & Hmain & _)).
    injection Hmain as _ <-. reflexivity.
  - intros fs tr fig Hmain. unfold Fverify.main in Hmain.
    repeat (apply bind_ok_inv in Hmain; destruct Hmain as (? & ? & ? & _ & Hmain & _)).
    repeat match type of Hmain with
           | context [match ?l with [] => _ | _ :: _ => _ end] =>
               destruct l; [discriminate|]
           end.
    injection Hmain as _ <-. split; reflexivity.
Qed.

(** The series of the claim lies entirely below its baseline. *)
Lemma crossover_absent_without_bracketing_pair_witness :
  crossover [(1%Z, 5%float); (2%Z, 4%float); (4%Z, 3%float)] 10%float = None.
Proof.
  apply (proj1 (proj2 (proj2 crossover_absent_without_bracketing_pair))).
  intros x y [H | [H | [H | []]]]; injection H as _ <-; vm_compute; reflexivity.
Defined.

(** C9.  The division of the interpolation never has a zero divisor:
    [y1 < baseline <= y2] forces [y2 - y1] to be nonzero in binary64 and
    [y1], [y2] to differ; every breakeven the finder returns was computed
    at such a pair; and at a pair with [y1 == y2] the loop does not
    interpolate but goes on to the next index. *)
Theorem interpolation_divisor_is_nonzero :
  (forall y1 y2 baseline : float,
     brackets y1 y2 baseline = true ->
     (y2 - y1 =? 0)%float = false /\ (y1 =? y2)%float = false) /\
  (forall indices means baseline x,
     find_breakeven indices means baseline = Some x ->
     exists i, S i < List.length means /\
               crosses means baseline i = true /\
               x = interpolate indices means baseline i /\
               (nth (S i) means nan - nth i means nan =? 0)%float = false) /\
  (forall indices means baseline i rest,
     (nth i means nan =? nth (S i) means nan)%float = true ->
     breakeven_loop indices means baseline (i :: rest)
     = breakeven_loop indices means baseline rest).
Proof.
  assert (Hlt : forall y1 y2 baseline,
             brackets y1 y2 baseline = true -> (y1 <? y2)%float = true).
  { intros y1 y2 baseline Hb. unfold brackets in Hb.
    apply andb_prop in Hb. destruct Hb as [H1 H2].
    exact (ltb_leb_trans y1 baseline y2 H1 H2). }
  repeat apply conj.
  - intros y1 y2 baseline Hb. pose proof (Hlt _ _ _ Hb) as H.
    split; [apply ltb_sub_nonzero | apply ltb_not_eqb]; exact H.
  - intros indices means baseline x Hx.
    destruct (breakeven_loop_some _ _ _ _ _ Hx) as (i & Hin & Hc & ->).
    apply in_seq in Hin. exists i. repeat split; [lia | exact Hc |].
    apply ltb_sub_nonzero. exact (Hlt _ _ _ Hc).
  - intros indices means baseline i rest Heq. cbn [breakeven_loop].
    destruct (crosses means baseline i) eqn:Hc; [| reflexivity].
    apply Hlt, ltb_not_eqb in Hc. congruence.
Qed.

(** The pair [y1 = 5], [y2 = 15] around the baseline 10. *)
Lemma interpolation_divisor_is_nonzero_witness :
  (15 - 5 =? 0)%float = false /\ (5 =? 15)%float = false.
Proof.
  apply (proj1 interpolation_divisor_is_nonzero 5%float 15%float 10%float).
  vm_compute; reflexivity.
Defined.

(** ** The two loaders *)

Ltac run_io :=
  cbv beta iota zeta
      delta [bind path_exists open_json_load lift ret print raise negb app].

Lemma stream_load_new fs p n :
  fs (new_file p) = Some n ->
  FastFullVerify.load_criterion_estimate p fs
  = ([EvExists (new_file p); EvExists (new_file p); EvOpen (new_file p)], stream_read n).
Proof.
  intros Hn.
  unfold FastFullVerify.load_criterion_estimate. fold (new_file p).
  repeat (progress (run_io; rewrite ?Hn)).
  destruct n as [|[| |j]]; try reflexivity.
  cbn [stream_read lookup point_estimate_key].
  destruct (subscript j "mean") as [m|e]; [| reflexivity]. cbn [and_then].
  destruct (subscript m "point_estimate") as [v|e]; reflexivity.
Qed.

Lemma stream_load_base fs p n :
  fs (new_file p) = None -> fs (base_file p) = Some n ->
  FastFullVerify.load_criterion_estimate p fs
  = ([EvExists (new_file p); EvExists (base_file p); EvOpen (base_file p)], stream_read n).
Proof.
  intros Hnew Hn.
  unfold FastFullVerify.load_criterion_estimate. fold (new_file p) (base_file p).
  repeat (progress (run_io; rewrite ?Hnew, ?Hn)).
  destruct n as [|[| |j]]; try reflexivity.
  cbn [stream_read lookup point_estimate_key].
  destruct (subscript j "mean") as [m|e]; [| reflexivity]. cbn [and_then].
  destruct (subscript m "point_estimate") as [v|e]; reflexivity.
Qed.

Lemma stream_load_absent fs p :
  fs (new_file p) = None -> fs (base_file p) = None ->
  FastFullVerify.load_criterion_estimate p fs
  = ([EvExists (new_file p); EvExists (base_file p)], Ok None).
Proof.
  intros Hnew Hbase.
  unfold FastFullVerify.load_criterion_estimate. fold (new_file p) (base_file p).
  repeat (progress (run_io; rewrite ?Hnew, ?Hbase)). reflexivity.
Qed.

Lemma fverify_load_new fs p n :
  fs (new_file p) = Some n ->
  Fverify1024.load_criterion_estimate p fs
  = ([EvExists (new_file p); EvOpen (new_file p)], fverify_read n).
Proof.
  intros Hn.
  unfold Fverify1024.load_criterion_estimate. fold (new_file p).
  repeat (progress (run_io; rewrite ?Hn)).
  destruct n as [|[| |j]]; try reflexivity.
Qed.

Lemma fverify_load_base fs p :
  fs (new_file p) = None ->
  Fverify1024.load_criterion_estimate p fs
  = ([EvExists (new_file p); EvOpen (base_file p)],
     match fs (base_file p) with
     | Some n => fverify_read n
     | None => Raise (open_missing fs (base_file p))
     end).
Proof.
  intros Hnew.
  unfold Fverify1024.load_criterion_estimate. fold (new_file p) (base_file p).
  repeat (progress (run_io; rewrite ?Hnew)).
  destruct (fs (base_file p)) as [[|[| |j]]|]; reflexivity.
Qed.

(** Either loader, at a location that has a record: the trace and what
    the record reads as. *)
Lemma stream_load_record fs p n :
  record_file fs p = Some n ->
  snd (FastFullVerify.load_criterion_estimate p fs) = stream_read n.
Proof.
  unfold record_file. destruct (fs (new_file p)) as [n'|] eqn:Hnew.
  - intros [= ->]. rewrite (stream_load_new fs p n Hnew). reflexivity.
  - intros Hbase. rewrite (stream_load_base fs p n Hnew Hbase). reflexivity.
Qed.

Lemma fverify_load_record fs p n :
  record_file fs p = Some n ->
  snd (Fverify1024.load_criterion_estimate p fs) = fverify_read n.
Proof.
  unfold record_file. destruct (fs (new_file p)) as [n'|] eqn:Hnew.
  - intros [= ->]. rewrite (fverify_load_new fs p n Hnew). reflexivity.
  - intros Hbase. rewrite (fverify_load_base fs p Hnew), Hbase. reflexivity.
Qed.

Lemma read_estimate_fields j est :
  Fverify1024.read_estimate j = Ok est ->
  has_field j point_estimate_key = true /\
  has_field j lower_bound_key = true /\
  has_field j upper_bound_key = true.
Proof.
  unfold Fverify1024.read_estimate, has_field, point_estimate_key, lower_bound_key,
    upper_bound_key. cbn [lookup].
  destruct (subscript j "mean") as [m|e]; cbn [and_then]; [| discriminate].
  destruct (subscript m "point_estimate") as [v|e]; cbn [and_then]; [| discriminate].
  destruct (subscript m "confidence_interval") as [ci|e]; cbn [and_then]; [| discriminate].
  destruct (subscript ci "lower_bound") as [lo|e]; cbn [and_then]; [| discriminate].
  destruct (subscript ci "upper_bound") as [hi|e]; cbn [and_then]; [| discriminate].
  auto.
Qed.

Lemma fverify_read_malformed c :
  lacks_estimate_or_bound c = true -> exists e, fverify_read (File c) = Raise e.
Proof.
  destruct c as [| |j]; cbn [lacks_estimate_or_bound fverify_read]; [eauto | eauto |].
  intros Hlack. destruct (Fverify1024.read_estimate j) as [est|e] eqn:Er; [| eauto].
  destruct (read_estimate_fields j est Er) as (H1 & H2 & H3).
  rewrite H1, H2, H3 in Hlack. discriminate.
Qed.

Lemma stream_read_malformed c :
  lacks_point_estimate c = true -> exists e, stream_read (File c) = Raise e.
Proof.
  destruct c as [| |j]; cbn [lacks_point_estimate stream_read]; [eauto | eauto |].
  unfold has_field. destruct (lookup j point_estimate_key) as [v|e]; [discriminate|].
  cbn [and_then]. eauto.
Qed.

Lemma fverify_load_malformed fs p c :
  record_file fs p = Some (File c) -> lacks_estimate_or_bound c = true ->
  aborts (Fverify1024.load_criterion_estimate p fs).
Proof.
  intros Hrec Hlack. unfold aborts.
  rewrite (fverify_load_record fs p _ Hrec). apply fverify_read_malformed, Hlack.
Qed.

Lemma stream_load_malformed fs p c :
  record_file fs p = Some (File c) -> lacks_point_estimate c = true ->
  aborts (FastFullVerify.load_criterion_estimate p fs).
Proof.
  intros Hrec Hlack. unfold aborts.
  rewrite (stream_load_record fs p _ Hrec). apply stream_read_malformed, Hlack.
Qed.

(** ** Runs that hit a malformed record *)

Lemma aborts_raise {A} (e : exn) fs : aborts (@raise A e fs).
Proof. exists e. reflexivity. Qed.

Lemma aborts_bind_exists {A} (p : path) (k : bool -> IO A) fs :
  aborts (k (match fs p with Some _ => true | None => false end) fs) ->
  aborts (bind (path_exists p) k fs).
Proof.
  unfold aborts, bind, path_exists. intros [e He].
  destruct (k _ fs) as [t2 r]. cbn in *. eauto.
Qed.

Lemma stream_load_cell_aborts fs subdir c series :
  record_file fs (join FastFullVerify.base_dir [subdir]) = Some (File c) ->
  lacks_point_estimate c = true ->
  aborts (FastFullVerify.load_cell subdir series fs).
Proof.
  intros Hrec Hlack. unfold FastFullVerify.load_cell.
  apply aborts_bind_l. exact (stream_load_malformed fs _ c Hrec Hlack).
Qed.

Lemma stream_main_aborts fs subdir c :
  In subdir stream_subdirs ->
  record_file fs (join FastFullVerify.base_dir [subdir]) = Some (File c) ->
  lacks_point_estimate c = true ->
  aborts (FastFullVerify.main fs).
Proof.
  intros Hin Hrec Hlack. unfold FastFullVerify.main.
  apply aborts_bind_r; intros _. apply aborts_bind_r; intros found.
  destruct found; cbn [negb].
  2:{ do 2 (apply aborts_bind_r; intros _). apply aborts_raise. }
  apply aborts_bind_l.
  unfold stream_subdirs in Hin. apply in_flat_map in Hin.
  destruct Hin as (variant & Hvariant & Hin).
  apply (for_in_aborts _ _ fs variant Hvariant). intros acc.
  apply aborts_bind_l. unfold FastFullVerify.load_variant.
  apply in_app_or in Hin. destruct Hin as [Hin | Hin].
  - apply aborts_bind_l. apply in_map_iff in Hin.
    destruct Hin as (frac & <- & Hfrac).
    apply (for_in_aborts _ _ fs frac Hfrac). intros series.
    exact (stream_load_cell_aborts fs _ c series Hrec Hlack).
  - apply aborts_bind_r; intros baseline. apply aborts_bind_l.
    apply in_flat_map in Hin. destruct Hin as (idx & Hidx & Hin).
    apply (for_in_aborts _ _ fs idx Hidx). intros acc'.
    apply aborts_bind_l. apply in_map_iff in Hin.
    destruct Hin as (frac & <- & Hfrac).
    apply (for_in_aborts _ _ fs frac Hfrac). intros series.
    exact (stream_load_cell_aborts fs _ c series Hrec Hlack).
Qed.

Lemma fverify_1024_series_aborts fs ns n c :
  In n ns -> fs (Fverify1024.fverify_path n) <> None ->
  record_file fs (Fverify1024.fverify_path n) = Some (File c) ->
  lacks_estimate_or_bound c = true ->
  aborts (Fverify1024.load_fverify_data ns fs).
Proof.
  intros Hin Hdir Hrec Hlack. unfold Fverify1024.load_fverify_data.
  apply (for_in_aborts _ _ fs n Hin). intros data.
  apply aborts_bind_exists.
  destruct (fs (Fverify1024.fverify_path n)); [| congruence].
  apply aborts_bind_l. exact (fverify_load_malformed fs _ c Hrec Hlack).
Qed.

Lemma fverify_1024_main_aborts_baseline fs p c :
  In p baselines_1024 ->
  record_file fs p = Some (File c) -> lacks_estimate_or_bound c = true ->
  aborts (Fverify1024.main fs).
Proof.
  intros Hin Hrec Hlack. unfold Fverify1024.main.
  apply aborts_bind_r; intros data.
  destruct Hin as [<- | [<- | []]].
  - apply aborts_bind_l. exact (fverify_load_malformed fs _ c Hrec Hlack).
  - apply aborts_bind_r; intros verify_1024. apply aborts_bind_r; intros microseconds.
    apply aborts_bind_r; intros _.
    apply aborts_bind_l. exact (fverify_load_malformed fs _ c Hrec Hlack).
Qed.

Lemma fverify_series_aborts fs bits ns n c :
  In n ns -> fs (Fverify.fverify_path bits n) <> None ->
  record_file fs (Fverify.fverify_path bits n) = Some (File c) ->
  lacks_estimate_or_bound c = true ->
  aborts (Fverify.load_fverify_data bits ns fs).
Proof.
  intros Hin Hdir Hrec Hlack. unfold Fverify.load_fverify_data.
  apply (for_in_aborts _ _ fs n Hin). intros data.
  apply aborts_bind_exists.
  destruct (fs (Fverify.fverify_path bits n)); [| congruence].
  apply aborts_bind_l. exact (fverify_load_malformed fs _ c Hrec Hlack).
Qed.

Lemma fverify_main_aborts_series fs bits n c :
  In bits ["512"; "1024"]%string -> In n Fverify.index_counts ->
  fs (Fverify.fverify_path bits n) <> None ->
  record_file fs (Fverify.fverify_path bits n) = Some (File c) ->
  lacks_estimate_or_bound c = true ->
  aborts (Fverify.main fs).
Proof.
  intros Hbits Hin Hdir Hrec Hlack. unfold Fverify.main.
  destruct Hbits as [<- | [<- | []]].
  - apply aborts_bind_l.
    exact (fverify_series_aborts fs _ _ n c Hin Hdir Hrec Hlack).
  - apply aborts_bind_r; intros data_512. apply aborts_bind_l.
    exact (fverify_series_aborts fs _ _ n c Hin Hdir Hrec Hlack).
Qed.

Lemma fverify_main_aborts_baseline fs p c :
  In p baselines_fverify ->
  record_file fs p = Some (File c) -> lacks_estimate_or_bound c = true ->
  aborts (Fverify.main fs).
Proof.
  intros Hin Hrec Hlack. unfold Fverify.main.
  apply aborts_bind_r; intros data_512. apply aborts_bind_r; intros data_1024.
  destruct Hin as [<- | [<- | []]].
  - apply aborts_bind_l. exact (fverify_load_malformed fs _ c Hrec Hlack).
  - apply aborts_bind_r; intros verify_512. apply aborts_bind_r; intros microseconds.
    apply aborts_bind_r; intros _.
    apply aborts_bind_l. exact (fverify_load_malformed fs _ c Hrec Hlack).
Qed.

(** ** Claims about the loaders *)

Lemma stream_load_cell_absent fs subdir series :
  fs (new_file (join FastFullVerify.base_dir [subdir])) = None ->
  fs (base_file (join FastFullVerify.base_dir [subdir])) = None ->
  FastFullVerify.load_cell subdir series fs
  = ([EvExists (new_file (join FastFullVerify.base_dir [subdir]));
      EvExists (base_file (join FastFullVerify.base_dir [subdir]));
      EvPrint (LnWarningMissing subdir)],
     Ok (series ++ [None])).
Proof.
  intros Hnew Hbase. unfold FastFullVerify.load_cell, bind.
  rewrite (stream_load_absent fs _ Hnew Hbase). reflexivity.
Qed.

Lemma ancestors_app (p : path) (a : string) (rest : path) :
  In p (ancestors (p ++ a :: rest)).
Proof.
  induction p as [|b p IH]; cbn [app ancestors]; [left; reflexivity|].
  right. apply in_map, IH.
Qed.

Lemma open_missing_clear fs (p : path) :
  (forall q, In q (ancestors p) -> is_regular_file (fs q) = false) ->
  open_missing fs p = FileNotFoundError.
Proof.
  intros Hclear. unfold open_missing.
  destruct (existsb (fun q => is_regular_file (fs q)) (ancestors p)) eqn:E; [| reflexivity].
  apply existsb_exists in E. destruct E as (q & Hq & Hfile).
  rewrite (Hclear q Hq) in Hfile. discriminate.
Qed.

Lemma open_missing_below_file fs (p q : path) c :
  In q (ancestors p) -> fs q = Some (File c) ->
  open_missing fs p = NotADirectoryError.
Proof.
  intros Hq Hfile. unfold open_missing.
  replace (existsb (fun q => is_regular_file (fs q)) (ancestors p)) with true; [reflexivity|].
  symmetry. apply existsb_exists. exists q. split; [exact Hq|]. rewrite Hfile. reflexivity.
Qed.

(** C3, as stated, fails for the loader of the two fverify scripts: where
    neither run variant exists it opens [base/estimates.json] all the
    same, and the run of [plot_fverify_1024_benchmark.py] on a tree where
    nothing was benchmarked ends in [FileNotFoundError]. *)
Lemma fverify_loader_raises_when_never_benchmarked :
  Fverify1024.load_criterion_estimate ["falcon-rust"; "verify 1024"] fs_empty
  = ([EvExists ["falcon-rust"; "verify 1024"; "new"; "estimates.json"];
      EvOpen ["falcon-rust"; "verify 1024"; "base"; "estimates.json"]],
     Raise FileNotFoundError) /\
  snd (Fverify1024.main fs_empty) = Raise FileNotFoundError.
Proof. split; vm_compute; reflexivity. Qed.

(** C3 (amended).  The stream-verification loader first probes the "new"
    run variant, falls back to "base" when "new" does not exist, and
    returns [None] without opening anything when neither exists; the
    loading loop then records the gap and goes on.  The loader of the
    fverify scripts makes the same choice between "new" and "base" but has
    no absent outcome: with neither variant it opens "base" all the same
    and raises what [open] raises there, [FileNotFoundError], or
    [NotADirectoryError] when a regular file stands on the way to the
    record, as when the storage location itself is one.  A record that
    exists is read as [stream_read] and [fverify_read] say:
    [IsADirectoryError] for a directory, [UnicodeDecodeError] for bytes
    that do not decode, [JSONDecodeError] for text that does not parse. *)
Theorem loader_tries_new_then_base :
  (forall fs p n,
     fs (new_file p) = Some n ->
     FastFullVerify.load_criterion_estimate p fs
     = ([EvExists (new_file p); EvExists (new_file p); EvOpen (new_file p)],
        stream_read n)) /\
  (forall fs p n,
     fs (new_file p) = None -> fs (base_file p) = Some n ->
     FastFullVerify.load_criterion_estimate p fs
     = ([EvExists (new_file p); EvExists (base_file p); EvOpen (base_file p)],
        stream_read n)) /\
  (forall fs p,
     fs (new_file p) = None -> fs (base_file p) = None ->
     FastFullVerify.load_criterion_estimate p fs
     = ([EvExists (new_file p); EvExists (base_file p)], Ok None)) /\
  (forall fs subdir series,
     fs (new_file (join FastFullVerify.base_dir [subdir])) = None ->
     fs (base_file (join FastFullVerify.base_dir [subdir])) = None ->
     snd (FastFullVerify.load_cell subdir series fs) = Ok (series ++ [None])) /\
  (forall fs p n,
     fs (new_file p) = Some n ->
     Fverify1024.load_criterion_estimate p fs
     = ([EvExists (new_file p); EvOpen (new_file p)], fverify_read n)) /\
  (forall fs p n,
     fs (new_file p) = None -> fs (base_file p) = Some n ->
     Fverify1024.load_criterion_estimate p fs
     = ([EvExists (new_file p); EvOpen (base_file p)], fverify_read n)) /\
  (forall fs p,
     fs (new_file p) = None -> fs (base_file p) = None ->
     Fverify1024.load_criterion_estimate p fs
     = ([EvExists (new_file p); EvOpen (base_file p)],
        Raise (open_missing fs (base_file p)))) /\
  (forall fs p,
     (forall q, In q (ancestors (base_file p)) -> is_regular_file (fs q) = false) ->
     open_missing fs (base_file p) = FileNotFoundError) /\
  (forall fs p q c,
     In q (ancestors (base_file p)) -> fs q = Some (File c) ->
     open_missing fs (base_file p) = NotADirectoryError) /\
  (forall fs p c,
     fs p = Some (File c) -> fs (new_file p) = None -> fs (base_file p) = None ->
     snd (FastFullVerify.load_criterion_estimate p fs) = Ok None /\
     snd (Fverify1024.load_criterion_estimate p fs) = Raise NotADirectoryError) /\
  stream_read (File Undecodable) = Raise UnicodeDecodeError /\
  stream_read (File Garbage) = Raise JSONDecodeError /\
  stream_read Dir = Raise IsADirectoryError /\
  fverify_read (File Undecodable) = Raise UnicodeDecodeError /\
  fverify_read (File Garbage) = Raise JSONDecodeError /\
  fverify_read Dir = Raise IsADirectoryError.
Proof.
  repeat apply conj.
  - exact stream_load_new.
  - exact stream_load_base.
  - exact stream_load_absent.
  - intros fs subdir series Hnew Hbase.
    rewrite (stream_load_cell_absent fs subdir series Hnew Hbase). reflexivity.
  - exact fverify_load_new.
  - intros fs p n Hnew Hbase. rewrite (fverify_load_base fs p Hnew), Hbase. reflexivity.
  - intros fs p Hnew Hbase. rewrite (fverify_load_base fs p Hnew), Hbase. reflexivity.
  - intros fs p. apply open_missing_clear.
  - intros fs p q c. apply open_missing_below_file.
  - intros fs p c Hfile Hnew Hbase. split.
    + rewrite (stream_load_absent fs p Hnew Hbase). reflexivity.
    + rewrite (fverify_load_base fs p Hnew), Hbase. cbn [snd]. f_equal.
      apply (open_missing_below_file fs _ p c); [| exact Hfile].
      unfold base_file, join. apply ancestors_app.
  - reflexivity.
  - reflexivity.
  - reflexivity.
  - reflexivity.
  - reflexivity.
  - reflexivity.
Qed.

(** Only the "base" variant of a stream cell exists: the loader returns
    its data. *)
Lemma loader_tries_new_then_base_witness :
  FastFullVerify.load_criterion_estimate ["stream_verification"; "cell"]
    (fs_of (measured ["stream_verification"; "cell"] "base"
                     (Parsed (mean_only_json 7%float))))
  = ([EvExists (new_file ["stream_verification"; "cell"]);
      EvExists (base_file ["stream_verification"; "cell"]);
      EvOpen (base_file ["stream_verification"; "cell"])],
     stream_read (File (Parsed (mean_only_json 7%float)))).
Proof.
  apply (proj1 (proj2 loader_tries_new_then_base)); reflexivity.
Defined.

(** C6, as stated, fails in the stream-verification analysis: a record
    that lacks both confidence bounds is loaded, and the run goes on to
    its end. *)
Lemma stream_loader_accepts_record_without_bounds :
  record_file fs_without_bounds cell_without_bounds
  = Some (File (Parsed (mean_only_json 5000000%float))) /\
  has_field (mean_only_json 5000000%float) lower_bound_key = false /\
  has_field (mean_only_json 5000000%float) upper_bound_key = false /\
  snd (FastFullVerify.load_criterion_estimate cell_without_bounds fs_without_bounds)
  = Ok (Some {| FastFullVerify.mean := JNum 5000000%float |}) /\
  exists plots, snd (FastFullVerify.main fs_without_bounds) = Ok plots.
Proof.
  repeat split; try (vm_compute; reflexivity).
  eexists. vm_compute. reflexivity.
Qed.

(** C6 (amended).  A record that exists but does not parse, or lacks the
    mean point estimate, or (for the loader of the fverify scripts) lacks
    a confidence bound, makes the loader raise; nothing catches the
    exception, so the run that reaches that record ends in it.  Such a
    record is never read as absent. *)
Theorem malformed_record_aborts_run :
  (forall fs p c,
     record_file fs p = Some (File c) -> lacks_estimate_or_bound c = true ->
     aborts (Fverify1024.load_criterion_estimate p fs)) /\
  (forall fs p c,
     record_file fs p = Some (File c) -> lacks_point_estimate c = true ->
     aborts (FastFullVerify.load_criterion_estimate p fs)) /\
  (forall fs n c,
     In n Fverify1024.index_counts -> fs (Fverify1024.fverify_path n) <> None ->
     record_file fs (Fverify1024.fverify_path n) = Some (File c) ->
     lacks_estimate_or_bound c = true ->
     aborts (Fverify1024.main fs)) /\
  (forall fs p c,
     In p baselines_1024 ->
     record_file fs p = Some (File c) -> lacks_estimate_or_bound c = true ->
     aborts (Fverify1024.main fs)) /\
  (forall fs bits n c,
     In bits ["512"; "1024"]%string -> In n Fverify.index_counts ->
     fs (Fverify.fverify_path bits n) <> None ->
     record_file fs (Fverify.fverify_path bits n) = Some (File c) ->
     lacks_estimate_or_bound c = true ->
     aborts (Fverify.main fs)) /\
  (forall fs p c,
     In p baselines_fverify ->
     record_file fs p = Some (File c) -> lacks_estimate_or_bound c = true ->
     aborts (Fverify.main fs)) /\
  (forall fs subdir c,
     In subdir stream_subdirs ->
     record_file fs (join FastFullVerify.base_dir [subdir]) = Some (File c) ->
     lacks_point_estimate c = true ->
     aborts (FastFullVerify.main fs)).
Proof.
  repeat apply conj.
  - exact fverify_load_malformed.
  - exact stream_load_malformed.
  - intros fs n c Hin Hdir Hrec Hlack. unfold Fverify1024.main.
    apply aborts_bind_l.
    exact (fverify_1024_series_aborts fs _ n c Hin Hdir Hrec Hlack).
  - exact fverify_1024_main_aborts_baseline.
  - exact fverify_main_aborts_series.
  - exact fverify_main_aborts_baseline.
  - exact stream_main_aborts.
Qed.

(** The record of the same cell does not parse: the stream run aborts. *)
Lemma malformed_record_aborts_run_witness :
  aborts (FastFullVerify.main
            (fs_of ((FastFullVerify.base_dir, Dir)
                    :: measured cell_without_bounds "new" Garbage))).
Proof.
  apply (proj2 (proj2 (proj2 (proj2 (proj2 (proj2 malformed_record_aborts_run)))))
           _ "falcon512_baseline_invalid_0.01" Garbage).
  - vm_compute. tauto.
  - reflexivity.
  - reflexivity.
Defined.

(** C10.  The stream-verification loader reads the mean point estimate
    and nothing else: an existing record that parses and holds
    [mean.point_estimate] loads, with that value as the whole result; a
    record with no confidence interval is accepted there, while the loader
    of the fverify scripts raises [KeyError] on it. *)
Theorem stream_loader_reads_only_point_estimate :
  (forall fs p j v,
     record_file fs p = Some (File (Parsed j)) ->
     lookup j point_estimate_key = Ok v ->
     snd (FastFullVerify.load_criterion_estimate p fs)
     = Ok (Some {| FastFullVerify.mean := v |})) /\
  (forall fs p x,
     record_file fs p = Some (File (Parsed (mean_only_json x))) ->
     snd (FastFullVerify.load_criterion_estimate p fs)
     = Ok (Some {| FastFullVerify.mean := JNum x |}) /\
     snd (Fverify1024.load_criterion_estimate p fs)
     = Raise (KeyError "confidence_interval")).
Proof.
  split.
  - intros fs p j v Hrec Hv. rewrite (stream_load_record fs p _ Hrec).
    cbn [stream_read]. rewrite Hv. reflexivity.
  - intros fs p x Hrec. split.
    + rewrite (stream_load_record fs p _ Hrec). reflexivity.
    + rewrite (fverify_load_record fs p _ Hrec). reflexivity.
Qed.

(** The cell whose record holds a point estimate and no interval, read
    by both loaders. *)
Lemma stream_loader_reads_only_point_estimate_witness :
  snd (FastFullVerify.load_criterion_estimate cell_without_bounds fs_without_bounds)
  = Ok (Some {| FastFullVerify.mean := JNum 5000000%float |}) /\
  snd (Fverify1024.load_criterion_estimate cell_without_bounds fs_without_bounds)
  = Raise (KeyError "confidence_interval").
Proof.
  apply (proj2 stream_loader_reads_only_point_estimate
           fs_without_bounds cell_without_bounds 5000000%float).
  reflexivity.
Defined.

(** ** Claims about the reduction of a group *)

Lemma remove_nan_raw (baseline : list (option float)) :
  (forall v, In (Some v) baseline -> is_nan v = false) ->
  remove_nan (FastFullVerify.baseline_raw baseline) = present baseline.
Proof.
  unfold remove_nan, FastFullVerify.baseline_raw, present.
  induction baseline as [|[v|] rest IH]; intros Hnan; cbn [map filter flat_map app].
  - reflexivity.
  - cbn [FastFullVerify.nan_of_none]. rewrite (Hnan v) by (left; reflexivity).
    cbn [negb]. rewrite IH by (intros w Hw; apply Hnan; right; exact Hw). reflexivity.
  - cbn [FastFullVerify.nan_of_none].
    replace (negb (is_nan nan)) with false by reflexivity.
    apply IH. intros w Hw. apply Hnan. right. exact Hw.
Qed.

Lemma in_present (baseline : list (option float)) (v : float) :
  In v (present baseline) -> In (Some v) baseline.
Proof.
  unfold present. intros H. apply in_flat_map in H.
  destruct H as ([w|] & Hin & Hv); cbn in Hv; [| contradiction].
  destruct Hv as [-> | []]. exact Hin.
Qed.

Lemma baseline_raw_all_missing (baseline : list (option float)) :
  (forall x, In x baseline -> x = None) ->
  FastFullVerify.baseline_raw baseline = repeat nan (List.length baseline).
Proof.
  unfold FastFullVerify.baseline_raw.
  induction baseline as [|x rest IH]; intros Hall; [reflexivity|].
  cbn [map List.length repeat].
  rewrite (Hall x) by (left; reflexivity). cbn [FastFullVerify.nan_of_none].
  rewrite IH by (intros y Hy; apply Hall; right; exact Hy). reflexivity.
Qed.

Lemma remove_nan_repeat (n : nat) : remove_nan (repeat nan n) = [].
Proof. induction n as [|n IH]; [reflexivity | exact IH]. Qed.

(** C4, as stated, fails: a group whose members are all missing is first
    turned into NaN values and its reduction is NaN.  The stream run on a
    tree where nothing was measured draws both baselines at NaN. *)
Lemma all_missing_group_is_coerced_to_nan :
  FastFullVerify.baseline_raw [None; None] = [nan; nan] /\
  FastFullVerify.baseline_median [None; None] = nan /\
  map (fun vp => (fst vp, FastFullVerify.median_line (snd vp)))
      match snd (FastFullVerify.main (fs_of [(FastFullVerify.base_dir, Dir)])) with
      | Ok plots => plots
      | Raise _ => []
      end
  = [("falcon512"%string, nan); ("falcon1024"%string, nan)].
Proof.
  split; [vm_compute; reflexivity |].
  split; vm_compute; reflexivity.
Qed.

(** C4 (amended).  For a group whose members are all missing, every
    member becomes NaN in [baseline_raw] and the reduction is NaN, the
    value numpy uses for "no data"; it is not zero. *)
Theorem all_missing_group_reduces_to_nan :
  forall baseline : list (option float),
    (forall x, In x baseline -> x = None) ->
    FastFullVerify.baseline_raw baseline = repeat nan (List.length baseline) /\
    FastFullVerify.baseline_median baseline = nan /\
    is_nan (FastFullVerify.baseline_median baseline) = true /\
    (FastFullVerify.baseline_median baseline =? 0)%float = false.
Proof.
  intros baseline Hall.
  assert (Hmed : FastFullVerify.baseline_median baseline = nan).
  { unfold FastFullVerify.baseline_median, np_nanmedian.
    rewrite (baseline_raw_all_missing baseline Hall), remove_nan_repeat. reflexivity. }
  rewrite Hmed. repeat split.
  exact (baseline_raw_all_missing baseline Hall).
Qed.

(** The group of two missing members. *)
Lemma all_missing_group_reduces_to_nan_witness :
  FastFullVerify.baseline_raw [None; None] = repeat nan 2 /\
  FastFullVerify.baseline_median [None; None] = nan /\
  is_nan (FastFullVerify.baseline_median [None; None]) = true /\
  (FastFullVerify.baseline_median [None; None] =? 0)%float = false.
Proof.
  apply (all_missing_group_reduces_to_nan [None; None]).
  intros x [<- | [<- | []]]; reflexivity.
Defined.

(** C7, as stated, fails: the reduction of the stream-verification
    analysis has no half-width.  Two trees whose records differ only in a
    confidence bound, with claimed half-widths 3.5 and 8.5, give the same
    run, trace and figure alike, so nothing the run produces is the
    half-width. *)
Lemma stream_reduction_carries_no_half_width :
  claimed_half_width [(8, 12); (9, 15)]%float = 3.5%float /\
  claimed_half_width [(8, 12); (9, 25)]%float = 8.5%float /\
  FastFullVerify.main (stream_group_fs 15) = FastFullVerify.main (stream_group_fs 25) /\
  ~ (exists half_width_of : trace * outcome (list (string * FastFullVerify.variant_plot))
                            -> float,
        half_width_of (FastFullVerify.main (stream_group_fs 15)) = 3.5%float /\
        half_width_of (FastFullVerify.main (stream_group_fs 25)) = 8.5%float).
Proof.
  assert (Hsame : FastFullVerify.main (stream_group_fs 15)
                  = FastFullVerify.main (stream_group_fs 25))
    by (vm_compute; reflexivity).
  split; [vm_compute; reflexivity |].
  split; [vm_compute; reflexivity |].
  split; [exact Hsame |].
  intros (h & H15 & H25). rewrite Hsame, H25 in H15.
  apply (f_equal (fun x => (x =? 3.5)%float)) in H15.
  vm_compute in H15. discriminate.
Qed.

(** C7 (amended).  The reduction of the stream-verification analysis is
    the median of the members that are not missing (none of them NaN):
    missing members are left out, not counted as zero, and the median is
    the middle of their sorted arrangement; it carries no half-width.  For
    the group of a missing member and the means 10 and 12 the median is
    11 (10 if the missing member counted as zero).  A half-width
    [(ciUpper - ciLower) / 2] is computed in
    [plot_fverify_1024_benchmark.py] for the single estimate of a
    baseline, in microseconds. *)
Theorem reduction_is_median_of_present_estimates :
  (forall baseline : list (option float),
     (forall v, In (Some v) baseline -> is_nan v = false) ->
     present baseline <> [] ->
     FastFullVerify.baseline_median baseline = np_median (present baseline)) /\
  (forall baseline : list (option float),
     (forall v, In (Some v) baseline -> is_nan v = false) ->
     Permutation (np_sort (present baseline)) (present baseline) /\
     Sorted fle (np_sort (present baseline))) /\
  FastFullVerify.baseline_median [None; Some 10; Some 12]%float = 11%float /\
  FastFullVerify.baseline_median [Some 0; Some 10; Some 12]%float = 10%float /\
  (forall fs tr fig m l u,
     Fverify1024.main fs = (tr, Ok fig) ->
     record_file fs ["falcon-rust"; "verify 1024"]
     = Some (File (Parsed (record_json m l u))) ->
     Fverify1024.verify_mean fig = (m / 1000)%float /\
     Fverify1024.verify_ci fig = (claimed_half_width [(l, u)] / 1000)%float).
Proof.
  split; [| split; [| split; [| split]]].
  - intros baseline Hnan Hsome.
    unfold FastFullVerify.baseline_median, np_nanmedian.
    rewrite (remove_nan_raw baseline Hnan).
    destruct (present baseline); [congruence | reflexivity].
  - intros baseline Hnan. split; [apply np_sort_perm |].
    apply np_sort_sorted. intros v Hv. apply Hnan, in_present, Hv.
  - vm_compute; reflexivity.
  - vm_compute; reflexivity.
  - intros fs tr fig m l u Hmain Hrec. unfold Fverify1024.main in Hmain.
    apply bind_ok_inv in Hmain. destruct Hmain as (t1 & data & t2 & _ & Hmain & _).
    apply bind_ok_inv in Hmain. destruct Hmain as (t3 & verify & t4 & Hload & Hmain & _).
    pose proof (fverify_load_record fs _ _ Hrec) as Hread.
    rewrite Hload in Hread. cbn in Hread. injection Hread as ->.
    do 8 (apply bind_ok_inv in Hmain; destruct Hmain as (? & ? & ? & _ & Hmain & _)).
    apply bind_ok_inv in Hmain. destruct Hmain as (? & vm & ? & Hvm & Hmain & _).
    apply bind_ok_inv in Hmain. destruct Hmain as (? & vci & ? & Hci & Hmain & _).
    repeat (apply bind_ok_inv in Hmain; destruct Hmain as (? & ? & ? & _ & Hmain & _)).
    injection Hmain as _ <-. cbn [Fverify1024.verify_mean Fverify1024.verify_ci].
    apply lift_ok_inv in Hvm. destruct Hvm as [Hvm _].
    apply lift_ok_inv in Hci. destruct Hci as [Hci _].
    cbn in Hvm, Hci. injection Hvm as <-. injection Hci as <-.
    rewrite ?float_of_Z_1000, ?float_of_Z_2. split; reflexivity.
Qed.

(** The group of the claim: one missing member, the means 10 and 12. *)
Lemma reduction_is_median_of_present_estimates_witness :
  FastFullVerify.baseline_median [None; Some 10; Some 12]%float
  = np_median (present [None; Some 10; Some 12]%float).
Proof.
  apply (proj1 reduction_is_median_of_present_estimates).
  - intros v [H | [H | [H | []]]]; try discriminate; injection H as <-; reflexivity.
  - discriminate.
Defined.

(** ** Claims about the construction of a series *)

Lemma stream_load_cell_eq fs subdir series :
  stream_cell_loads fs subdir ->
  FastFullVerify.load_cell subdir series fs
  = (stream_cell_trace fs subdir, Ok (series ++ [stream_entry fs subdir])).
Proof.
  unfold stream_cell_loads, stream_cell_trace, stream_entry, stream_absent,
    FastFullVerify.load_cell, bind.
  fold (stream_cell subdir).
  destruct (FastFullVerify.load_criterion_estimate (stream_cell subdir) fs)
    as [t [[d|]|e]]; cbn [fst snd].
  - intros [Habs | (d' & ms & [= <-] & Hms)]; [discriminate|].
    unfold lift, ret, print. rewrite Hms. cbn. rewrite app_nil_r. reflexivity.
  - intros _. reflexivity.
  - intros [Habs | (d' & ms & Hd & _)]; discriminate.
Qed.

Lemma flat_map_singleton {A B} (f : A -> B) (l : list A) :
  flat_map (fun x => [f x]) l = map f l.
Proof. induction l as [|x rest IH]; cbn; congruence. Qed.

Lemma stream_loop_eq fs (subdir_of : float -> string) (fracs : list float) :
  (forall frac, In frac fracs -> stream_cell_loads fs (subdir_of frac)) ->
  for_in fracs (fun frac series => FastFullVerify.load_cell (subdir_of frac) series) [] fs
  = (flat_map (fun frac => stream_cell_trace fs (subdir_of frac)) fracs,
     Ok (map (fun frac => stream_entry fs (subdir_of frac)) fracs)).
Proof.
  intros Hloads.
  rewrite (for_in_append fracs _ fs
             (fun frac => stream_cell_trace fs (subdir_of frac))
             (fun frac => [stream_entry fs (subdir_of frac)])).
  - rewrite flat_map_singleton. reflexivity.
  - intros frac series Hin. apply stream_load_cell_eq, Hloads, Hin.
Qed.

Lemma stream_loop_returns fs (subdir_of : float -> string) (fracs : list float) :
  (forall frac, In frac fracs -> stream_cell_loads fs (subdir_of frac)) ->
  returns (for_in fracs
             (fun frac series => FastFullVerify.load_cell (subdir_of frac) series) [] fs).
Proof.
  intros Hloads. unfold returns. rewrite (stream_loop_eq fs subdir_of fracs Hloads).
  eexists. reflexivity.
Qed.

Lemma stream_main_returns fs :
  fs FastFullVerify.base_dir <> None ->
  (forall subdir, In subdir stream_subdirs -> stream_cell_loads fs subdir) ->
  returns (FastFullVerify.main fs).
Proof.
  intros Hdir Hloads. unfold FastFullVerify.main.
  apply returns_bind; [apply returns_print | intros _].
  apply returns_bind_exists.
  destruct (fs FastFullVerify.base_dir) as [d|]; [clear Hdir | congruence].
  cbn [negb].
  apply returns_bind; [| intros results; apply returns_ret].
  apply for_in_returns. intros variant acc Hvariant.
  apply returns_bind; [| intros r; apply returns_ret].
  unfold FastFullVerify.load_variant.
  assert (Hin : forall subdir,
             In subdir
                (map (FastFullVerify.baseline_subdir variant) FastFullVerify.invalid_fractions
                 ++ flat_map (fun idx =>
                      map (FastFullVerify.optimized_subdir variant idx)
                          FastFullVerify.invalid_fractions)
                    FastFullVerify.index_counts) ->
             stream_cell_loads fs subdir).
  { intros subdir Hsub. apply Hloads. unfold stream_subdirs.
    apply in_flat_map. exists variant. split; assumption. }
  apply returns_bind.
  - apply stream_loop_returns. intros frac Hfrac. apply Hin.
    apply in_or_app. left. apply in_map. exact Hfrac.
  - intros baseline. apply returns_bind; [| intros optimized; apply returns_ret].
    apply for_in_returns. intros idx acc' Hidx.
    apply returns_bind; [| intros series; apply returns_ret].
    apply stream_loop_returns. intros frac Hfrac. apply Hin.
    apply in_or_app. right. apply in_flat_map. exists idx. split; [exact Hidx|].
    apply in_map. exact Hfrac.
Qed.

Lemma fverify_round_eq fs n data :
  fverify_cell_loads fs n ->
  bind (path_exists (Fverify1024.fverify_path n))
       (fun dir_exists : bool =>
          if dir_exists then
            bind (Fverify1024.load_criterion_estimate (Fverify1024.fverify_path n))
                 (fun estimate =>
                    bind (lift (pynum_truediv (Fverify1024.mean estimate) 1000))
                         (fun microseconds =>
                            bind (print (LnEstimate
                                           ("fverify 1024 (" ++ str_of_int n ++ " indices)")%string
                                           microseconds))
                                 (fun _ => ret (data ++ [(n, estimate)]))))
          else ret data) fs
  = (fverify_cell_trace fs n, Ok (data ++ fverify_entry fs n)).
Proof.
  unfold fverify_cell_loads, fverify_cell_trace, fverify_entry, dir_present,
    bind, path_exists, print, ret, lift.
  destruct (fs (Fverify1024.fverify_path n)) as [d|].
  - intros Hload. destruct (Hload eq_refl) as (est & us & Hest & Hus).
    destruct (Fverify1024.load_criterion_estimate (Fverify1024.fverify_path n) fs)
      as [t [est'|e]]; cbn in Hest; [| discriminate].
    injection Hest as ->. cbn [fst snd]. rewrite !Hus.
    cbn [fst snd app]. rewrite ?app_nil_r. reflexivity.
  - intros _. cbn [fst snd app]. rewrite ?app_nil_r. reflexivity.
Qed.

Lemma fverify_loop_eq fs (ns : list Z) :
  (forall n, In n ns -> fverify_cell_loads fs n) ->
  Fverify1024.load_fverify_data ns fs
  = (flat_map (fverify_cell_trace fs) ns, Ok (flat_map (fverify_entry fs) ns)).
Proof.
  intros Hloads. unfold Fverify1024.load_fverify_data.
  rewrite (for_in_append ns _ fs (fverify_cell_trace fs) (fverify_entry fs));
    [reflexivity |].
  intros n data Hin. apply fverify_round_eq, Hloads, Hin.
Qed.

Lemma fverify_entries_indices fs (ns : list Z) :
  (forall n, In n ns -> fverify_cell_loads fs n) ->
  map fst (flat_map (fverify_entry fs) ns)
  = filter (fun n => dir_present fs (Fverify1024.fverify_path n)) ns.
Proof.
  induction ns as [|n rest IH]; intros Hloads; [reflexivity|].
  cbn [flat_map filter]. rewrite map_app.
  rewrite IH by (intros m Hm; apply Hloads; right; exact Hm).
  pose proof (Hloads n (or_introl eq_refl)) as Hn.
  unfold fverify_cell_loads in Hn. unfold fverify_entry.
  destruct (dir_present fs (Fverify1024.fverify_path n)); [| reflexivity].
  destruct (Hn eq_refl) as (est & us & Hest & _). rewrite Hest. reflexivity.
Qed.

(** *** Numbers within the range of floats *)

Lemma moderate_bound : (2 ^ 1002 < float_overflow_bound)%Z.
Proof. vm_compute. reflexivity. Qed.

Lemma two_pow_1000 : (2 ^ 1002 = 4 * 2 ^ 1000)%Z.
Proof. vm_compute. reflexivity. Qed.

Lemma pynum_truediv_ok (v : pynum) (d : Z) :
  (1 <= d)%Z ->
  match v with PyFloat _ => True | PyInt n => (Z.abs n < 2 ^ 1002)%Z end ->
  exists q, pynum_truediv v d = Ok q.
Proof.
  intros Hd Hv. destruct v as [n|x]; cbn [pynum_truediv]; [| eauto].
  pose proof moderate_bound as Hb.
  destruct (d * float_overflow_bound <=? Z.abs n)%Z eqn:E; [| eauto].
  apply Z.leb_le in E. exfalso.
  assert (float_overflow_bound <= d * float_overflow_bound)%Z by nia. lia.
Qed.

Lemma pynum_sub_ok (a b : pynum) :
  moderate a -> moderate b ->
  exists c, pynum_sub a b = Ok c /\
            match c with PyFloat _ => True | PyInt n => (Z.abs n < 2 ^ 1002)%Z end.
Proof.
  pose proof moderate_bound as Hb. pose proof two_pow_1000 as Hp.
  assert (Hfloat : forall n, (Z.abs n < 2 ^ 1000)%Z -> py_float n = Ok (float_of_Z n)).
  { intros n Hn. unfold py_float.
    destruct (float_overflow_bound <=? Z.abs n)%Z eqn:E; [| reflexivity].
    apply Z.leb_le in E. lia. }
  destruct a as [m|x], b as [n|y]; cbn [moderate pynum_sub]; intros Ha Hb'.
  - eexists. split; [reflexivity|]. cbn. lia.
  - rewrite (Hfloat m Ha). eexists. split; [reflexivity | exact I].
  - rewrite (Hfloat n Hb'). eexists. split; [reflexivity | exact I].
  - eexists. split; [reflexivity | exact I].
Qed.

Lemma moderate_wider (v : pynum) :
  moderate v -> match v with PyFloat _ => True | PyInt n => (Z.abs n < 2 ^ 1002)%Z end.
Proof.
  pose proof two_pow_1000 as Hp. destruct v as [n|x]; cbn [moderate]; [| auto]. lia.
Qed.

Lemma half_width_ok (est : Fverify1024.estimate) :
  within_float_range est -> exists w, Fverify1024.half_width est = Ok w.
Proof.
  intros (_ & Hl & Hu). unfold Fverify1024.half_width.
  destruct (pynum_sub_ok _ _ Hu Hl) as (c & -> & Hc). cbn [and_then].
  destruct (pynum_truediv_ok c 2 ltac:(lia) Hc) as (h & ->). cbn [and_then]. eauto.
Qed.

Lemma all_ok_map {A B} (f : A -> outcome B) (l : list A) :
  (forall a, In a l -> exists b, f a = Ok b) -> exists bs, all_ok (map f l) = Ok bs.
Proof.
  induction l as [|a rest IH]; intros Hall; cbn [map all_ok]; [eauto|].
  destruct (Hall a (or_introl eq_refl)) as [b ->]. cbn [and_then].
  destruct IH as [bs ->]; [intros a' Ha'; apply Hall; right; exact Ha' |].
  cbn [and_then]. eauto.
Qed.

Lemma np_array_truediv_ok (vals : list pynum) (d : Z) :
  (forall v, In v vals -> exists q, pynum_truediv v d = Ok q) ->
  exists qs, np_array_truediv vals d = Ok qs.
Proof.
  intros Hall. unfold np_array_truediv.
  destruct (forallb fits_numeric_dtype vals); [eauto|].
  apply all_ok_map, Hall.
Qed.

(** A record that the loader accepts holds the two differences of its
    three numbers. *)
Lemma read_estimate_errors j est :
  Fverify1024.read_estimate j = Ok est ->
  pynum_sub (Fverify1024.mean est) (Fverify1024.ci_lower est)
  = Ok (Fverify1024.error_lower est) /\
  pynum_sub (Fverify1024.ci_upper est) (Fverify1024.mean est)
  = Ok (Fverify1024.error_upper est).
Proof.
  unfold Fverify1024.read_estimate.
  destruct (subscript j "mean") as [m|e]; cbn [and_then]; [| discriminate].
  destruct (subscript m "point_estimate") as [v|e]; cbn [and_then]; [| discriminate].
  destruct (subscript m "confidence_interval") as [ci|e]; cbn [and_then]; [| discriminate].
  destruct (subscript ci "lower_bound") as [lo|e]; cbn [and_then]; [| discriminate].
  destruct (subscript ci "upper_bound") as [hi|e]; cbn [and_then]; [| discriminate].
  unfold py_sub.
  destruct (as_number v) as [v'|e]; cbn [and_then]; [| discriminate].
  destruct (as_number lo) as [lo'|e]; cbn [and_then]; [| discriminate].
  destruct (pynum_sub v' lo') as [el|e] eqn:El; cbn [and_then]; [| discriminate].
  destruct (as_number hi) as [hi'|e]; cbn [and_then]; [| discriminate].
  destruct (pynum_sub hi' v') as [eu|e] eqn:Eu; cbn [and_then]; [| discriminate].
  intros [= <-]. cbn. split; assumption.
Qed.

Lemma fverify_load_ok_record fs p est :
  snd (Fverify1024.load_criterion_estimate p fs) = Ok est ->
  exists j, record_file fs p = Some (File (Parsed j)) /\
            Fverify1024.read_estimate j = Ok est.
Proof.
  unfold record_file. destruct (fs (new_file p)) as [n|] eqn:Hnew.
  - rewrite (fverify_load_new fs p n Hnew). cbn [snd].
    destruct n as [|[| |j]]; cbn [fverify_read]; try discriminate. eauto.
  - rewrite (fverify_load_base fs p Hnew). cbn [snd].
    destruct (fs (base_file p)) as [[|[| |j]]|]; cbn [fverify_read]; try discriminate. eauto.
Qed.

Lemma estimate_scales fs p est :
  snd (Fverify1024.load_criterion_estimate p fs) = Ok est ->
  within_float_range est ->
  (exists us, pynum_truediv (Fverify1024.mean est) 1000 = Ok us) /\
  (exists lo, pynum_truediv (Fverify1024.error_lower est) 1000 = Ok lo) /\
  (exists hi, pynum_truediv (Fverify1024.error_upper est) 1000 = Ok hi) /\
  (exists w, Fverify1024.half_width est = Ok w).
Proof.
  intros Hload Hrange.
  destruct (fverify_load_ok_record fs p est Hload) as (j & _ & Hread).
  destruct (read_estimate_errors j est Hread) as [El Eu].
  pose proof Hrange as (Hm & Hl & Hu).
  destruct (pynum_sub_ok _ _ Hm Hl) as (el & El' & Hel).
  destruct (pynum_sub_ok _ _ Hu Hm) as (eu & Eu' & Heu).
  rewrite El in El'. injection El' as <-. rewrite Eu in Eu'. injection Eu' as <-.
  split; [apply pynum_truediv_ok; [lia | apply moderate_wider, Hm] |].
  split; [apply pynum_truediv_ok; [lia | exact Hel] |].
  split; [apply pynum_truediv_ok; [lia | exact Heu] |].
  apply half_width_ok, Hrange.
Qed.

Lemma fverify_entry_loaded fs n d :
  In d (fverify_entry fs n) ->
  snd (Fverify1024.load_criterion_estimate (Fverify1024.fverify_path n) fs) = Ok (snd d).
Proof.
  unfold fverify_entry.
  destruct (dir_present fs (Fverify1024.fverify_path n)); [| intros []].
  destruct (snd (Fverify1024.load_criterion_estimate (Fverify1024.fverify_path n) fs))
    as [est|e]; [| intros []].
  intros [<- | []]. reflexivity.
Qed.

Lemma fverify_1024_main_returns fs :
  (forall n, In n Fverify1024.index_counts -> fverify_cell_loads fs n) ->
  (forall p, In p baselines_1024 -> returns (Fverify1024.load_criterion_estimate p fs)) ->
  (forall p est,
     In p fverify_1024_locations ->
     snd (Fverify1024.load_criterion_estimate p fs) = Ok est -> within_float_range est) ->
  exists tr fig,
    Fverify1024.main fs = (tr, Ok fig) /\
    Fverify1024.indices fig
    = filter (fun n => dir_present fs (Fverify1024.fverify_path n)) Fverify1024.index_counts.
Proof.
  intros Hcells Hbase Hrange. unfold Fverify1024.main, bind.
  rewrite (fverify_loop_eq fs _ Hcells).
  assert (Hdata : forall d, In d (flat_map (fverify_entry fs) Fverify1024.index_counts) ->
            exists p, In p fverify_1024_locations /\
                      snd (Fverify1024.load_criterion_estimate p fs) = Ok (snd d)).
  { intros d Hd. apply in_flat_map in Hd. destruct Hd as (n & Hn & Hd).
    exists (Fverify1024.fverify_path n). split.
    - apply in_or_app. left. apply in_map, Hn.
    - exact (fverify_entry_loaded fs n d Hd). }
  assert (Hv1024 : In ["falcon-rust"; "verify 1024"] fverify_1024_locations)
    by (apply in_or_app; right; left; reflexivity).
  assert (Hffi : In ["c ffi"; "verify 1024"] fverify_1024_locations)
    by (apply in_or_app; right; right; left; reflexivity).
  remember (flat_map (fverify_entry fs) Fverify1024.index_counts) as data eqn:Edata.
  remember (flat_map (fverify_cell_trace fs) Fverify1024.index_counts) as cells.
  destruct (Hbase ["falcon-rust"; "verify 1024"]) as [v Hv]; [cbn; auto|].
  destruct (Hbase ["c ffi"; "verify 1024"]) as [f Hf]; [cbn; auto|].
  destruct (estimate_scales fs _ v Hv (Hrange _ v Hv1024 Hv))
    as ([vus Hvus] & _ & _ & [vw Hvw]).
  destruct (estimate_scales fs _ f Hf (Hrange _ f Hffi Hf))
    as ([fus Hfus] & _ & _ & [fw Hfw]).
  destruct (Fverify1024.load_criterion_estimate ["falcon-rust"; "verify 1024"] fs)
    as [tv rv]. cbn in Hv. subst rv.
  destruct (Fverify1024.load_criterion_estimate ["c ffi"; "verify 1024"] fs)
    as [tf rf]. cbn in Hf. subst rf.
  destruct (np_array_truediv_ok (map (fun d => Fverify1024.mean (snd d)) data) 1000)
    as [means Hmeans].
  { intros x Hx. apply in_map_iff in Hx. destruct Hx as (d & <- & Hd).
    destruct (Hdata d Hd) as (p & Hin & Hp).
    exact (proj1 (estimate_scales fs p _ Hp (Hrange p _ Hin Hp))). }
  destruct (np_array_truediv_ok (map (fun d => Fverify1024.error_lower (snd d)) data) 1000)
    as [los Hlos].
  { intros x Hx. apply in_map_iff in Hx. destruct Hx as (d & <- & Hd).
    destruct (Hdata d Hd) as (p & Hin & Hp).
    exact (proj1 (proj2 (estimate_scales fs p _ Hp (Hrange p _ Hin Hp)))). }
  destruct (np_array_truediv_ok (map (fun d => Fverify1024.error_upper (snd d)) data) 1000)
    as [his Hhis].
  { intros x Hx. apply in_map_iff in Hx. destruct Hx as (d & <- & Hd).
    destruct (Hdata d Hd) as (p & Hin & Hp).
    exact (proj1 (proj2 (proj2 (estimate_scales fs p _ Hp (Hrange p _ Hin Hp))))). }
  unfold lift, print, ret. rewrite Hvus, Hfus, Hmeans, Hlos, Hhis, Hvw, Hfw.
  eexists. eexists. split; [reflexivity|].
  cbn [Fverify1024.indices]. rewrite Edata. apply (fverify_entries_indices fs _ Hcells).
Qed.

(** C8, as stated, fails in [plot_fverify_1024_benchmark.py]: the cell of
    2 indices was never measured; the run probes its directory and
    nothing else, appends no marker (the series has the three measured
    points only) and prints no diagnostic. *)
Lemma fverify_series_skips_absent_cell :
  fs_partial_1024 (Fverify1024.fverify_path 2) = None /\
  match Fverify1024.main fs_partial_1024 with
  | (tr, Ok fig) =>
      Fverify1024.indices fig = [1; 4; 8]%Z /\
      Fverify1024.means fig = [5; 8; 15]%float /\
      printed tr
      = [LnEstimate "fverify 1024 (1 indices)" 5; LnEstimate "fverify 1024 (4 indices)" 8;
         LnEstimate "fverify 1024 (8 indices)" 15; LnEstimate "verify 1024" 10;
         LnEstimate "C FFI verify 1024" 11] /\
      probes_below (Fverify1024.fverify_path 2) tr
      = [EvExists (Fverify1024.fverify_path 2)]
  | (_, Raise _) => False
  end.
Proof. split; [reflexivity |]. vm_compute. repeat split. Qed.

(** C8 (amended).  In the stream-verification analysis every control
    value of the domain, in domain order, has the loader invoked; where
    the loader reports the cell absent, [None] is appended at that
    position and a warning is printed, and the run goes on to its end
    (the [stream_verification] directory exists and no record is
    malformed).
    In [plot_fverify_1024_benchmark.py] a control value whose directory
    does not exist is skipped: the loader is not invoked, nothing is
    appended and nothing is printed; the run goes on with the shorter
    series (every cell that has a directory and both baselines load, and
    no int in their records reaches [2^1000] in absolute value, so that
    no division overflows). *)
Theorem series_construction_visits_domain_in_order :
  (forall fs variant fracs,
     (forall frac, In frac fracs ->
        stream_cell_loads fs (FastFullVerify.baseline_subdir variant frac)) ->
     FastFullVerify.load_baseline variant fracs fs
     = (flat_map (fun frac =>
                    stream_cell_trace fs (FastFullVerify.baseline_subdir variant frac)) fracs,
        Ok (map (fun frac =>
                   stream_entry fs (FastFullVerify.baseline_subdir variant frac)) fracs))) /\
  (forall fs variant idx fracs,
     (forall frac, In frac fracs ->
        stream_cell_loads fs (FastFullVerify.optimized_subdir variant idx frac)) ->
     FastFullVerify.load_optimized variant idx fracs fs
     = (flat_map (fun frac =>
                    stream_cell_trace fs (FastFullVerify.optimized_subdir variant idx frac))
                 fracs,
        Ok (map (fun frac =>
                   stream_entry fs (FastFullVerify.optimized_subdir variant idx frac))
                fracs))) /\
  (forall fs subdir,
     stream_absent fs subdir = true ->
     stream_entry fs subdir = None /\
     stream_cell_trace fs subdir
     = fst (FastFullVerify.load_criterion_estimate (stream_cell subdir) fs)
       ++ [EvPrint (LnWarningMissing subdir)]) /\
  (forall fs,
     fs FastFullVerify.base_dir <> None ->
     (forall subdir, In subdir stream_subdirs -> stream_cell_loads fs subdir) ->
     returns (FastFullVerify.main fs)) /\
  (forall fs ns,
     (forall n, In n ns -> fverify_cell_loads fs n) ->
     Fverify1024.load_fverify_data ns fs
     = (flat_map (fverify_cell_trace fs) ns, Ok (flat_map (fverify_entry fs) ns))) /\
  (forall fs n,
     fs (Fverify1024.fverify_path n) = None ->
     fverify_entry fs n = [] /\
     fverify_cell_trace fs n = [EvExists (Fverify1024.fverify_path n)]) /\
  (forall fs,
     (forall n, In n Fverify1024.index_counts -> fverify_cell_loads fs n) ->
     (forall p, In p baselines_1024 ->
        returns (Fverify1024.load_criterion_estimate p fs)) ->
     (forall p est,
        In p fverify_1024_locations ->
        snd (Fverify1024.load_criterion_estimate p fs) = Ok est ->
        within_float_range est) ->
     exists tr fig,
       Fverify1024.main fs = (tr, Ok fig) /\
       Fverify1024.indices fig
       = filter (fun n => dir_present fs (Fverify1024.fverify_path n))
                Fverify1024.index_counts).
Proof.
  split; [| split; [| split; [| split; [| split; [| split]]]]].
  - intros fs variant fracs Hloads.
    exact (stream_loop_eq fs (FastFullVerify.baseline_subdir variant) fracs Hloads).
  - intros fs variant idx fracs Hloads.
    exact (stream_loop_eq fs (FastFullVerify.optimized_subdir variant idx) fracs Hloads).
  - intros fs subdir Habs. unfold stream_entry, stream_cell_trace.
    rewrite Habs. unfold stream_absent in Habs.
    destruct (snd (FastFullVerify.load_criterion_estimate (stream_cell subdir) fs))
      as [[d|]|e]; try discriminate. split; reflexivity.
  - exact stream_main_returns.
  - exact fverify_loop_eq.
  - intros fs n Hdir. unfold fverify_entry, fverify_cell_trace, dir_present.
    rewrite Hdir. split; reflexivity.
  - exact fverify_1024_main_returns.
Qed.

(** The falcon512 baseline over the first two fractions: the cell of
    0.01 is absent, the cell of 0.10 holds a mean of 10 ns. *)
Lemma series_construction_visits_domain_in_order_witness :
  FastFullVerify.load_baseline "falcon512" [0.01; 0.1]%float (stream_group_fs 15)
  = (flat_map (fun frac =>
                 stream_cell_trace (stream_group_fs 15)
                   (FastFullVerify.baseline_subdir "falcon512" frac)) [0.01; 0.1]%float,
     Ok (map (fun frac =>
                stream_entry (stream_group_fs 15)
                  (FastFullVerify.baseline_subdir "falcon512" frac)) [0.01; 0.1]%float)).
Proof.
  apply (proj1 series_construction_visits_domain_in_order).
  intros frac [<- | [<- | []]].
  - left. vm_compute. reflexivity.
  - right. eexists. eexists. split; [vm_compute; reflexivity | vm_compute; reflexivity].
Defined.

(** ** The stream-verification run as a whole *)

Lemma flat_map_map_compose {A B C} (f : B -> list C) (g : A -> B) (l : list A) :
  flat_map f (map g l) = flat_map (fun x => f (g x)) l.
Proof. induction l as [|x rest IH]; cbn; congruence. Qed.

Lemma flat_map_nested {A B C} (f : B -> list C) (g : A -> list B) (l : list A) :
  flat_map f (flat_map g l) = flat_map (fun x => flat_map f (g x)) l.
Proof.
  induction l as [|x rest IH]; cbn; [reflexivity|].
  rewrite flat_map_app, IH. reflexivity.
Qed.

Lemma stream_variant_eq fs variant :
  (forall subdir, In subdir (variant_subdirs variant) -> stream_cell_loads fs subdir) ->
  FastFullVerify.load_variant variant fs
  = (flat_map (stream_cell_trace fs) (variant_subdirs variant),
     Ok (stream_variant_results fs variant)).
Proof.
  intros Hloads. unfold FastFullVerify.load_variant, bind at 1.
  unfold FastFullVerify.load_baseline. rewrite stream_loop_eq.
  2:{ intros frac Hfrac. apply Hloads. unfold variant_subdirs.
      apply in_or_app. left. apply in_map. exact Hfrac. }
  unfold bind at 1.
  rewrite (for_in_append FastFullVerify.index_counts _ fs
             (fun idx => flat_map (stream_cell_trace fs)
                           (map (FastFullVerify.optimized_subdir variant idx)
                                FastFullVerify.invalid_fractions))
             (fun idx => [(idx,
                           map (fun frac =>
                                  stream_entry fs
                                    (FastFullVerify.optimized_subdir variant idx frac))
                               FastFullVerify.invalid_fractions)])).
  - unfold ret. cbn [app]. rewrite app_nil_r, flat_map_singleton.
    unfold variant_subdirs. rewrite flat_map_app, flat_map_map_compose, flat_map_nested.
    reflexivity.
  - intros idx acc Hidx. unfold bind, FastFullVerify.load_optimized.
    rewrite stream_loop_eq.
    + unfold ret. rewrite app_nil_r, flat_map_map_compose. reflexivity.
    + intros frac Hfrac. apply Hloads. unfold variant_subdirs.
      apply in_or_app. right. apply in_flat_map. exists idx. split; [exact Hidx|].
      apply in_map. exact Hfrac.
Qed.

Lemma stream_main_eq fs :
  fs FastFullVerify.base_dir <> None ->
  (forall subdir, In subdir stream_subdirs -> stream_cell_loads fs subdir) ->
  FastFullVerify.main fs = (stream_trace fs, Ok (stream_figure fs)).
Proof.
  intros Hdir Hloads. unfold FastFullVerify.main.
  unfold bind at 1, print. unfold bind at 1, path_exists.
  destruct (fs FastFullVerify.base_dir) as [d|]; [clear Hdir | congruence].
  cbn [negb]. unfold bind at 1.
  rewrite (for_in_append FastFullVerify.variants _ fs
             (fun variant => flat_map (stream_cell_trace fs) (variant_subdirs variant))
             (fun variant => [(variant, stream_variant_results fs variant)])).
  - unfold ret, stream_trace, stream_figure, stream_subdirs.
    cbn [app]. rewrite app_nil_r, flat_map_singleton, map_map, flat_map_nested.
    reflexivity.
  - intros variant acc Hvariant. unfold bind.
    rewrite stream_variant_eq.
    + unfold ret. rewrite app_nil_r. reflexivity.
    + intros subdir Hsub. apply Hloads. unfold stream_subdirs.
      apply in_flat_map. exists variant. split; assumption.
Qed.

Lemma aborts_not_returns {A} (r : trace * outcome A) : aborts r -> ~ returns r.
Proof. intros [e He] [a Ha]. congruence. Qed.

(** A cell loads, or its round of the loading loop is bound to abort. *)
Lemma stream_cell_loads_or_aborts fs subdir :
  stream_cell_loads fs subdir \/
  (forall series, aborts (FastFullVerify.load_cell subdir series fs)).
Proof.
  unfold stream_cell_loads, stream_absent, FastFullVerify.load_cell, aborts, bind.
  fold (stream_cell subdir).
  destruct (FastFullVerify.load_criterion_estimate (stream_cell subdir) fs)
    as [t [[d|]|e]]; cbn [fst snd].
  - destruct (py_truediv (FastFullVerify.mean d) 1000000) as [ms|e] eqn:Hms.
    + left. right. eauto.
    + right. intros series. unfold lift. cbn. eauto.
  - left. left. reflexivity.
  - right. intros series. cbn. eauto.
Qed.

Lemma stream_main_aborts_at fs subdir :
  In subdir stream_subdirs ->
  (forall series, aborts (FastFullVerify.load_cell subdir series fs)) ->
  aborts (FastFullVerify.main fs).
Proof.
  intros Hin Hcell. unfold FastFullVerify.main.
  apply aborts_bind_r; intros _. apply aborts_bind_r; intros found.
  destruct found; cbn [negb].
  2:{ do 2 (apply aborts_bind_r; intros _). apply aborts_raise. }
  apply aborts_bind_l.
  unfold stream_subdirs in Hin. apply in_flat_map in Hin.
  destruct Hin as (variant & Hvariant & Hin).
  apply (for_in_aborts _ _ fs variant Hvariant). intros acc.
  apply aborts_bind_l. unfold FastFullVerify.load_variant.
  apply in_app_or in Hin. destruct Hin as [Hin | Hin].
  - apply aborts_bind_l. apply in_map_iff in Hin.
    destruct Hin as (frac & <- & Hfrac).
    apply (for_in_aborts _ _ fs frac Hfrac). exact Hcell.
  - apply aborts_bind_r; intros baseline. apply aborts_bind_l.
    apply in_flat_map in Hin. destruct Hin as (idx & Hidx & Hin).
    apply (for_in_aborts _ _ fs idx Hidx). intros acc'.
    apply aborts_bind_l. apply in_map_iff in Hin.
    destruct Hin as (frac & <- & Hfrac).
    apply (for_in_aborts _ _ fs frac Hfrac). exact Hcell.
Qed.

Lemma stream_main_returns_inv fs :
  returns (FastFullVerify.main fs) ->
  fs FastFullVerify.base_dir <> None /\
  (forall subdir, In subdir stream_subdirs -> stream_cell_loads fs subdir).
Proof.
  intros Hret. split.
  - intros Hdir. destruct Hret as [a Ha]. revert Ha.
    unfold FastFullVerify.main, bind, print, path_exists, raise.
    rewrite Hdir. discriminate.
  - intros subdir Hin.
    destruct (stream_cell_loads_or_aborts fs subdir) as [Hl | Ha]; [exact Hl|].
    exfalso. exact (aborts_not_returns _ (stream_main_aborts_at fs subdir Hin Ha) Hret).
Qed.

Lemma stream_load_prints_nothing fs p :
  printed (fst (FastFullVerify.load_criterion_estimate p fs)) = [].
Proof.
  destruct (fs (new_file p)) as [n|] eqn:Hnew.
  - rewrite (stream_load_new fs p n Hnew). reflexivity.
  - destruct (fs (base_file p)) as [n|] eqn:Hbase.
    + rewrite (stream_load_base fs p n Hnew Hbase). reflexivity.
    + rewrite (stream_load_absent fs p Hnew Hbase). reflexivity.
Qed.

Lemma printed_app (t1 t2 : trace) : printed (t1 ++ t2) = printed t1 ++ printed t2.
Proof. unfold printed. apply flat_map_app. Qed.

Lemma printed_stream_cells fs (subdirs : list string) :
  printed (flat_map (stream_cell_trace fs) subdirs)
  = map LnWarningMissing (filter (stream_absent fs) subdirs).
Proof.
  induction subdirs as [|subdir rest IH]; [reflexivity|].
  cbn [flat_map filter]. rewrite printed_app, IH.
  unfold stream_cell_trace at 1. rewrite printed_app, stream_load_prints_nothing.
  destruct (stream_absent fs subdir); reflexivity.
Qed.

Lemma stream_main_inv fs tr fig :
  FastFullVerify.main fs = (tr, Ok fig) ->
  tr = stream_trace fs /\ fig = stream_figure fs.
Proof.
  intros Hmain.
  assert (Hret : returns (FastFullVerify.main fs)) by (rewrite Hmain; exists fig; reflexivity).
  destruct (stream_main_returns_inv fs Hret) as [Hdir Hloads].
  rewrite (stream_main_eq fs Hdir Hloads) in Hmain. injection Hmain as <- <-.
  split; reflexivity.
Qed.

(** *** The cells as the tree holds them *)

Lemma record_file_none fs p :
  record_file fs p = None <-> fs (new_file p) = None /\ fs (base_file p) = None.
Proof.
  unfold record_file. destruct (fs (new_file p)) as [n|]; split.
  - discriminate.
  - intros [H _]. discriminate.
  - intros H. split; [reflexivity | exact H].
  - intros [_ H]. exact H.
Qed.

Lemma py_truediv_divides (v : json) :
  (exists ms, py_truediv v 1000000 = Ok ms) <-> divides_to_float v 1000000 = true.
Proof.
  unfold py_truediv.
  destruct v as [|b|n|x|s|items|fields]; cbn [as_number and_then divides_to_float pynum_truediv].
  - split; [intros [ms H]; discriminate | discriminate].
  - split; [reflexivity | intros _]. destruct b; vm_compute; eauto.
  - destruct (1000000 * float_overflow_bound <=? Z.abs n)%Z eqn:E.
    + apply Z.leb_le in E. split; [intros [ms H]; discriminate |].
      intros H. apply Z.ltb_lt in H. lia.
    + apply Z.leb_gt in E. split; [intros _; apply Z.ltb_lt; exact E | eauto].
  - split; [reflexivity | eauto].
  - split; [intros [ms H]; discriminate | discriminate].
  - split; [intros [ms H]; discriminate | discriminate].
  - split; [intros [ms H]; discriminate | discriminate].
Qed.

Lemma stream_cell_loads_ok fs subdir :
  stream_cell_loads fs subdir <-> stream_cell_ok fs subdir.
Proof.
  unfold stream_cell_loads, stream_cell_ok, stream_absent.
  destruct (record_file fs (stream_cell subdir)) as [n|] eqn:Hrec.
  - rewrite (stream_load_record fs _ n Hrec).
    destruct n as [|[| |j]]; cbn [stream_read].
    + split; intros [H | (a & b & H & _)]; discriminate.
    + split; intros [H | (a & b & H & _)]; discriminate.
    + split; intros [H | (a & b & H & _)]; discriminate.
    + destruct (lookup j point_estimate_key) as [v|e] eqn:Hv; cbn [and_then].
      * split.
        -- intros [H | (d & ms & [= <-] & Hms)]; [discriminate|].
           right. exists j, v. split; [reflexivity|]. split; [exact Hv|].
           apply py_truediv_divides. eauto.
        -- intros [H | (j' & v' & [= <-] & Hv' & Hdiv)]; [discriminate|].
           rewrite Hv in Hv'. injection Hv' as <-.
           apply py_truediv_divides in Hdiv. destruct Hdiv as [ms Hms].
           right. eexists. exists ms. split; [reflexivity | exact Hms].
      * split.
        -- intros [H | (a & b & H & _)]; discriminate.
        -- intros [H | (j' & v' & [= <-] & Hv' & _)]; [discriminate|].
           rewrite Hv in Hv'. discriminate.
  - apply record_file_none in Hrec. destruct Hrec as [Hnew Hbase].
    rewrite (stream_load_absent fs _ Hnew Hbase). cbn [snd].
    split; intros _; left; reflexivity.
Qed.

Lemma stream_point_of_record fs subdir j v ms :
  record_file fs (stream_cell subdir) = Some (File (Parsed j)) ->
  lookup j point_estimate_key = Ok v ->
  py_truediv v 1000000 = Ok ms ->
  stream_point fs subdir = ms.
Proof.
  intros Hrec Hv Hms. unfold stream_point, stream_entry.
  rewrite (stream_load_record fs _ _ Hrec). cbn [stream_read].
  rewrite Hv. cbn [and_then FastFullVerify.mean]. rewrite Hms. reflexivity.
Qed.

(** *** Properties of the run of [plot_fast_full_verify_benchmark.py] *)

(** X1.  The stream-verification run completes exactly when the
    [stream_verification] directory exists and each of its 30 cells
    either has no record at all (no "new" and no "base" one) or has a
    record that parses and holds a mean point estimate that is a float, a
    bool, or an int below [1_000_000 * (2^1024 - 2^970)] in absolute
    value, the ints that Python divides by [1_000_000] without
    [OverflowError]. *)
Theorem stream_run_completes_iff :
  forall fs,
    returns (FastFullVerify.main fs) <->
    (fs FastFullVerify.base_dir <> None /\
     forall subdir, In subdir stream_subdirs -> stream_cell_ok fs subdir).
Proof.
  intros fs. split.
  - intros Hret. destruct (stream_main_returns_inv fs Hret) as [Hdir Hloads].
    split; [exact Hdir|]. intros subdir Hin. apply stream_cell_loads_ok, Hloads, Hin.
  - intros [Hdir Hok]. unfold returns.
    rewrite (stream_main_eq fs Hdir); [eexists; reflexivity |].
    intros subdir Hin. apply stream_cell_loads_ok, Hok, Hin.
Qed.

(** The tree with two measured falcon512 baseline cells: every other
    cell has no record and the run completes. *)
Lemma stream_run_completes_iff_witness :
  returns (FastFullVerify.main (stream_group_fs 15)).
Proof.
  apply (proj2 (stream_run_completes_iff (stream_group_fs 15))). split.
  - vm_compute. discriminate.
  - intros subdir Hin. vm_compute in Hin.
    repeat (destruct Hin as [<- | Hin];
            [first [left; vm_compute; reflexivity
                   | right; eexists; eexists;
                     (split; [vm_compute; reflexivity |
                              split; [vm_compute; reflexivity | vm_compute; reflexivity]])] |]).
    destruct Hin.
Defined.

(** X2.  A run that completes has visited the cells in the order variant,
    baseline fractions, then index counts and fractions, and its figure
    is read off the records: per variant the NaN-ignoring median of the
    baseline points and one line per index count.  The point of a cell
    without a record is NaN; the point of a cell whose record holds the
    point estimate [v] is [v / 1_000_000] as Python divides: the binary64
    quotient for a float, the correctly rounded quotient of the two ints
    for an int, which below [2^53] is the binary64 quotient of the int as
    a float. *)
Theorem stream_run_figure :
  forall fs tr fig,
    FastFullVerify.main fs = (tr, Ok fig) ->
    tr = stream_trace fs /\ fig = stream_figure fs /\
    (forall subdir,
       record_file fs (stream_cell subdir) = None -> stream_point fs subdir = nan) /\
    (forall subdir j x,
       record_file fs (stream_cell subdir) = Some (File (Parsed j)) ->
       lookup j point_estimate_key = Ok (JNum x) ->
       stream_point fs subdir = (x / 1000000)%float) /\
    (forall subdir j n,
       record_file fs (stream_cell subdir) = Some (File (Parsed j)) ->
       lookup j point_estimate_key = Ok (JInt n) ->
       (Z.abs n < 1000000 * float_overflow_bound)%Z ->
       stream_point fs subdir = int_quotient n 1000000 /\
       ((Z.abs n < 2 ^ 53)%Z ->
        stream_point fs subdir = (float_of_Z n / 1000000)%float)).
Proof.
  intros fs tr fig Hmain.
  destruct (stream_main_inv fs tr fig Hmain) as [-> ->].
  split; [reflexivity|]. split; [reflexivity|]. split; [| split].
  - intros subdir Hrec. apply record_file_none in Hrec. destruct Hrec as [Hnew Hbase].
    unfold stream_point, stream_entry.
    rewrite (stream_load_absent fs _ Hnew Hbase). reflexivity.
  - intros subdir j x Hrec Hv.
    apply (stream_point_of_record fs subdir j _ _ Hrec Hv).
    unfold py_truediv. cbn [as_number and_then pynum_truediv].
    rewrite float_of_Z_1000000. reflexivity.
  - intros subdir j n Hrec Hv Hn.
    assert (Hms : py_truediv (JInt n) 1000000 = Ok (int_quotient n 1000000)).
    { unfold py_truediv. cbn [as_number and_then pynum_truediv].
      destruct (1000000 * float_overflow_bound <=? Z.abs n)%Z eqn:E; [| reflexivity].
      apply Z.leb_le in E. lia. }
    rewrite (stream_point_of_record fs subdir j _ _ Hrec Hv Hms).
    split; [reflexivity|]. intros Hsmall. unfold int_quotient, small_int.
    replace (Z.abs n <? 2 ^ 53)%Z with true by (symmetry; apply Z.ltb_lt; exact Hsmall).
    cbn [andb]. replace (Z.abs 1000000 <? 2 ^ 53)%Z with true by reflexivity.
    rewrite float_of_Z_1000000. reflexivity.
Qed.

(** A cell whose record holds the int [2^53 + 1]: its point is the
    correctly rounded quotient of the ints. *)
Lemma stream_run_figure_witness :
  stream_point fs_int_estimate "falcon512_baseline_invalid_0.01"
  = int_quotient 9007199254740993 1000000.
Proof.
  apply (proj2 (proj2 (proj2 (proj2
           (stream_run_figure fs_int_estimate
              (fst (FastFullVerify.main fs_int_estimate))
              (returned [] (FastFullVerify.main fs_int_estimate))
              ltac:(vm_compute; reflexivity)))))
           "falcon512_baseline_invalid_0.01"
           (JObj [("mean", JObj [("point_estimate", JInt 9007199254740993)])])
           9007199254740993%Z).
  - vm_compute. reflexivity.
  - vm_compute. reflexivity.
  - vm_compute. reflexivity.
Defined.

(** X3.  Whatever the tree, a run that completes hands over one plot per
    variant, in the order of [variants]; each plot has one line per index
    count, in the order of [index_counts]; and each line has exactly one
    point per invalid fraction, so that it can be drawn against
    [invalid_fractions]. *)
Theorem stream_lines_are_aligned :
  forall fs tr fig,
    FastFullVerify.main fs = (tr, Ok fig) ->
    map fst fig = FastFullVerify.variants /\
    (forall variant plot,
       In (variant, plot) fig ->
       map fst (FastFullVerify.opt_lines plot) = FastFullVerify.index_counts /\
       (forall idx points,
          In (idx, points) (FastFullVerify.opt_lines plot) ->
          List.length points = List.length FastFullVerify.invalid_fractions)).
Proof.
  intros fs tr fig Hmain.
  destruct (stream_main_inv fs tr fig Hmain) as (_ & ->).
  unfold stream_figure. split.
  - rewrite map_map. cbn [fst]. apply map_id.
  - intros variant plot Hin. apply in_map_iff in Hin.
    destruct Hin as (v & [= <- <-] & _). cbn [FastFullVerify.opt_lines]. split.
    + reflexivity.
    + intros idx points [H | [H | []]]; injection H as _ <-; reflexivity.
Qed.

Lemma stream_lines_are_aligned_witness :
  map fst (returned [] (FastFullVerify.main (stream_group_fs 15)))
  = FastFullVerify.variants.
Proof.
  apply (stream_lines_are_aligned (stream_group_fs 15)
           (fst (FastFullVerify.main (stream_group_fs 15)))).
  vm_compute. reflexivity.
Defined.

(** X4.  The lines printed by a run that completes are the starting line
    followed by one warning for each absent cell, in the order in which
    the cells are visited, and nothing else. *)
Theorem stream_run_warns_of_absent_cells :
  forall fs tr fig,
    FastFullVerify.main fs = (tr, Ok fig) ->
    printed tr = LnStarting :: stream_warnings fs.
Proof.
  intros fs tr fig Hmain.
  destruct (stream_main_inv fs tr fig Hmain) as (-> & _).
  unfold stream_trace, stream_warnings.
  change (printed (EvPrint LnStarting :: EvExists FastFullVerify.base_dir
                   :: flat_map (stream_cell_trace fs) stream_subdirs))
    with (LnStarting :: printed (flat_map (stream_cell_trace fs) stream_subdirs)).
  rewrite printed_stream_cells. reflexivity.
Qed.

Lemma stream_run_warns_of_absent_cells_witness :
  printed (fst (FastFullVerify.main (stream_group_fs 15)))
  = LnStarting :: stream_warnings (stream_group_fs 15).
Proof.
  apply (stream_run_warns_of_absent_cells (stream_group_fs 15) _
           (returned [] (FastFullVerify.main (stream_group_fs 15)))).
  vm_compute. reflexivity.
Defined.

(** X5.  A record whose mean point estimate is present but is not a
    number (a string, null, a list, an object) passes the
    stream-verification loader, which does not look at the value; the
    conversion to milliseconds in [main] then raises [TypeError] and the
    run aborts. *)
Theorem stream_non_numeric_estimate_aborts :
  forall fs subdir j v,
    In subdir stream_subdirs ->
    record_file fs (stream_cell subdir) = Some (File (Parsed j)) ->
    lookup j point_estimate_key = Ok v ->
    as_number v = Raise TypeError ->
    snd (FastFullVerify.load_criterion_estimate (stream_cell subdir) fs)
    = Ok (Some {| FastFullVerify.mean := v |}) /\
    (forall series, snd (FastFullVerify.load_cell subdir series fs) = Raise TypeError) /\
    aborts (FastFullVerify.main fs).
Proof.
  intros fs subdir j v Hin Hrec Hv Hnum.
  assert (Hload : snd (FastFullVerify.load_criterion_estimate (stream_cell subdir) fs)
                  = Ok (Some {| FastFullVerify.mean := v |})).
  { rewrite (stream_load_record fs _ _ Hrec). cbn [stream_read]. rewrite Hv. reflexivity. }
  assert (Hcell : forall series,
             snd (FastFullVerify.load_cell subdir series fs) = Raise TypeError).
  { intros series. unfold FastFullVerify.load_cell, bind. fold (stream_cell subdir).
    destruct (FastFullVerify.load_criterion_estimate (stream_cell subdir) fs) as [t r].
    cbn in Hload. subst r. unfold lift, py_truediv.
    cbn [FastFullVerify.mean]. rewrite Hnum. reflexivity. }
  repeat split; [exact Hload | exact Hcell |].
  apply (stream_main_aborts_at fs subdir Hin).
  intros series. exists TypeError. apply Hcell.
Qed.

Lemma stream_non_numeric_estimate_aborts_witness :
  snd (FastFullVerify.load_criterion_estimate
         (stream_cell "falcon512_baseline_invalid_0.01") fs_text_estimate)
  = Ok (Some {| FastFullVerify.mean := JStr "12.5" |}) /\
  (forall series,
     snd (FastFullVerify.load_cell "falcon512_baseline_invalid_0.01" series
            fs_text_estimate) = Raise TypeError) /\
  aborts (FastFullVerify.main fs_text_estimate).
Proof.
  apply (stream_non_numeric_estimate_aborts fs_text_estimate
           "falcon512_baseline_invalid_0.01"
           (JObj [("mean", JObj [("point_estimate", JStr "12.5")])]) (JStr "12.5")).
  - vm_compute. tauto.
  - reflexivity.
  - reflexivity.
  - reflexivity.
Defined.

(** X6.  When the [stream_verification] directory does not exist the run
    prints its two error lines and exits with status 1; no cell is probed
    and nothing is loaded. *)
Theorem stream_run_exits_without_directory :
  forall fs,
    fs FastFullVerify.base_dir = None ->
    FastFullVerify.main fs
    = ([EvPrint LnStarting; EvExists FastFullVerify.base_dir;
        EvPrint (LnDirNotFound FastFullVerify.base_dir); EvPrint LnPleaseRun],
       Raise (SystemExit 1)).
Proof.
  intros fs Hdir. unfold FastFullVerify.main, bind, print, path_exists, raise.
  rewrite Hdir. reflexivity.
Qed.

Lemma stream_run_exits_without_directory_witness :
  FastFullVerify.main fs_empty
  = ([EvPrint LnStarting; EvExists FastFullVerify.base_dir;
      EvPrint (LnDirNotFound FastFullVerify.base_dir); EvPrint LnPleaseRun],
     Raise (SystemExit 1)).
Proof.
  apply (stream_run_exits_without_directory fs_empty). reflexivity.
Defined.

(** ** The fverify runs as a whole *)

(** *** The loader of the fverify scripts *)

Lemma read_estimate_iff j est :
  Fverify1024.read_estimate j = Ok est <->
  exists vm vl vu m l u el eu,
    lookup j point_estimate_key = Ok vm /\
    lookup j lower_bound_key = Ok vl /\
    lookup j upper_bound_key = Ok vu /\
    as_number vm = Ok m /\ as_number vl = Ok l /\ as_number vu = Ok u /\
    pynum_sub m l = Ok el /\ pynum_sub u m = Ok eu /\
    est = {| Fverify1024.mean := m; Fverify1024.ci_lower := l;
             Fverify1024.ci_upper := u;
             Fverify1024.error_lower := el; Fverify1024.error_upper := eu |}.
Proof.
  unfold Fverify1024.read_estimate, point_estimate_key, lower_bound_key, upper_bound_key,
    py_sub.
  cbn [lookup].
  destruct (subscript j "mean") as [mj|e]; cbn [and_then];
    [| split; [discriminate | intros (? & ? & ? & ? & ? & ? & ? & ? & H & _); discriminate]].
  destruct (subscript mj "point_estimate") as [vm|e]; cbn [and_then];
    [| split; [discriminate | intros (? & ? & ? & ? & ? & ? & ? & ? & H & _); discriminate]].
  destruct (subscript mj "confidence_interval") as [ci|e]; cbn [and_then];
    [| split; [discriminate
              | intros (? & ? & ? & ? & ? & ? & ? & ? & _ & H & _); discriminate]].
  destruct (subscript ci "lower_bound") as [vl|e]; cbn [and_then];
    [| split; [discriminate
              | intros (? & ? & ? & ? & ? & ? & ? & ? & _ & H & _); discriminate]].
  destruct (subscript ci "upper_bound") as [vu|e]; cbn [and_then];
    [| split; [discriminate
              | intros (? & ? & ? & ? & ? & ? & ? & ? & _ & _ & H & _); discriminate]].
  destruct (as_number vm) as [m|e] eqn:Hm; cbn [and_then];
    [| split; [discriminate |
               intros (? & ? & ? & ? & ? & ? & ? & ? & [= <-] & _ & _ & H & _); congruence]].
  destruct (as_number vl) as [l|e] eqn:Hl; cbn [and_then];
    [| split; [discriminate |
               intros (? & ? & ? & ? & ? & ? & ? & ? & _ & [= <-] & _ & _ & H & _);
               congruence]].
  destruct (pynum_sub m l) as [el|e] eqn:Hel; cbn [and_then];
    [| split; [discriminate |
               intros (? & ? & ? & ? & ? & ? & ? & ? & [= <-] & [= <-] & _ & H1 & H2 & _ & H & _);
               congruence]].
  destruct (as_number vu) as [u|e] eqn:Hu; cbn [and_then];
    [| split; [discriminate |
               intros (? & ? & ? & ? & ? & ? & ? & ? & _ & _ & [= <-] & _ & _ & H & _);
               congruence]].
  destruct (pynum_sub u m) as [eu|e] eqn:Heu; cbn [and_then];
    [| split; [discriminate |
               intros (? & ? & ? & ? & ? & ? & ? & ? & [= <-] & _ & [= <-] & H1 & _ & H2 & _ & H & _);
               congruence]].
  split.
  - intros [= <-]. exists vm, vl, vu, m, l, u, el, eu. repeat split; assumption.
  - intros (vm' & vl' & vu' & m' & l' & u' & el' & eu'
            & [= <-] & [= <-] & [= <-] & Hm' & Hl' & Hu' & Hel' & Heu' & ->).
    congruence.
Qed.

(** X7.  The loader of the fverify scripts accepts a parsed record
    exactly when the point estimate and both confidence bounds are there,
    are numbers, and the two differences [mean - ci_lower] and
    [ci_upper - mean] can be formed; these are the error bars it returns.
    Two floats are subtracted in binary64 and two ints exactly; an int
    that meets a float is converted first, which raises [OverflowError]
    from [2^1024 - 2^970] on.  A value that is not a number raises
    [TypeError].  The bounds are not checked against the mean. *)
Theorem fverify_record_loads_iff :
  (forall j est,
     Fverify1024.read_estimate j = Ok est <->
     exists vm vl vu m l u el eu,
       lookup j point_estimate_key = Ok vm /\
       lookup j lower_bound_key = Ok vl /\
       lookup j upper_bound_key = Ok vu /\
       as_number vm = Ok m /\ as_number vl = Ok l /\ as_number vu = Ok u /\
       pynum_sub m l = Ok el /\ pynum_sub u m = Ok eu /\
       est = {| Fverify1024.mean := m; Fverify1024.ci_lower := l;
                Fverify1024.ci_upper := u;
                Fverify1024.error_lower := el; Fverify1024.error_upper := eu |}) /\
  (forall m l u : float,
     Fverify1024.read_estimate (record_values (JNum m) (JNum l) (JNum u))
     = Ok {| Fverify1024.mean := PyFloat m; Fverify1024.ci_lower := PyFloat l;
             Fverify1024.ci_upper := PyFloat u;
             Fverify1024.error_lower := PyFloat (m - l)%float;
             Fverify1024.error_upper := PyFloat (u - m)%float |}) /\
  (forall m l u : Z,
     Fverify1024.read_estimate (record_values (JInt m) (JInt l) (JInt u))
     = Ok {| Fverify1024.mean := PyInt m; Fverify1024.ci_lower := PyInt l;
             Fverify1024.ci_upper := PyInt u;
             Fverify1024.error_lower := PyInt (m - l)%Z;
             Fverify1024.error_upper := PyInt (u - m)%Z |}) /\
  (forall (m : Z) (l u : float),
     (Z.abs m < float_overflow_bound)%Z ->
     Fverify1024.read_estimate (record_values (JInt m) (JNum l) (JNum u))
     = Ok {| Fverify1024.mean := PyInt m; Fverify1024.ci_lower := PyFloat l;
             Fverify1024.ci_upper := PyFloat u;
             Fverify1024.error_lower := PyFloat (float_of_Z m - l)%float;
             Fverify1024.error_upper := PyFloat (u - float_of_Z m)%float |}) /\
  (forall (m : Z) (l : float) (vu : json),
     (float_overflow_bound <= Z.abs m)%Z ->
     Fverify1024.read_estimate (record_values (JInt m) (JNum l) vu)
     = Raise OverflowError) /\
  (forall vm vl vu,
     as_number vm = Raise TypeError \/ as_number vl = Raise TypeError ->
     Fverify1024.read_estimate (record_values vm vl vu) = Raise TypeError).
Proof.
  split; [exact read_estimate_iff |].
  split; [reflexivity |]. split; [reflexivity |]. split; [| split].
  - intros m l u Hm.
    unfold Fverify1024.read_estimate, record_values, py_sub.
    cbn [subscript dict_get String.eqb Ascii.eqb Bool.eqb and_then as_number pynum_sub].
    unfold py_float.
    replace (float_overflow_bound <=? Z.abs m)%Z with false
      by (symmetry; apply Z.leb_gt; exact Hm).
    reflexivity.
  - intros m l vu Hm.
    unfold Fverify1024.read_estimate, record_values, py_sub.
    cbn [subscript dict_get String.eqb Ascii.eqb Bool.eqb and_then as_number pynum_sub].
    unfold py_float.
    replace (float_overflow_bound <=? Z.abs m)%Z with true
      by (symmetry; apply Z.leb_le; exact Hm).
    reflexivity.
  - intros vm vl vu H.
    unfold Fverify1024.read_estimate, record_values, py_sub.
    cbn [subscript dict_get String.eqb Ascii.eqb Bool.eqb and_then].
    destruct H as [H | H].
    + rewrite H. reflexivity.
    + rewrite H. destruct (as_number vm) as [m|e] eqn:Hm; cbn [and_then]; [reflexivity|].
      destruct vm; cbn in Hm; congruence.
Qed.

(** A record of ints with the lower bound above the mean: it loads, with
    the exact difference [-3] as its lower error bar. *)
Lemma fverify_record_loads_iff_witness :
  Fverify1024.read_estimate (record_values (JInt 10) (JInt 13) (JInt 12))
  = Ok {| Fverify1024.mean := PyInt 10; Fverify1024.ci_lower := PyInt 13;
          Fverify1024.ci_upper := PyInt 12;
          Fverify1024.error_lower := PyInt (10 - 13);
          Fverify1024.error_upper := PyInt (12 - 10) |}.
Proof.
  apply (proj1 (proj2 (proj2 fverify_record_loads_iff)) 10%Z 13%Z 12%Z).
Defined.

(** *** The run of [plot_fverify_1024_benchmark.py] *)

(** A cell loads, or its round of the loading loop is bound to abort. *)
Lemma fverify_cell_loads_or_aborts fs n :
  fverify_cell_loads fs n \/
  (forall data,
     aborts
       (bind (path_exists (Fverify1024.fverify_path n))
          (fun dir_exists : bool =>
             if dir_exists then
               bind (Fverify1024.load_criterion_estimate (Fverify1024.fverify_path n))
                    (fun estimate =>
                       bind (lift (pynum_truediv (Fverify1024.mean estimate) 1000))
                            (fun microseconds =>
                               bind (print (LnEstimate
                                              ("fverify 1024 (" ++ str_of_int n
                                               ++ " indices)")%string
                                              microseconds))
                                    (fun _ => ret (data ++ [(n, estimate)]))))
             else ret data) fs)).
Proof.
  unfold fverify_cell_loads, dir_present.
  destruct (fs (Fverify1024.fverify_path n)) as [d|] eqn:Hdir; [| left; discriminate].
  destruct (snd (Fverify1024.load_criterion_estimate (Fverify1024.fverify_path n) fs))
    as [est|e] eqn:Hload.
  - destruct (pynum_truediv (Fverify1024.mean est) 1000) as [us|e] eqn:Hus.
    + left. intros _. eauto.
    + right. intros data. unfold aborts, bind, path_exists. rewrite Hdir.
      destruct (Fverify1024.load_criterion_estimate (Fverify1024.fverify_path n) fs)
        as [t r]. cbn in Hload. subst r.
      unfold lift. rewrite Hus. exists e. reflexivity.
  - right. intros data. apply aborts_bind_exists. rewrite Hdir.
    apply aborts_bind_l. exists e. exact Hload.
Qed.

Lemma fverify_1024_cells_load fs t data :
  Fverify1024.load_fverify_data Fverify1024.index_counts fs = (t, Ok data) ->
  forall n, In n Fverify1024.index_counts -> fverify_cell_loads fs n.
Proof.
  intros Hdata n Hin.
  destruct (fverify_cell_loads_or_aborts fs n) as [Hl | Hab]; [exact Hl|].
  exfalso.
  apply (aborts_not_returns
           (Fverify1024.load_fverify_data Fverify1024.index_counts fs)).
  - unfold Fverify1024.load_fverify_data.
    apply (for_in_aborts _ _ fs n Hin). exact Hab.
  - rewrite Hdata. eexists. reflexivity.
Qed.

(** What a run that returns has gone through, step by step. *)
Lemma fverify_1024_main_inv fs tr fig :
  Fverify1024.main fs = (tr, Ok fig) ->
  (forall n, In n Fverify1024.index_counts -> fverify_cell_loads fs n) /\
  exists tv v tf f vus fus means los his vci fci,
    Fverify1024.load_criterion_estimate ["falcon-rust"; "verify 1024"] fs = (tv, Ok v) /\
    Fverify1024.load_criterion_estimate ["c ffi"; "verify 1024"] fs = (tf, Ok f) /\
    pynum_truediv (Fverify1024.mean v) 1000 = Ok vus /\
    pynum_truediv (Fverify1024.mean f) 1000 = Ok fus /\
    np_array_truediv (map (fun d => Fverify1024.mean (snd d)) (fverify_data_of fs)) 1000
    = Ok means /\
    np_array_truediv (map (fun d => Fverify1024.error_lower (snd d)) (fverify_data_of fs))
                     1000 = Ok los /\
    np_array_truediv (map (fun d => Fverify1024.error_upper (snd d)) (fverify_data_of fs))
                     1000 = Ok his /\
    Fverify1024.half_width v = Ok vci /\
    Fverify1024.half_width f = Ok fci /\
    tr = flat_map (fverify_cell_trace fs) Fverify1024.index_counts
         ++ tv ++ [EvPrint (LnEstimate "verify 1024" vus)]
         ++ tf ++ [EvPrint (LnEstimate "C FFI verify 1024" fus)] /\
    fig = {| Fverify1024.indices := map fst (fverify_data_of fs);
             Fverify1024.means := means;
             Fverify1024.errors_lower := los;
             Fverify1024.errors_upper := his;
             Fverify1024.verify_mean := vus;
             Fverify1024.verify_ci := vci;
             Fverify1024.ffi_mean := fus;
             Fverify1024.ffi_ci := fci;
             Fverify1024.breakeven :=
               find_breakeven (map fst (fverify_data_of fs)) means vus |}.
Proof.
  intros Hmain. unfold Fverify1024.main in Hmain.
  apply bind_ok_inv in Hmain. destruct Hmain as (t1 & data & t2 & Hdata & Hmain & ->).
  pose proof (fverify_1024_cells_load fs t1 data Hdata) as Hcells.
  split; [exact Hcells |].
  pose proof (fverify_loop_eq fs _ Hcells) as Hloop.
  unfold fverify_data_of.
  remember (flat_map (fverify_cell_trace fs) Fverify1024.index_counts) as cells.
  remember (flat_map (fverify_entry fs) Fverify1024.index_counts) as entries.
  clear Heqcells Heqentries Hcells.
  rewrite Hloop in Hdata.
  assert (t1 = cells) as -> by congruence.
  assert (data = entries) as -> by congruence.
  clear Hdata Hloop.
  apply bind_ok_inv in Hmain. destruct Hmain as (tv & v & t3 & Hv & Hmain & ->).
  apply bind_ok_inv in Hmain. destruct Hmain as (tl1 & vus & t4 & Hvus & Hmain & ->).
  apply lift_ok_inv in Hvus. destruct Hvus as [Hvus ->].
  apply bind_ok_inv in Hmain. destruct Hmain as (tp1 & u1 & t5 & Hp1 & Hmain & ->).
  apply print_ok_inv in Hp1. subst tp1.
  apply bind_ok_inv in Hmain. destruct Hmain as (tf & f & t6 & Hf & Hmain & ->).
  apply bind_ok_inv in Hmain. destruct Hmain as (tl2 & fus & t7 & Hfus & Hmain & ->).
  apply lift_ok_inv in Hfus. destruct Hfus as [Hfus ->].
  apply bind_ok_inv in Hmain. destruct Hmain as (tp2 & u2 & t8 & Hp2 & Hmain & ->).
  apply print_ok_inv in Hp2. subst tp2.
  apply bind_ok_inv in Hmain. destruct Hmain as (tl3 & means & t9 & Hmeans & Hmain & ->).
  apply lift_ok_inv in Hmeans. destruct Hmeans as [Hmeans ->].
  apply bind_ok_inv in Hmain. destruct Hmain as (tl4 & los & t10 & Hlos & Hmain & ->).
  apply lift_ok_inv in Hlos. destruct Hlos as [Hlos ->].
  apply bind_ok_inv in Hmain. destruct Hmain as (tl5 & his & t11 & Hhis & Hmain & ->).
  apply lift_ok_inv in Hhis. destruct Hhis as [Hhis ->].
  apply bind_ok_inv in Hmain. destruct Hmain as (tl6 & vm & t12 & Hvm & Hmain & ->).
  apply lift_ok_inv in Hvm. destruct Hvm as [Hvm ->].
  apply bind_ok_inv in Hmain. destruct Hmain as (tl7 & vci & t13 & Hvci & Hmain & ->).
  apply lift_ok_inv in Hvci. destruct Hvci as [Hvci ->].
  apply bind_ok_inv in Hmain. destruct Hmain as (tl8 & fm & t14 & Hfm & Hmain & ->).
  apply lift_ok_inv in Hfm. destruct Hfm as [Hfm ->].
  apply bind_ok_inv in Hmain. destruct Hmain as (tl9 & fci & t15 & Hfci & Hmain & ->).
  apply lift_ok_inv in Hfci. destruct Hfci as [Hfci ->].
  unfold ret in Hmain.
  assert (t15 = []) as -> by congruence.
  assert (Hfig : fig = _) by (symmetry; injection Hmain as Hm; exact Hm).
  assert (vm = vus) as -> by congruence.
  assert (fm = fus) as -> by congruence.
  exists tv, v, tf, f, vus, fus, means, los, his, vci, fci.
  split; [exact Hv |]. split; [exact Hf |]. split; [exact Hvus |]. split; [exact Hfus |].
  split; [exact Hmeans |]. split; [exact Hlos |]. split; [exact Hhis |].
  split; [exact Hvci |]. split; [exact Hfci |].
  split; [| exact Hfig].
  cbn [app]. rewrite ?app_nil_r, <- ?app_assoc. reflexivity.
Qed.

Lemma all_ok_length {A} (rs : list (outcome A)) (l : list A) :
  all_ok rs = Ok l -> List.length l = List.length rs.
Proof.
  revert l. induction rs as [|r rest IH]; intros l; cbn [all_ok].
  - intros [= <-]. reflexivity.
  - destruct r as [a|e]; cbn [and_then]; [| discriminate].
    destruct (all_ok rest) as [l'|e]; cbn [and_then]; [| discriminate].
    intros [= <-]. cbn [List.length]. rewrite (IH l' eq_refl). reflexivity.
Qed.

Lemma np_array_truediv_length (vals : list pynum) (d : Z) (qs : list float) :
  np_array_truediv vals d = Ok qs -> List.length qs = List.length vals.
Proof.
  unfold np_array_truediv. destruct (forallb fits_numeric_dtype vals).
  - intros [= <-]. apply length_map.
  - intros H. rewrite (all_ok_length _ _ H). apply length_map.
Qed.

(** *** Records and what the loader makes of them *)

Lemma read_estimate_numbers j est :
  Fverify1024.read_estimate j = Ok est ->
  record_numbers j
  = Some (Fverify1024.mean est, Fverify1024.ci_lower est, Fverify1024.ci_upper est).
Proof.
  intros H. apply read_estimate_iff in H.
  destruct H as (vm & vl & vu & m & l & u & el & eu
                 & Hvm & Hvl & Hvu & Hm & Hl & Hu & _ & _ & ->).
  unfold record_numbers. rewrite Hvm, Hvl, Hvu, Hm, Hl, Hu. reflexivity.
Qed.

Lemma record_numbers_read j m l u :
  record_numbers j = Some (m, l, u) ->
  moderate m -> moderate l -> moderate u ->
  exists est,
    Fverify1024.read_estimate j = Ok est /\
    Fverify1024.mean est = m /\ Fverify1024.ci_lower est = l /\
    Fverify1024.ci_upper est = u.
Proof.
  unfold record_numbers. intros Hnum Hm Hl Hu.
  destruct (lookup j point_estimate_key) as [vm|e] eqn:Hvm; [| discriminate].
  destruct (lookup j lower_bound_key) as [vl|e] eqn:Hvl; [| discriminate].
  destruct (lookup j upper_bound_key) as [vu|e] eqn:Hvu; [| discriminate].
  destruct (as_number vm) as [m'|e] eqn:Em; [| discriminate].
  destruct (as_number vl) as [l'|e] eqn:El; [| discriminate].
  destruct (as_number vu) as [u'|e] eqn:Eu; [| discriminate].
  injection Hnum as -> -> ->.
  destruct (pynum_sub_ok m l Hm Hl) as (el & Hel & _).
  destruct (pynum_sub_ok u m Hu Hm) as (eu & Heu & _).
  eexists. split.
  - apply read_estimate_iff. exists vm, vl, vu, m, l, u, el, eu.
    repeat split; try assumption.
  - cbn. repeat split.
Qed.

Lemma has_numbers_loads fs locations p :
  moderate_records fs locations -> In p locations -> has_numbers fs p ->
  exists est microseconds,
    snd (Fverify1024.load_criterion_estimate p fs) = Ok est /\
    pynum_truediv (Fverify1024.mean est) 1000 = Ok microseconds.
Proof.
  intros Hmod Hin (j & Hrec & Hnum).
  destruct (record_numbers j) as [[[m l] u]|] eqn:En; [| congruence].
  destruct (Hmod p j m l u Hin Hrec En) as (Hm & Hl & Hu).
  destruct (record_numbers_read j m l u En Hm Hl Hu) as (est & Hread & Emean & _).
  destruct (pynum_truediv_ok m 1000 ltac:(lia) (moderate_wider m Hm)) as [us Hus].
  exists est, us. split.
  - rewrite (fverify_load_record fs p _ Hrec). exact Hread.
  - rewrite Emean. exact Hus.
Qed.

Lemma loaded_within_range fs locations p est :
  moderate_records fs locations -> In p locations ->
  snd (Fverify1024.load_criterion_estimate p fs) = Ok est ->
  within_float_range est.
Proof.
  intros Hmod Hin Hload.
  destruct (fverify_load_ok_record fs p est Hload) as (j & Hrec & Hread).
  exact (Hmod p j _ _ _ Hin Hrec (read_estimate_numbers j est Hread)).
Qed.

Lemma loaded_has_numbers fs p est :
  snd (Fverify1024.load_criterion_estimate p fs) = Ok est -> has_numbers fs p.
Proof.
  intros Hload.
  destruct (fverify_load_ok_record fs p est Hload) as (j & Hrec & Hread).
  exists j. split; [exact Hrec |].
  rewrite (read_estimate_numbers j est Hread). discriminate.
Qed.

(** X8.  On a tree whose records hold no int of [2^1000] or more in
    absolute value, the run of [plot_fverify_1024_benchmark.py] reaches
    its plotting calls exactly when every index count either has no
    directory or has a record that parses and holds the point estimate
    and both confidence bounds as numbers, and both baselines have such a
    record.  A directory without such a record, or a baseline without
    one, aborts the run. *)
Theorem fverify_1024_run_completes_iff :
  forall fs,
    moderate_records fs fverify_1024_locations ->
    (returns (Fverify1024.main fs) <->
     ((forall n, In n Fverify1024.index_counts ->
         fs (Fverify1024.fverify_path n) = None
         \/ has_numbers fs (Fverify1024.fverify_path n)) /\
      (forall p, In p baselines_1024 -> has_numbers fs p))).
Proof.
  intros fs Hmod. split.
  - intros [fig Hfig].
    destruct (Fverify1024.main fs) as [tr r] eqn:Hmain. cbn in Hfig. subst r.
    destruct (fverify_1024_main_inv fs tr fig Hmain)
      as (Hcells & tv & v & tf & f & _ & _ & _ & _ & _ & _ & _ & Hv & Hf & _).
    split.
    + intros n Hin. specialize (Hcells n Hin). unfold fverify_cell_loads, dir_present in Hcells.
      destruct (fs (Fverify1024.fverify_path n)) as [d|]; [right | left; reflexivity].
      destruct (Hcells eq_refl) as (est & _ & Hest & _).
      exact (loaded_has_numbers fs _ est Hest).
    + intros p [<- | [<- | []]].
      * apply (loaded_has_numbers fs _ v). rewrite Hv. reflexivity.
      * apply (loaded_has_numbers fs _ f). rewrite Hf. reflexivity.
  - intros [Hcells Hbase].
    destruct (fverify_1024_main_returns fs) as (tr & fig & Hmain & _).
    + intros n Hin. unfold fverify_cell_loads, dir_present. intros Hdir.
      destruct (Hcells n Hin) as [Hnone | Hnum]; [rewrite Hnone in Hdir; discriminate |].
      apply (has_numbers_loads fs _ _ Hmod); [| exact Hnum].
      apply in_or_app. left. apply in_map, Hin.
    + intros p Hin.
      destruct (has_numbers_loads fs _ p Hmod) as (est & _ & Hest & _);
        [apply in_or_app; right; exact Hin | exact (Hbase p Hin) |].
      exists est. exact Hest.
    + intros p est Hin Hload. exact (loaded_within_range fs _ p est Hmod Hin Hload).
    + unfold returns. rewrite Hmain. eexists. reflexivity.
Qed.

(** The tree with three measured cells and both baselines: all its
    numbers are floats, and the run completes. *)
Lemma fverify_1024_run_completes_iff_witness :
  returns (Fverify1024.main fs_partial_1024).
Proof.
  assert (Hmod : moderate_records fs_partial_1024 fverify_1024_locations).
  { intros p j m l u Hin Hrec Hnum. vm_compute in Hin.
    repeat (destruct Hin as [<- | Hin];
            [vm_compute in Hrec;
             first [discriminate Hrec
                   | injection Hrec as <-; vm_compute in Hnum;
                     injection Hnum as <- <- <-; repeat split] |]).
    destruct Hin. }
  apply (proj2 (fverify_1024_run_completes_iff fs_partial_1024 Hmod)). split.
  - intros n Hin. unfold Fverify1024.index_counts in Hin.
    repeat (destruct Hin as [<- | Hin];
            [first [left; vm_compute; reflexivity
                   | right; eexists; split; [vm_compute; reflexivity | vm_compute; discriminate]]
            |]).
    destruct Hin.
  - intros p [<- | [<- | []]];
      (eexists; split; [vm_compute; reflexivity | vm_compute; discriminate]).
Defined.

Lemma StronglySorted_filter {A} (R : A -> A -> Prop) (f : A -> bool) (l : list A) :
  StronglySorted R l -> StronglySorted R (filter f l).
Proof.
  induction 1 as [|a l Hl IH Ha]; cbn [filter]; [constructor|].
  destruct (f a); [| exact IH].
  constructor; [exact IH|].
  apply Forall_forall. intros x Hx. apply filter_In in Hx.
  rewrite Forall_forall in Ha. apply Ha, Hx.
Qed.

Lemma StronglySorted_consecutive {A} (R : A -> A -> Prop) (l : list A) (i : nat) a b :
  StronglySorted R l ->
  nth_error l i = Some a -> nth_error l (S i) = Some b -> R a b.
Proof.
  intros Hs. revert i. induction Hs as [|x l Hl IH Hx]; intros i Ha Hb.
  - destruct i; discriminate.
  - destruct i as [|i]; cbn in Ha, Hb.
    + injection Ha as <-. rewrite Forall_forall in Hx. apply Hx.
      destruct l; [discriminate|]. cbn in Hb. injection Hb as <-. left. reflexivity.
    + exact (IH i Ha Hb).
Qed.

Lemma index_counts_sorted : StronglySorted Z.lt Fverify1024.index_counts.
Proof. unfold Fverify1024.index_counts. repeat constructor; lia. Qed.

Lemma index_counts_bounds n : In n Fverify1024.index_counts -> (1 <= n <= 64)%Z.
Proof. unfold Fverify1024.index_counts. cbn. intuition lia. Qed.

Lemma map_fst_combine {A B} (a : list A) (b : list B) :
  List.length a = List.length b -> map fst (combine a b) = a.
Proof.
  revert b. induction a as [|x a IH]; intros [|y b] Hlen; cbn in *; try congruence.
  rewrite IH by congruence. reflexivity.
Qed.

Lemma map_snd_combine {A B} (a : list A) (b : list B) :
  List.length a = List.length b -> map snd (combine a b) = b.
Proof.
  revert b. induction a as [|x a IH]; intros [|y b] Hlen; cbn in *; try congruence.
  rewrite IH by congruence. reflexivity.
Qed.

Lemma crossover_some (s : series) (baseline x : float) :
  crossover s baseline = Some x ->
  exists i x1 y1 x2 y2,
    nth_error s i = Some (x1, y1) /\ nth_error s (S i) = Some (x2, y2) /\
    brackets y1 y2 baseline = true /\
    x = interpolate (map fst s) (map snd s) baseline i.
Proof.
  unfold crossover, find_breakeven. intros Hx.
  destruct (breakeven_loop_some _ _ _ _ _ Hx) as (i & Hin & Hc & ->).
  apply in_seq in Hin. rewrite length_map in Hin.
  destruct (nth_error s i) as [[x1 y1]|] eqn:E1;
    [| apply nth_error_None in E1; lia].
  destruct (nth_error s (S i)) as [[x2 y2]|] eqn:E2;
    [| apply nth_error_None in E2; lia].
  exists i, x1, y1, x2, y2.
  split; [exact E1 |]. split; [exact E2 |]. split; [| reflexivity].
  rewrite <- (crosses_brackets s baseline i x1 y1 x2 y2 E1 E2). exact Hc.
Qed.

(** X9.  In every run of [plot_fverify_1024_benchmark.py] that completes,
    the plotted index counts are exactly the counts of the domain whose
    directory exists, in domain order; the arrays of means and of the two
    error bars have the same length as the indices; consecutive indices
    are strictly increasing within 1..64; and a breakeven, when there is
    one, is [x1 + (verify_mean - y1) * (x2 - x1) / (y2 - y1)] at two
    consecutive measured points with [x1 < x2] and
    [y1 < verify_mean <= y2], the [int64] difference never wrapping. *)
Theorem fverify_1024_series_invariants :
  forall fs tr fig,
    Fverify1024.main fs = (tr, Ok fig) ->
    Fverify1024.indices fig
    = filter (fun n => dir_present fs (Fverify1024.fverify_path n))
             Fverify1024.index_counts /\
    List.length (Fverify1024.means fig) = List.length (Fverify1024.indices fig) /\
    List.length (Fverify1024.errors_lower fig) = List.length (Fverify1024.indices fig) /\
    List.length (Fverify1024.errors_upper fig) = List.length (Fverify1024.indices fig) /\
    (forall i x1 x2,
       nth_error (Fverify1024.indices fig) i = Some x1 ->
       nth_error (Fverify1024.indices fig) (S i) = Some x2 ->
       (1 <= x1 /\ x1 < x2 /\ x2 <= 64)%Z) /\
    (forall x,
       Fverify1024.breakeven fig = Some x ->
       exists i x1 y1 x2 y2,
         nth_error (plotted_series fig) i = Some (x1, y1) /\
         nth_error (plotted_series fig) (S i) = Some (x2, y2) /\
         (x1 < x2)%Z /\
         brackets y1 y2 (Fverify1024.verify_mean fig) = true /\
         x = linear_interpolation x1 y1 x2 y2 (Fverify1024.verify_mean fig)).
Proof.
  intros fs tr fig Hmain.
  destruct (fverify_1024_main_inv fs tr fig Hmain)
    as (Hcells & tv & v & tf & f & vus & fus & means & los & his & vci & fci
        & _ & _ & _ & _ & Hmeans & Hlos & Hhis & _ & _ & _ & Hfig).
  pose proof (fverify_entries_indices fs _ Hcells) as Hfilter.
  fold (fverify_data_of fs) in Hfilter.
  apply np_array_truediv_length in Hmeans, Hlos, Hhis.
  rewrite length_map in Hmeans, Hlos, Hhis.
  assert (Hidx : Fverify1024.indices fig = map fst (fverify_data_of fs))
    by (rewrite Hfig; reflexivity).
  assert (Hbreak : Fverify1024.breakeven fig
                   = find_breakeven (Fverify1024.indices fig) (Fverify1024.means fig)
                                    (Fverify1024.verify_mean fig))
    by (rewrite Hfig; reflexivity).
  assert (Hlen : List.length (Fverify1024.means fig)
                 = List.length (Fverify1024.indices fig))
    by (rewrite Hfig; cbn [Fverify1024.means Fverify1024.indices];
        rewrite length_map; exact Hmeans).
  assert (Hsorted : StronglySorted Z.lt (Fverify1024.indices fig)).
  { rewrite Hidx, Hfilter. apply StronglySorted_filter, index_counts_sorted. }
  assert (Hbounds : forall n, In n (Fverify1024.indices fig) -> (1 <= n <= 64)%Z).
  { intros n Hn. rewrite Hidx, Hfilter in Hn. apply filter_In in Hn.
    apply index_counts_bounds, Hn. }
  assert (Hcons : forall i x1 x2,
             nth_error (Fverify1024.indices fig) i = Some x1 ->
             nth_error (Fverify1024.indices fig) (S i) = Some x2 ->
             (1 <= x1 /\ x1 < x2 /\ x2 <= 64)%Z).
  { intros i x1 x2 H1 H2.
    pose proof (StronglySorted_consecutive Z.lt _ i x1 x2 Hsorted H1 H2).
    pose proof (Hbounds x1 (nth_error_In _ _ H1)).
    pose proof (Hbounds x2 (nth_error_In _ _ H2)). lia. }
  split; [rewrite Hidx; exact Hfilter |].
  split; [exact Hlen |].
  split; [rewrite Hfig; cbn [Fverify1024.errors_lower Fverify1024.indices];
          rewrite length_map; exact Hlos |].
  split; [rewrite Hfig; cbn [Fverify1024.errors_upper Fverify1024.indices];
          rewrite length_map; exact Hhis |].
  split; [exact Hcons |].
  intros x Hx. rewrite Hbreak in Hx.
  assert (Hfst : map fst (plotted_series fig) = Fverify1024.indices fig)
    by (apply map_fst_combine; symmetry; exact Hlen).
  assert (Hsnd : map snd (plotted_series fig) = Fverify1024.means fig)
    by (apply map_snd_combine; symmetry; exact Hlen).
  rewrite <- Hfst, <- Hsnd in Hx.
  destruct (crossover_some (plotted_series fig) _ x Hx)
    as (i & x1 & y1 & x2 & y2 & H1 & H2 & Hb & ->).
  assert (Hx1 : nth_error (Fverify1024.indices fig) i = Some x1)
    by (rewrite <- Hfst, nth_error_map, H1; reflexivity).
  assert (Hx2 : nth_error (Fverify1024.indices fig) (S i) = Some x2)
    by (rewrite <- Hfst, nth_error_map, H2; reflexivity).
  pose proof (Hcons i x1 x2 Hx1 Hx2) as Hord.
  exists i, x1, y1, x2, y2. repeat split; try assumption; [lia |].
  apply (interpolate_linear (plotted_series fig) _ i x1 y1 x2 y2 H1 H2).
  unfold in_int64. lia.
Qed.

(** The tree with the cells of 1, 4 and 8 indices: the breakeven lies
    between 4 and 8 indices. *)
Lemma fverify_1024_series_invariants_witness :
  Fverify1024.indices (returned no_figure_1024 (Fverify1024.main fs_partial_1024))
  = filter (fun n => dir_present fs_partial_1024 (Fverify1024.fverify_path n))
           Fverify1024.index_counts.
Proof.
  apply (fverify_1024_series_invariants fs_partial_1024
           (fst (Fverify1024.main fs_partial_1024))).
  vm_compute. reflexivity.
Defined.

(** *** The run of [plot_fverify_benchmark.py] *)

Lemma fverify_sized_round_eq fs bits n data :
  fverify_sized_loads fs bits n ->
  bind (path_exists (Fverify.fverify_path bits n))
       (fun dir_exists : bool =>
          if dir_exists then
            bind (Fverify.load_criterion_estimate (Fverify.fverify_path bits n))
                 (fun estimate =>
                    bind (lift (pynum_truediv (Fverify1024.mean estimate) 1000))
                         (fun microseconds =>
                            bind (print (LnEstimate
                                           ("fverify " ++ bits ++ " (" ++ str_of_int n
                                            ++ " indices)")%string
                                           microseconds))
                                 (fun _ => ret (data ++ [(n, estimate)]))))
          else ret data) fs
  = (fverify_sized_trace fs bits n, Ok (data ++ fverify_sized_entry fs bits n)).
Proof.
  unfold fverify_sized_loads, fverify_sized_trace, fverify_sized_entry, dir_present,
    bind, path_exists, print, ret, lift.
  destruct (fs (Fverify.fverify_path bits n)) as [d|].
  - intros Hload. destruct (Hload eq_refl) as (est & us & Hest & Hus).
    destruct (Fverify.load_criterion_estimate (Fverify.fverify_path bits n) fs)
      as [t [est'|e]]; cbn in Hest; [| discriminate].
    injection Hest as ->. cbn [fst snd]. rewrite !Hus.
    cbn [fst snd app]. rewrite ?app_nil_r. reflexivity.
  - intros _. cbn [fst snd app]. rewrite ?app_nil_r. reflexivity.
Qed.

Lemma fverify_sized_loop_eq fs (bits : string) (ns : list Z) :
  (forall n, In n ns -> fverify_sized_loads fs bits n) ->
  Fverify.load_fverify_data bits ns fs
  = (flat_map (fverify_sized_trace fs bits) ns,
     Ok (flat_map (fverify_sized_entry fs bits) ns)).
Proof.
  intros Hloads. unfold Fverify.load_fverify_data.
  rewrite (for_in_append ns _ fs (fverify_sized_trace fs bits)
             (fverify_sized_entry fs bits)); [reflexivity |].
  intros n data Hin. apply fverify_sized_round_eq, Hloads, Hin.
Qed.

Lemma fverify_sized_entries_counts fs (bits : string) (ns : list Z) :
  (forall n, In n ns -> fverify_sized_loads fs bits n) ->
  map fst (flat_map (fverify_sized_entry fs bits) ns)
  = filter (fun n => dir_present fs (Fverify.fverify_path bits n)) ns.
Proof.
  induction ns as [|n rest IH]; intros Hloads; [reflexivity|].
  cbn [flat_map filter]. rewrite map_app.
  rewrite IH by (intros m Hm; apply Hloads; right; exact Hm).
  pose proof (Hloads n (or_introl eq_refl)) as Hn.
  unfold fverify_sized_loads in Hn. unfold fverify_sized_entry.
  destruct (dir_present fs (Fverify.fverify_path bits n)); [| reflexivity].
  destruct (Hn eq_refl) as (est & us & Hest & _). rewrite Hest. reflexivity.
Qed.

(** The means of the cells that loaded divide into an array. *)
Lemma fverify_sized_means_ok fs (bits : string) (ns : list Z) :
  (forall n, In n ns -> fverify_sized_loads fs bits n) ->
  exists means,
    Fverify.scaled_means (flat_map (fverify_sized_entry fs bits) ns) = Ok means /\
    List.length means = List.length (flat_map (fverify_sized_entry fs bits) ns).
Proof.
  intros Hloads. unfold Fverify.scaled_means.
  destruct (np_array_truediv_ok
              (map (fun d => Fverify1024.mean (snd d))
                   (flat_map (fverify_sized_entry fs bits) ns)) 1000) as [means Hmeans].
  - intros x Hx. apply in_map_iff in Hx. destruct Hx as (d & <- & Hd).
    apply in_flat_map in Hd. destruct Hd as (n & Hn & Hd).
    specialize (Hloads n Hn). unfold fverify_sized_loads in Hloads.
    unfold fverify_sized_entry in Hd.
    destruct (dir_present fs (Fverify.fverify_path bits n)); [| destruct Hd].
    destruct (Hloads eq_refl) as (est & us & Hest & Hus). rewrite Hest in Hd.
    destruct Hd as [<- | []]. cbn [snd]. eauto.
  - exists means. split; [exact Hmeans |].
    rewrite (np_array_truediv_length _ _ _ Hmeans). apply length_map.
Qed.

(** X10.  In [plot_fverify_benchmark.py], when every cell that has a
    directory loads and is printed and both baselines load and are
    printed, the run gets as far as the upper limit of the y-axis (line
    179): if each parameter set has at least one measured index count it
    passes that line, with the measured counts as its two index arrays;
    if Falcon-512 or Falcon-1024 has none, it raises [ValueError] there
    (the maximum of an empty array), after everything was loaded. *)
Theorem fverify_run_needs_both_series :
  forall fs,
    (forall bits n,
       In bits ["512"; "1024"]%string -> In n Fverify.index_counts ->
       fverify_sized_loads fs bits n) ->
    (forall p, In p baselines_fverify -> baseline_prints fs p) ->
    (measured_counts fs "512" = [] \/ measured_counts fs "1024" = [] ->
     snd (Fverify.main fs) = Raise ValueError) /\
    (measured_counts fs "512" <> [] -> measured_counts fs "1024" <> [] ->
     exists fig,
       snd (Fverify.main fs) = Ok fig /\
       Fverify.indices_512 fig = measured_counts fs "512" /\
       Fverify.indices_1024 fig = measured_counts fs "1024").
Proof.
  intros fs Hcells Hbase.
  assert (H512 : forall n, In n Fverify.index_counts -> fverify_sized_loads fs "512" n)
    by (intros n Hn; apply Hcells; [cbn; auto | exact Hn]).
  assert (H1024 : forall n, In n Fverify.index_counts -> fverify_sized_loads fs "1024" n)
    by (intros n Hn; apply Hcells; [cbn; auto | exact Hn]).
  destruct (Hbase ["falcon-rust"; "verify 512"]) as (v512 & us512 & Hv512 & Hus512);
    [cbn; auto|].
  destruct (Hbase ["falcon-rust"; "verify 1024"]) as (v1024 & us1024 & Hv1024 & Hus1024);
    [cbn; auto|].
  pose proof (fverify_sized_entries_counts fs "512" _ H512) as E512.
  pose proof (fverify_sized_entries_counts fs "1024" _ H1024) as E1024.
  fold (measured_counts fs "512") in E512. fold (measured_counts fs "1024") in E1024.
  destruct (fverify_sized_means_ok fs "512" _ H512) as (m512 & Hm512 & Hl512).
  destruct (fverify_sized_means_ok fs "1024" _ H1024) as (m1024 & Hm1024 & Hl1024).
  unfold Fverify.main, bind.
  rewrite (fverify_sized_loop_eq fs "512" _ H512).
  rewrite (fverify_sized_loop_eq fs "1024" _ H1024).
  remember (flat_map (fverify_sized_entry fs "512") Fverify.index_counts) as d512.
  remember (flat_map (fverify_sized_entry fs "1024") Fverify.index_counts) as d1024.
  remember (flat_map (fverify_sized_trace fs "512") Fverify.index_counts) as c512.
  remember (flat_map (fverify_sized_trace fs "1024") Fverify.index_counts) as c1024.
  destruct (Fverify.load_criterion_estimate ["falcon-rust"; "verify 512"] fs)
    as [t512 r512]. cbn in Hv512. subst r512.
  destruct (Fverify.load_criterion_estimate ["falcon-rust"; "verify 1024"] fs)
    as [t1024 r1024]. cbn in Hv1024. subst r1024.
  unfold lift, print. rewrite Hus512, Hus1024, Hm512, Hm1024.
  rewrite <- E512, <- E1024.
  destruct m512 as [|y512 rest512]; destruct m1024 as [|y1024 rest1024];
    destruct d512 as [|e512 more512]; destruct d1024 as [|e1024 more1024];
    try discriminate Hl512; try discriminate Hl1024; cbn [map].
  - split; [reflexivity | congruence].
  - split; [reflexivity | congruence].
  - split; [reflexivity | congruence].
  - split; [intros [H | H]; discriminate |].
    intros _ _. eexists. split; [reflexivity |]. split; reflexivity.
Qed.

(** Without any Falcon-512 cell the run ends in [ValueError]. *)
Lemma fverify_run_needs_both_series_witness :
  snd (Fverify.main fs_no_512) = Raise ValueError.
Proof.
  assert (Hcells : forall bits n,
             In bits ["512"; "1024"]%string -> In n Fverify.index_counts ->
             fverify_sized_loads fs_no_512 bits n).
  { intros bits n Hb Hn. unfold Fverify.index_counts in Hn.
    destruct Hb as [<- | [<- | []]];
      repeat (destruct Hn as [<- | Hn];
              [unfold fverify_sized_loads; intros H;
               first [vm_compute in H; discriminate H
                     | eexists; eexists;
                       split; [vm_compute; reflexivity | vm_compute; reflexivity]] |]);
      destruct Hn. }
  assert (Hbase : forall p, In p baselines_fverify -> baseline_prints fs_no_512 p).
  { intros p [<- | [<- | []]];
      (eexists; eexists; split; [vm_compute; reflexivity | vm_compute; reflexivity]). }
  apply (proj1 (fverify_run_needs_both_series fs_no_512 Hcells Hbase)).
  left. vm_compute. reflexivity.
Defined.

Lemma fverify_sized_loads_or_aborts fs bits n :
  fverify_sized_loads fs bits n \/
  (forall data,
     aborts
       (bind (path_exists (Fverify.fverify_path bits n))
          (fun dir_exists : bool =>
             if dir_exists then
               bind (Fverify.load_criterion_estimate (Fverify.fverify_path bits n))
                    (fun estimate =>
                       bind (lift (pynum_truediv (Fverify1024.mean estimate) 1000))
                            (fun microseconds =>
                               bind (print (LnEstimate
                                              ("fverify " ++ bits ++ " (" ++ str_of_int n
                                               ++ " indices)")%string
                                              microseconds))
                                    (fun _ => ret (data ++ [(n, estimate)]))))
             else ret data) fs)).
Proof.
  unfold fverify_sized_loads, dir_present.
  destruct (fs (Fverify.fverify_path bits n)) as [d|] eqn:Hdir; [| left; discriminate].
  destruct (snd (Fverify.load_criterion_estimate (Fverify.fverify_path bits n) fs))
    as [est|e] eqn:Hload.
  - destruct (pynum_truediv (Fverify1024.mean est) 1000) as [us|e] eqn:Hus.
    + left. intros _. eauto.
    + right. intros data. unfold aborts, bind, path_exists. rewrite Hdir.
      destruct (Fverify.load_criterion_estimate (Fverify.fverify_path bits n) fs)
        as [t r]. cbn in Hload. subst r.
      unfold lift. rewrite Hus. exists e. reflexivity.
  - right. intros data. apply aborts_bind_exists. rewrite Hdir.
    apply aborts_bind_l. exists e. exact Hload.
Qed.

Lemma fverify_sized_cells_load fs bits t data :
  Fverify.load_fverify_data bits Fverify.index_counts fs = (t, Ok data) ->
  forall n, In n Fverify.index_counts -> fverify_sized_loads fs bits n.
Proof.
  intros Hdata n Hin.
  destruct (fverify_sized_loads_or_aborts fs bits n) as [Hl | Hab]; [exact Hl|].
  exfalso.
  apply (aborts_not_returns (Fverify.load_fverify_data bits Fverify.index_counts fs)).
  - unfold Fverify.load_fverify_data.
    apply (for_in_aborts _ _ fs n Hin). exact Hab.
  - rewrite Hdata. eexists. reflexivity.
Qed.

Lemma fverify_main_data fs tr fig :
  Fverify.main fs = (tr, Ok fig) ->
  Fverify.indices_512 fig = measured_counts fs "512" /\
  Fverify.indices_1024 fig = measured_counts fs "1024" /\
  exists t512 v512 t1024 v1024,
    Fverify.load_criterion_estimate ["falcon-rust"; "verify 512"] fs = (t512, Ok v512) /\
    Fverify.load_criterion_estimate ["falcon-rust"; "verify 1024"] fs = (t1024, Ok v1024) /\
    pynum_truediv (Fverify1024.mean v512) 1000 = Ok (Fverify.verify_512_mean fig) /\
    pynum_truediv (Fverify1024.mean v1024) 1000 = Ok (Fverify.verify_1024_mean fig).
Proof.
  intros Hmain. unfold Fverify.main in Hmain.
  apply bind_ok_inv in Hmain. destruct Hmain as (t1 & d512 & t2 & Hd512 & Hmain & _).
  pose proof (fverify_sized_cells_load fs "512" t1 d512 Hd512) as H512.
  pose proof (fverify_sized_entries_counts fs "512" _ H512) as E512.
  pose proof (fverify_sized_loop_eq fs "512" _ H512) as L512.
  apply bind_ok_inv in Hmain. destruct Hmain as (t3 & d1024 & t4 & Hd1024 & Hmain & _).
  pose proof (fverify_sized_cells_load fs "1024" t3 d1024 Hd1024) as H1024.
  pose proof (fverify_sized_entries_counts fs "1024" _ H1024) as E1024.
  pose proof (fverify_sized_loop_eq fs "1024" _ H1024) as L1024.
  fold (measured_counts fs "512") in E512. fold (measured_counts fs "1024") in E1024.
  remember (flat_map (fverify_sized_entry fs "512") Fverify.index_counts) as e512.
  remember (flat_map (fverify_sized_entry fs "1024") Fverify.index_counts) as e1024.
  clear Heqe512 Heqe1024 H512 H1024.
  rewrite L512 in Hd512. rewrite L1024 in Hd1024.
  assert (d512 = e512) as -> by congruence.
  assert (d1024 = e1024) as -> by congruence.
  clear Hd512 Hd1024 L512 L1024.
  apply bind_ok_inv in Hmain. destruct Hmain as (t512 & v512 & t6 & Hv512 & Hmain & _).
  apply bind_ok_inv in Hmain. destruct Hmain as (? & us512 & ? & Hus512 & Hmain & _).
  apply lift_ok_inv in Hus512. destruct Hus512 as [Hus512 _].
  apply bind_ok_inv in Hmain. destruct Hmain as (? & ? & ? & _ & Hmain & _).
  apply bind_ok_inv in Hmain. destruct Hmain as (t1024 & v1024 & t10 & Hv1024 & Hmain & _).
  apply bind_ok_inv in Hmain. destruct Hmain as (? & us1024 & ? & Hus1024 & Hmain & _).
  apply lift_ok_inv in Hus1024. destruct Hus1024 as [Hus1024 _].
  apply bind_ok_inv in Hmain. destruct Hmain as (? & ? & ? & _ & Hmain & _).
  apply bind_ok_inv in Hmain. destruct Hmain as (? & m512 & ? & _ & Hmain & _).
  apply bind_ok_inv in Hmain. destruct Hmain as (? & m1024 & ? & _ & Hmain & _).
  apply bind_ok_inv in Hmain. destruct Hmain as (? & vm512 & ? & Hvm512 & Hmain & _).
  apply lift_ok_inv in Hvm512. destruct Hvm512 as [Hvm512 _].
  apply bind_ok_inv in Hmain. destruct Hmain as (? & vm1024 & ? & Hvm1024 & Hmain & _).
  apply lift_ok_inv in Hvm1024. destruct Hvm1024 as [Hvm1024 _].
  destruct m512 as [|y512 rest512]; [discriminate|].
  destruct m1024 as [|y1024 rest1024]; [discriminate|].
  unfold ret in Hmain.
  assert (Hfig : fig = _) by (symmetry; injection Hmain as _ Hm; exact Hm).
  rewrite Hfig. cbn [Fverify.indices_512 Fverify.indices_1024
    Fverify.verify_512_mean Fverify.verify_1024_mean].
  split; [exact E512 |]. split; [exact E1024 |].
  exists t512, v512, t1024, v1024. repeat split; assumption.
Qed.

(** X15.  The two fverify scripts agree on Falcon-1024: on a tree where
    both complete, the Falcon-1024 series of [plot_fverify_benchmark.py]
    has the index counts of the series of
    [plot_fverify_1024_benchmark.py] without the count 2, which only the
    latter asks for, and both draw the same verify-1024 baseline. *)
Theorem fverify_scripts_agree_on_1024 :
  forall fs tr1 fig1 tr2 fig2,
    Fverify1024.main fs = (tr1, Ok fig1) ->
    Fverify.main fs = (tr2, Ok fig2) ->
    Fverify.indices_1024 fig2
    = filter (fun n => negb (n =? 2)%Z) (Fverify1024.indices fig1) /\
    Fverify.verify_1024_mean fig2 = Fverify1024.verify_mean fig1.
Proof.
  intros fs tr1 fig1 tr2 fig2 H1 H2.
  destruct (fverify_1024_main_inv fs tr1 fig1 H1)
    as (Hcells & tv & v & tf & f & vus & fus & means & los & his & vci & fci
        & Hv & _ & Hvus & _ & _ & _ & _ & _ & _ & _ & Hfig).
  pose proof (fverify_entries_indices fs _ Hcells) as Hfilter.
  fold (fverify_data_of fs) in Hfilter.
  destruct (fverify_main_data fs tr2 fig2 H2)
    as (_ & Hidx2 & t512 & v512 & t1024 & v1024 & _ & Hv1024 & _ & Hmean).
  split.
  - rewrite Hidx2, Hfig. cbn [Fverify1024.indices]. rewrite Hfilter.
    unfold measured_counts.
    change (fun n => dir_present fs (Fverify.fverify_path "1024" n))
      with (fun n => dir_present fs (Fverify1024.fverify_path n)).
    unfold Fverify.index_counts, Fverify1024.index_counts. cbn [filter].
    repeat match goal with
           | |- context [dir_present fs ?p] => destruct (dir_present fs p)
           end; reflexivity.
  - unfold Fverify.load_criterion_estimate in Hv1024. rewrite Hv1024 in Hv.
    injection Hv as _ ->. rewrite Hvus in Hmean. injection Hmean as <-.
    rewrite Hfig. reflexivity.
Qed.

(** On the tree where Falcon-1024 was measured at 2 and 4 indices, the
    first script plots both and the second the count 4 only. *)
Lemma fverify_scripts_agree_on_1024_witness :
  Fverify.indices_1024 (returned no_figure (Fverify.main fs_all_scripts))
  = filter (fun n => negb (n =? 2)%Z)
           (Fverify1024.indices (returned no_figure_1024 (Fverify1024.main fs_all_scripts))) /\
  Fverify.verify_1024_mean (returned no_figure (Fverify.main fs_all_scripts))
  = Fverify1024.verify_mean (returned no_figure_1024 (Fverify1024.main fs_all_scripts)).
Proof.
  apply (fverify_scripts_agree_on_1024 fs_all_scripts
           (fst (Fverify1024.main fs_all_scripts)) _
           (fst (Fverify.main fs_all_scripts)) _).
  - vm_compute. reflexivity.
  - vm_compute. reflexivity.
Defined.

(** ** Names of the storage locations *)

Lemma append_inj_l (p a b : string) : (p ++ a = p ++ b)%string -> a = b.
Proof.
  induction p as [|c p IH]; cbn; [auto|]. intros [= H]. exact (IH H).
Qed.

Lemma append_length (a b : string) :
  String.length (a ++ b) = String.length a + String.length b.
Proof. induction a as [|c a IH]; cbn; congruence. Qed.

Lemma append_inj_r (a b s : string) : (a ++ s = b ++ s)%string -> a = b.
Proof.
  revert b. induction a as [|c a IH]; intros [|d b] H; cbn in H.
  - reflexivity.
  - apply (f_equal String.length) in H. cbn in H. rewrite append_length in H. lia.
  - apply (f_equal String.length) in H. cbn in H. rewrite append_length in H. lia.
  - injection H as -> H. f_equal. exact (IH b H).
Qed.

Lemma str_of_int_inj (a b : Z) : str_of_int a = str_of_int b -> a = b.
Proof.
  unfold str_of_int. intros H.
  assert (Hnn : forall z, Z.to_int z <> Decimal.Pos Decimal.Nil /\
                          Z.to_int z <> Decimal.Neg Decimal.Nil).
  { intros [|p|p]; cbn; split; try discriminate;
      intros [= E]; exact (DecimalPos.Unsigned.to_uint_nonnil p E). }
  apply DecimalZ.to_int_inj.
  assert (E : Some (Z.to_int a) = Some (Z.to_int b)).
  { rewrite <- (NilZero.isi (Z.to_int a)) by apply Hnn.
    rewrite <- (NilZero.isi (Z.to_int b)) by apply Hnn.
    rewrite H. reflexivity. }
  injection E as E. exact E.
Qed.

(** X11.  Different index counts are never read from the same directory:
    the directory name of a fast-verify cell determines its index count,
    in both fverify scripts and in the stream-verification analysis. *)
Theorem cell_directory_determines_index_count :
  (forall n m,
     Fverify1024.fverify_path n = Fverify1024.fverify_path m -> n = m) /\
  (forall bits n m,
     Fverify.fverify_path bits n = Fverify.fverify_path bits m -> n = m) /\
  (forall variant frac n m,
     FastFullVerify.optimized_subdir variant n frac
     = FastFullVerify.optimized_subdir variant m frac -> n = m).
Proof.
  repeat apply conj.
  - intros n m H. unfold Fverify1024.fverify_path in H.
    injection H as H. apply append_inj_r in H.
    exact (str_of_int_inj n m H).
  - intros bits n m H. unfold Fverify.fverify_path in H.
    injection H as H. apply append_inj_l in H.
    injection H as H. apply append_inj_r in H.
    exact (str_of_int_inj n m H).
  - intros variant frac n m H. unfold FastFullVerify.optimized_subdir in H.
    apply append_inj_l in H. injection H as H. apply append_inj_r in H.
    exact (str_of_int_inj n m H).
Qed.

(** The count 48, written as a product, names the directory of 48. *)
Lemma cell_directory_determines_index_count_witness : (16 * 3)%Z = 48%Z.
Proof.
  apply (proj1 cell_directory_determines_index_count (16 * 3)%Z 48%Z).
  reflexivity.
Defined.

(** ** The ticks of the y-axis *)

Lemma SFcompare_sym_eq (a b : spec_float) :
  SFcompare a b = Some Eq -> SFcompare b a = Some Eq.
Proof.
  destruct a as [sa | sa | | sa ma ea], b as [sb | sb | | sb mb eb];
    try destruct sa; try destruct sb; cbn; try congruence;
    rewrite !Pos.compare_cont_spec; cbn;
    rewrite (Z.compare_antisym ea eb), (Pos.compare_antisym ma mb);
    destruct (Z.compare ea eb); cbn; try congruence;
    destruct (Pos.compare ma mb); cbn; congruence.
Qed.

Lemma SFcompare_eq_trans (a b c : spec_float) :
  SFcompare a b = Some Eq -> SFcompare a c = Some Eq -> SFcompare b c = Some Eq.
Proof.
  intros Hab Hac;
  destruct a as [sa | sa | | sa ma ea], b as [sb | sb | | sb mb eb],
           c as [sc | sc | | sc mc ec];
  try destruct sa; try destruct sb; try destruct sc;
  cbn in *; try congruence;
  rewrite ?Pos.compare_cont_spec in *; cbn in *;
  cmp_cases; cbn in *; try congruence; try lia.
Qed.

Lemma eqb_true_sym (x y : float) : (x =? y)%float = true -> (y =? x)%float = true.
Proof.
  rewrite !FloatAxioms.eqb_spec. unfold SFeqb.
  destruct (SFcompare (Prim2SF x) (Prim2SF y)) as [[| |]|] eqn:E; try discriminate.
  rewrite (SFcompare_sym_eq _ _ E). reflexivity.
Qed.

Lemma eqb_false_sym (x y : float) : (x =? y)%float = false -> (y =? x)%float = false.
Proof.
  intros H. destruct (y =? x)%float eqn:E; [| reflexivity].
  apply eqb_true_sym in E. congruence.
Qed.

Lemma eqb_true_trans (t x y : float) :
  (t =? x)%float = true -> (t =? y)%float = true -> (x =? y)%float = true.
Proof.
  rewrite !FloatAxioms.eqb_spec. unfold SFeqb.
  destruct (SFcompare (Prim2SF t) (Prim2SF x)) as [[| |]|] eqn:E1; try discriminate.
  destruct (SFcompare (Prim2SF t) (Prim2SF y)) as [[| |]|] eqn:E2; try discriminate.
  rewrite (SFcompare_eq_trans _ _ _ E1 E2). reflexivity.
Qed.

Lemma eqb_refl_not_nan (x : float) : is_nan x = false -> (x =? x)%float = true.
Proof. unfold is_nan. destruct (x =? x)%float; [reflexivity | discriminate]. Qed.

Lemma leb_not_nan (x y : float) :
  (x <=? y)%float = true -> is_nan x = false /\ is_nan y = false.
Proof.
  unfold is_nan. rewrite FloatAxioms.leb_spec, !FloatAxioms.eqb_spec.
  unfold SFleb, SFeqb.
  destruct (Prim2SF x) as [sx | sx | | sx mx ex], (Prim2SF y) as [sy | sy | | sy my ey];
    try destruct sx; try destruct sy; cbn; try discriminate;
    rewrite ?Pos.compare_cont_spec, ?Z.compare_refl, ?Pos.compare_refl; cbn; auto.
Qed.

Lemma leb_neq_ltb (x y : float) :
  (x <=? y)%float = true -> (x =? y)%float = false -> (x <? y)%float = true.
Proof.
  rewrite FloatAxioms.leb_spec, FloatAxioms.eqb_spec, FloatAxioms.ltb_spec.
  unfold SFleb, SFeqb, SFltb.
  destruct (SFcompare (Prim2SF x) (Prim2SF y)) as [[| |]|]; congruence.
Qed.

Lemma not_leb_ltb (x y : float) :
  is_nan x = false -> is_nan y = false ->
  (x <=? y)%float = false -> (y <? x)%float = true.
Proof.
  intros Hx Hy. rewrite FloatAxioms.leb_spec, FloatAxioms.ltb_spec.
  unfold SFleb, SFltb.
  destruct (SFcompare_total _ _ (is_nan_false_spec x Hx) (is_nan_false_spec y Hy))
    as (c & -> & ->).
  destruct c; cbn; congruence.
Qed.

Lemma tick_in_range_not_nan (max_y y : float) :
  tick_in_range max_y y = true -> is_nan y = false.
Proof.
  unfold tick_in_range. intros H. apply andb_prop in H. destruct H as [H _].
  apply leb_not_nan in H. apply H.
Qed.

Lemma py_set_incl (l : list float) (t : float) : In t (py_set l) -> In t l.
Proof.
  induction l as [|x rest IH]; cbn [py_set]; [auto|].
  intros [-> | H]; [left; reflexivity |].
  apply filter_In in H. right. apply IH, H.
Qed.

Lemma py_set_represents (l : list float) (y : float) :
  (forall v, In v l -> is_nan v = false) ->
  In y l -> exists t, In t (py_set l) /\ (t =? y)%float = true.
Proof.
  induction l as [|x rest IH]; intros Hnan Hy; [contradiction|].
  cbn [py_set]. destruct Hy as [-> | Hy].
  - exists y. split; [left; reflexivity |].
    apply eqb_refl_not_nan, Hnan. left. reflexivity.
  - destruct (IH (fun v Hv => Hnan v (or_intror Hv)) Hy) as (t & Ht & Hty).
    destruct (t =? x)%float eqn:Htx.
    + exists x. split; [left; reflexivity |]. exact (eqb_true_trans t x y Htx Hty).
    + exists t. split; [| exact Hty]. right. apply filter_In.
      split; [exact Ht | rewrite Htx; reflexivity].
Qed.

Lemma distinct_filter (f : float -> bool) (l : list float) :
  distinct l -> distinct (filter f l).
Proof.
  induction l as [|x rest IH]; cbn [filter distinct]; [auto|].
  intros [Hx Hrest]. destruct (f x); [| exact (IH Hrest)].
  cbn [distinct]. split; [| exact (IH Hrest)].
  intros y Hy. apply filter_In in Hy. apply Hx, Hy.
Qed.

Lemma py_set_distinct (l : list float) : distinct (py_set l).
Proof.
  induction l as [|x rest IH]; cbn [py_set distinct]; [exact I|].
  split; [| apply distinct_filter, IH].
  intros y Hy. apply filter_In in Hy. destruct Hy as [_ Hy].
  apply eqb_false_sym. destruct (y =? x)%float; [discriminate | reflexivity].
Qed.

Lemma insert_sorted_strict_hd (x a : float) (l : list float) :
  flt a x -> HdRel flt a l -> HdRel flt a (insert_sorted x l).
Proof.
  intros Hax Hal. destruct l as [|y rest]; cbn [insert_sorted].
  - constructor. exact Hax.
  - destruct (x <=? y)%float; constructor; [exact Hax |].
    inversion Hal; assumption.
Qed.

Lemma insert_sorted_strict (x : float) (l : list float) :
  is_nan x = false -> (forall v, In v l -> is_nan v = false) ->
  (forall y, In y l -> (x =? y)%float = false) ->
  Sorted flt l -> Sorted flt (insert_sorted x l).
Proof.
  intros Hx Hl Hne Hs. induction Hs as [|y rest Hrest IH Hhd]; cbn [insert_sorted].
  - repeat constructor.
  - destruct (x <=? y)%float eqn:Hxy.
    + constructor; [constructor; assumption |]. constructor.
      apply leb_neq_ltb; [exact Hxy | apply Hne; left; reflexivity].
    + constructor.
      * apply IH; intros v Hv; [apply Hl | apply Hne]; right; exact Hv.
      * apply insert_sorted_strict_hd; [| exact Hhd].
        apply not_leb_ltb; [exact Hx | apply Hl; left; reflexivity | exact Hxy].
Qed.

Lemma py_sorted_perm (l : list float) : Permutation (py_sorted l) l.
Proof. exact (np_sort_perm l). Qed.

Lemma py_sorted_strict (l : list float) :
  (forall v, In v l -> is_nan v = false) -> distinct l -> Sorted flt (py_sorted l).
Proof.
  induction l as [|x rest IH]; intros Hnan Hd; cbn [py_sorted fold_right]; [constructor|].
  destruct Hd as [Hx Hrest]. fold (py_sorted rest).
  apply insert_sorted_strict.
  - apply Hnan. left. reflexivity.
  - intros v Hv. apply Hnan. right. exact (Permutation_in v (py_sorted_perm rest) Hv).
  - intros y Hy. apply Hx. exact (Permutation_in y (py_sorted_perm rest) Hy).
  - apply IH; [intros v Hv; apply Hnan; right; exact Hv | exact Hrest].
Qed.

Lemma filter_ticks_spec :
  forall (yticks : list float) (max_y : float),
    (forall t, In t (filter_ticks yticks max_y) ->
       In t yticks /\ tick_in_range max_y t = true /\ is_nan t = false) /\
    Sorted flt (filter_ticks yticks max_y) /\
    (forall y, In y yticks -> tick_in_range max_y y = true ->
       exists t, In t (filter_ticks yticks max_y) /\ (t =? y)%float = true) /\
    (forall y, In y yticks -> is_nan y = true -> ~ In y (filter_ticks yticks max_y)).
Proof.
  intros yticks max_y. unfold filter_ticks.
  set (kept := filter (tick_in_range max_y) yticks).
  assert (Hkept : forall v, In v kept -> In v yticks /\ tick_in_range max_y v = true)
    by (intros v Hv; apply filter_In in Hv; exact Hv).
  assert (Hnan : forall v, In v kept -> is_nan v = false)
    by (intros v Hv; exact (tick_in_range_not_nan max_y v (proj2 (Hkept v Hv)))).
  assert (Hin : forall t, In t (py_sorted (py_set kept)) -> In t kept).
  { intros t Ht. apply py_set_incl.
    exact (Permutation_in t (py_sorted_perm (py_set kept)) Ht). }
  split; [| split; [| split]].
  - intros t Ht. specialize (Hin t Ht).
    destruct (Hkept t Hin) as [H1 H2]. auto.
  - apply py_sorted_strict; [| apply py_set_distinct].
    intros v Hv. apply Hnan, py_set_incl, Hv.
  - intros y Hy Hr.
    assert (Hk : In y kept) by (apply filter_In; split; assumption).
    destruct (py_set_represents kept y Hnan Hk) as (t & Ht & Hty).
    exists t. split; [| exact Hty].
    exact (Permutation_in t (Permutation_sym (py_sorted_perm (py_set kept))) Ht).
  - intros y _ Hy Hin'. specialize (Hin y Hin'). rewrite (Hnan y Hin) in Hy. discriminate.
Qed.

(** X12.  The ticks handed to [ax.set_yticks], for any ticks of
    matplotlib, any baselines and any [max_y]: every tick lies between 0
    and [max_y] and none is NaN, so the NaN baseline of a variant with no
    measured baseline cell is not a tick; the ticks are strictly
    increasing; and every baseline within the range is one of the ticks
    up to [==]. *)
Theorem yticks_are_filtered_and_sorted :
  forall (auto_ticks baselines : list float) (v512 v1024 max_y : float),
    (forall t, In t (stream_yticks auto_ticks baselines max_y) ->
       tick_in_range max_y t = true /\ is_nan t = false) /\
    Sorted flt (stream_yticks auto_ticks baselines max_y) /\
    (forall bm, In bm baselines -> tick_in_range max_y bm = true ->
       exists t, In t (stream_yticks auto_ticks baselines max_y) /\ (t =? bm)%float = true) /\
    (forall bm, In bm baselines -> is_nan bm = true ->
       ~ In bm (stream_yticks auto_ticks baselines max_y)) /\
    (forall t, In t (fverify_yticks auto_ticks v512 v1024 max_y) ->
       tick_in_range max_y t = true /\ is_nan t = false) /\
    Sorted flt (fverify_yticks auto_ticks v512 v1024 max_y) /\
    (forall v, v = v512 \/ v = v1024 -> tick_in_range max_y v = true ->
       exists t, In t (fverify_yticks auto_ticks v512 v1024 max_y) /\ (t =? v)%float = true).
Proof.
  intros auto_ticks baselines v512 v1024 max_y.
  unfold stream_yticks, fverify_yticks.
  destruct (filter_ticks_spec (auto_ticks ++ baselines) max_y) as (Hs1 & Hs2 & Hs3 & Hs4).
  destruct (filter_ticks_spec (auto_ticks ++ [v512; v1024]) max_y) as (Hf1 & Hf2 & Hf3 & _).
  split; [intros t Ht; apply Hs1, Ht |].
  split; [exact Hs2 |].
  split; [intros bm Hbm; apply Hs3, in_or_app; right; exact Hbm |].
  split; [intros bm Hbm; apply Hs4, in_or_app; right; exact Hbm |].
  split; [intros t Ht; apply Hf1, Ht |].
  split; [exact Hf2 |].
  intros v Hv. apply Hf3, in_or_app. right. cbn. destruct Hv as [-> | ->]; auto.
Qed.

(** Ticks 0, 5, 10 of matplotlib, a baseline at 7 and a NaN baseline,
    with the axis ending at 10: the baseline 7 is a tick. *)
Lemma yticks_are_filtered_and_sorted_witness :
  exists t, In t (stream_yticks [0; 5; 10]%float [7; nan]%float 10) /\ (t =? 7)%float = true.
Proof.
  apply (proj1 (proj2 (proj2 (yticks_are_filtered_and_sorted
                                [0; 5; 10]%float [7; nan]%float 0 0 10))) 7%float).
  - left. reflexivity.
  - reflexivity.
Defined.

(** ** The upper limit of the y-axis *)

Lemma SFcompare_le_trans (a b c : spec_float) :
  (SFcompare a b = Some Lt \/ SFcompare a b = Some Eq) ->
  (SFcompare b c = Some Lt \/ SFcompare b c = Some Eq) ->
  (SFcompare a c = Some Lt \/ SFcompare a c = Some Eq).
Proof.
  intros [Hab | Hab] Hbc.
  - left. exact (SFcompare_lt_le_trans a b c Hab Hbc).
  - destruct Hbc as [Hbc | Hbc].
    + left.
      destruct a as [sa | sa | | sa ma ea], b as [sb | sb | | sb mb eb],
               c as [sc | sc | | sc mc ec];
        try destruct sa; try destruct sb; try destruct sc;
        cbn in *; try congruence;
        rewrite ?Pos.compare_cont_spec in *; cbn in *;
        cmp_cases; cbn in *; try congruence; try lia.
    + right. apply (SFcompare_eq_trans b a c); [apply SFcompare_sym_eq, Hab | exact Hbc].
Qed.

Lemma fle_trans (x y z : float) : fle x y -> fle y z -> fle x z.
Proof.
  unfold fle. rewrite !FloatAxioms.leb_spec. unfold SFleb. intros Hxy Hyz.
  assert (H1 : SFcompare (Prim2SF x) (Prim2SF y) = Some Lt \/
               SFcompare (Prim2SF x) (Prim2SF y) = Some Eq)
    by (destruct (SFcompare (Prim2SF x) (Prim2SF y)) as [[| |]|]; auto; discriminate).
  assert (H2 : SFcompare (Prim2SF y) (Prim2SF z) = Some Lt \/
               SFcompare (Prim2SF y) (Prim2SF z) = Some Eq)
    by (destruct (SFcompare (Prim2SF y) (Prim2SF z)) as [[| |]|]; auto; discriminate).
  destruct (SFcompare_le_trans _ _ _ H1 H2) as [-> | ->]; reflexivity.
Qed.

Lemma fle_refl (x : float) : is_nan x = false -> fle x x.
Proof.
  intros Hx. unfold fle. destruct (x <=? x)%float eqn:E; [reflexivity|].
  pose proof (leb_total x x Hx Hx E). congruence.
Qed.

Lemma ltb_fle (x y : float) : (x <? y)%float = true -> fle x y.
Proof.
  unfold fle. rewrite FloatAxioms.ltb_spec, FloatAxioms.leb_spec. unfold SFltb, SFleb.
  destruct (SFcompare (Prim2SF x) (Prim2SF y)) as [[| |]|]; congruence.
Qed.

Lemma not_ltb_fle (x y : float) :
  is_nan x = false -> is_nan y = false -> (x <? y)%float = false -> fle y x.
Proof.
  intros Hx Hy. unfold fle. rewrite FloatAxioms.ltb_spec, FloatAxioms.leb_spec.
  unfold SFltb, SFleb.
  destruct (SFcompare_total _ _ (is_nan_false_spec x Hx) (is_nan_false_spec y Hy))
    as (c & -> & ->).
  destruct c; cbn; congruence.
Qed.

Lemma np_maximum_picks_larger : picks_larger np_maximum.
Proof.
  intros a b Ha Hb. unfold np_maximum. rewrite Ha, orb_false_r.
  destruct (b <=? a)%float eqn:E.
  - repeat split; [left; reflexivity | apply fle_refl, Ha | exact E].
  - repeat split; [right; reflexivity | exact (leb_total b a Hb Ha E) | apply fle_refl, Hb].
Qed.

Lemma py_max_step_picks_larger :
  picks_larger (fun maxitem item => if (maxitem <? item)%float then item else maxitem).
Proof.
  intros a b Ha Hb. destruct (a <? b)%float eqn:E.
  - repeat split; [right; reflexivity | apply ltb_fle, E | apply fle_refl, Hb].
  - repeat split; [left; reflexivity | apply fle_refl, Ha | exact (not_ltb_fle a b Ha Hb E)].
Qed.

Lemma fold_picks_larger (step : float -> float -> float) (l : list float) (init : float) :
  picks_larger step ->
  is_nan init = false -> (forall v, In v l -> is_nan v = false) ->
  In (fold_left step l init) (init :: l) /\
  (forall v, In v (init :: l) -> fle v (fold_left step l init)).
Proof.
  intros Hstep. revert init. induction l as [|x rest IH]; intros init Hinit Hl; cbn [fold_left].
  - split; [left; reflexivity |]. intros v [<- | []]. apply fle_refl, Hinit.
  - destruct (Hstep init x Hinit (Hl x (or_introl eq_refl))) as (Hpick & Hge1 & Hge2).
    assert (Hnan : is_nan (step init x) = false).
    { destruct Hpick as [-> | ->]; [exact Hinit | apply Hl; left; reflexivity]. }
    destruct (IH (step init x) Hnan (fun v Hv => Hl v (or_intror Hv))) as [Hin Hge].
    split.
    + destruct Hin as [Hin | Hin]; [| right; right; exact Hin].
      rewrite <- Hin. destruct Hpick as [-> | ->]; [left | right; left]; reflexivity.
    + intros v [<- | [<- | Hv]].
      * apply (fle_trans _ _ _ Hge1). apply Hge. left. reflexivity.
      * apply (fle_trans _ _ _ Hge2). apply Hge. left. reflexivity.
      * apply Hge. right. exact Hv.
Qed.

(** X13.  The upper limit of the y-axis in [plot_fverify_benchmark.py]
    is 1.1 times the largest plotted value: when no value is NaN and both
    arrays of means are non-empty, [max_y = u * 1.1] where [u] is one of
    the means or baselines and no mean or baseline exceeds [u].  With an
    empty array of means the computation raises [ValueError]. *)
Theorem max_y_scales_the_largest_value :
  forall (means_512 means_1024 : list float) (v512 v1024 : float),
    (means_512 = [] \/ means_1024 = [] ->
     fverify_max_y means_512 means_1024 v512 v1024 = Raise ValueError) /\
    (means_512 <> [] -> means_1024 <> [] ->
     (forall v, In v (means_512 ++ means_1024 ++ [v512; v1024]) -> is_nan v = false) ->
     exists u,
       fverify_max_y means_512 means_1024 v512 v1024 = Ok (u * 1.1)%float /\
       In u (means_512 ++ means_1024 ++ [v512; v1024]) /\
       (forall v, In v (means_512 ++ means_1024 ++ [v512; v1024]) -> fle v u)).
Proof.
  intros means_512 means_1024 v512 v1024. split.
  - unfold fverify_max_y, np_max. intros [-> | ->]; [reflexivity |].
    destruct means_512; reflexivity.
  - intros H512 H1024 Hnan.
    destruct means_512 as [|a512 r512]; [congruence | clear H512].
    destruct means_1024 as [|a1024 r1024]; [congruence | clear H1024].
    assert (N512 : forall v, In v (a512 :: r512) -> is_nan v = false)
      by (intros v Hv; apply Hnan, in_or_app; left; exact Hv).
    assert (N1024 : forall v, In v (a1024 :: r1024) -> is_nan v = false)
      by (intros v Hv; apply Hnan, in_or_app; right; apply in_or_app; left; exact Hv).
    assert (Nv : forall v, In v [v512; v1024] -> is_nan v = false)
      by (intros v Hv; apply Hnan, in_or_app; right; apply in_or_app; right; exact Hv).
    destruct (fold_picks_larger np_maximum r512 a512 np_maximum_picks_larger
                (N512 a512 (or_introl eq_refl)) (fun v Hv => N512 v (or_intror Hv)))
      as [In512 Ge512].
    destruct (fold_picks_larger np_maximum r1024 a1024 np_maximum_picks_larger
                (N1024 a1024 (or_introl eq_refl)) (fun v Hv => N1024 v (or_intror Hv)))
      as [In1024 Ge1024].
    set (m512 := fold_left np_maximum r512 a512) in *.
    set (m1024 := fold_left np_maximum r1024 a1024) in *.
    assert (Nrest : forall v, In v [m1024; v512; v1024] -> is_nan v = false).
    { intros v [<- | Hv]; [apply N1024, In1024 | apply Nv, Hv]. }
    destruct (fold_picks_larger _ [m1024; v512; v1024] m512 py_max_step_picks_larger
                (N512 m512 In512) Nrest) as [Inu Geu].
    fold (py_max m512 [m1024; v512; v1024]) in Inu, Geu.
    exists (py_max m512 [m1024; v512; v1024]). split; [reflexivity |]. split.
    + destruct Inu as [<- | [<- | Hv]].
      * apply in_or_app. left. exact In512.
      * apply in_or_app. right. apply in_or_app. left. exact In1024.
      * apply in_or_app. right. apply in_or_app. right. exact Hv.
    + intros v Hv. apply in_app_or in Hv. destruct Hv as [Hv | Hv].
      * apply (fle_trans _ _ _ (Ge512 v Hv)). apply Geu. left. reflexivity.
      * apply in_app_or in Hv. destruct Hv as [Hv | Hv].
        -- apply (fle_trans _ _ _ (Ge1024 v Hv)). apply Geu. right. left. reflexivity.
        -- apply Geu. right. right. exact Hv.
Qed.

(** Means 3 and 5 for Falcon-512, 6 for Falcon-1024, baselines 20 and 40. *)
Lemma max_y_scales_the_largest_value_witness :
  exists u,
    fverify_max_y [3; 5]%float [6]%float 20 40 = Ok (u * 1.1)%float /\
    In u ([3; 5] ++ [6] ++ [20; 40])%float /\
    (forall v, In v ([3; 5] ++ [6] ++ [20; 40])%float -> fle v u).
Proof.
  apply (proj2 (max_y_scales_the_largest_value [3; 5]%float [6]%float 20 40)).
  - discriminate.
  - discriminate.
  - intros v Hv. cbn in Hv.
    repeat (destruct Hv as [<- | Hv]; [reflexivity |]). destruct Hv.
Defined.

(** ** The median of the measured baseline cells *)








(** *** The x ticks of [plot_fverify_benchmark.py] *)

Lemma py_set_int_In (l : list Z) (x : Z) : In x (py_set_int l) <-> In x l.
Proof.
  induction l as [|a rest IH]; [reflexivity|].
  cbn [py_set_int In]. rewrite filter_In, IH. split.
  - intros [H | [H _]]; auto.
  - intros [H | H]; [auto|].
    destruct (Z.eq_dec a x) as [E | E]; [auto|]. right. split; [exact H|].
    apply negb_true_iff, Z.eqb_neq. congruence.
Qed.

Lemma py_set_int_NoDup (l : list Z) : NoDup (py_set_int l).
Proof.
  induction l as [|a rest IH]; [constructor|].
  cbn [py_set_int]. constructor.
  - rewrite filter_In. intros [_ H]. rewrite Z.eqb_refl in H. discriminate.
  - apply NoDup_filter, IH.
Qed.

Lemma insert_sorted_int_In (x : Z) (l : list Z) (y : Z) :
  In y (insert_sorted_int x l) <-> y = x \/ In y l.
Proof.
  induction l as [|a rest IH]; cbn [insert_sorted_int In].
  - intuition.
  - destruct (x <=? a)%Z; cbn [In]; [intuition|]. rewrite IH. intuition.
Qed.

Lemma insert_sorted_int_strict (x : Z) (l : list Z) :
  StronglySorted Z.lt l -> ~ In x l -> StronglySorted Z.lt (insert_sorted_int x l).
Proof.
  induction l as [|a rest IH]; intros Hs Hn; cbn [insert_sorted_int].
  - constructor; constructor.
  - apply StronglySorted_inv in Hs. destruct Hs as [Hrest Hall].
    rewrite Forall_forall in Hall.
    assert (Hxa : x <> a) by (intros ->; apply Hn; left; reflexivity).
    destruct (x <=? a)%Z eqn:E.
    + apply Z.leb_le in E. constructor.
      * constructor; [exact Hrest | rewrite Forall_forall; exact Hall].
      * rewrite Forall_forall. intros y [<- | Hy]; [lia|]. specialize (Hall y Hy). lia.
    + apply Z.leb_gt in E. constructor.
      * apply IH; [exact Hrest|]. intros H. apply Hn. right. exact H.
      * rewrite Forall_forall. intros y Hy. apply insert_sorted_int_In in Hy.
        destruct Hy as [-> | Hy]; [exact E | exact (Hall y Hy)].
Qed.

Lemma py_sorted_int_In (l : list Z) (y : Z) : In y (py_sorted_int l) <-> In y l.
Proof.
  induction l as [|a rest IH]; [reflexivity|].
  cbn [py_sorted_int fold_right In]. rewrite insert_sorted_int_In.
  fold (py_sorted_int rest). rewrite IH. intuition.
Qed.

Lemma py_sorted_int_strict (l : list Z) :
  NoDup l -> StronglySorted Z.lt (py_sorted_int l).
Proof.
  induction l as [|a rest IH]; intros Hnd; [constructor|].
  apply NoDup_cons_iff in Hnd. destruct Hnd as [Hn Hnd].
  cbn [py_sorted_int fold_right]. fold (py_sorted_int rest).
  apply insert_sorted_int_strict; [apply IH, Hnd|].
  rewrite py_sorted_int_In. exact Hn.
Qed.

Lemma strictly_sorted_unique (l1 l2 : list Z) :
  StronglySorted Z.lt l1 -> StronglySorted Z.lt l2 ->
  (forall x, In x l1 <-> In x l2) -> l1 = l2.
Proof.
  revert l2. induction l1 as [|a r1 IH]; intros l2 H1 H2 Hin.
  - destruct l2 as [|b r2]; [reflexivity|].
    exfalso. apply (proj2 (Hin b)). left. reflexivity.
  - destruct l2 as [|b r2].
    + exfalso. apply (proj1 (Hin a)). left. reflexivity.
    + apply StronglySorted_inv in H1. destruct H1 as [H1 A1].
      apply StronglySorted_inv in H2. destruct H2 as [H2 A2].
      rewrite Forall_forall in A1, A2.
      assert (a = b) as <-.
      { destruct (proj1 (Hin a) (or_introl eq_refl)) as [E | Ha]; [congruence|].
        destruct (proj2 (Hin b) (or_introl eq_refl)) as [E | Hb]; [congruence|].
        specialize (A1 b Hb). specialize (A2 a Ha). lia. }
      f_equal. apply IH; [exact H1 | exact H2 |].
      intros x. split; intros Hx.
      * destruct (proj1 (Hin x) (or_intror Hx)) as [E | Hx']; [| exact Hx'].
        specialize (A1 x Hx). lia.
      * destruct (proj2 (Hin x) (or_intror Hx)) as [E | Hx']; [| exact Hx'].
        specialize (A2 x Hx). lia.
Qed.

Lemma fverify_index_counts_sorted : StronglySorted Z.lt Fverify.index_counts.
Proof. repeat constructor. Qed.

(** X16.  The x ticks of [plot_fverify_benchmark.py] are the index
    counts of the domain that were measured for at least one of the two
    parameter sets, each once, in increasing order; a count measured for
    both sets gives one tick. *)
Theorem x_ticks_are_the_counts_measured_somewhere :
  forall fs tr fig,
    Fverify.main fs = (tr, Ok fig) ->
    all_indices (Fverify.indices_512 fig) (Fverify.indices_1024 fig)
    = filter (measured_somewhere fs) Fverify.index_counts /\
    StronglySorted Z.lt
      (all_indices (Fverify.indices_512 fig) (Fverify.indices_1024 fig)).
Proof.
  intros fs tr fig Hmain.
  destruct (fverify_main_data fs tr fig Hmain) as (-> & -> & _).
  assert (Hs : StronglySorted Z.lt
                 (all_indices (measured_counts fs "512") (measured_counts fs "1024")))
    by apply py_sorted_int_strict, py_set_int_NoDup.
  split; [| exact Hs].
  apply strictly_sorted_unique;
    [exact Hs | apply StronglySorted_filter, fverify_index_counts_sorted |].
  intros x. unfold all_indices, measured_counts, measured_somewhere.
  rewrite py_sorted_int_In, py_set_int_In, in_app_iff, !filter_In, orb_true_iff.
  tauto.
Qed.

Lemma x_ticks_are_the_counts_measured_somewhere_witness :
  all_indices (Fverify.indices_512 (returned no_figure (Fverify.main fs_all_scripts)))
              (Fverify.indices_1024 (returned no_figure (Fverify.main fs_all_scripts)))
  = filter (measured_somewhere fs_all_scripts) Fverify.index_counts /\
  StronglySorted Z.lt
    (all_indices (Fverify.indices_512 (returned no_figure (Fverify.main fs_all_scripts)))
                 (Fverify.indices_1024 (returned no_figure (Fverify.main fs_all_scripts)))).
Proof.
  apply (x_ticks_are_the_counts_measured_somewhere fs_all_scripts
           (fst (Fverify.main fs_all_scripts)) _).
  vm_compute. reflexivity.
Defined.

(** *** The report printed by [plot_fverify_1024_benchmark.py] *)

Lemma fverify_load_prints_nothing fs p :
  printed (fst (Fverify1024.load_criterion_estimate p fs)) = [].
Proof.
  destruct (fs (new_file p)) as [n|] eqn:Hnew.
  - rewrite (fverify_load_new fs p n Hnew). reflexivity.
  - rewrite (fverify_load_base fs p Hnew). reflexivity.
Qed.

(** The lines of the loading loop: one per entry, with the value that
    Python's division of its mean gives. *)
Lemma printed_fverify_cells fs (ns : list Z) :
  (forall n, In n ns -> fverify_cell_loads fs n) ->
  exists shown,
    Forall2 (fun d us => pynum_truediv (Fverify1024.mean (snd d)) 1000 = Ok us)
            (flat_map (fverify_entry fs) ns) shown /\
    printed (flat_map (fverify_cell_trace fs) ns)
    = map estimate_line_1024 (combine (map fst (flat_map (fverify_entry fs) ns)) shown).
Proof.
  induction ns as [|n rest IH]; intros Hloads.
  - exists []. split; [constructor | reflexivity].
  - destruct IH as (shown & Hall & Hprinted);
      [intros m Hm; apply Hloads; right; exact Hm |].
    specialize (Hloads n (or_introl eq_refl)).
    cbn [flat_map]. rewrite printed_app, Hprinted.
    unfold fverify_cell_loads in Hloads.
    destruct (dir_present fs (Fverify1024.fverify_path n)) eqn:Hdir.
    + destruct (Hloads eq_refl) as (est & us & Hest & Hus).
      assert (Hentry : fverify_entry fs n = [(n, est)])
        by (unfold fverify_entry; rewrite Hdir, Hest; reflexivity).
      assert (Htrace : printed (fverify_cell_trace fs n) = [estimate_line_1024 (n, us)]).
      { unfold fverify_cell_trace. rewrite Hdir, Hest, Hus.
        change (printed (?e :: ?t)) with (printed [e] ++ printed t).
        rewrite printed_app, fverify_load_prints_nothing. reflexivity. }
      exists (us :: shown). rewrite Hentry, Htrace. split.
      * cbn [app]. constructor; [exact Hus | exact Hall].
      * reflexivity.
    + assert (Hentry : fverify_entry fs n = [])
        by (unfold fverify_entry; rewrite Hdir; reflexivity).
      assert (Htrace : printed (fverify_cell_trace fs n) = [])
        by (unfold fverify_cell_trace; rewrite Hdir; reflexivity).
      exists shown. rewrite Hentry, Htrace. split; [exact Hall | reflexivity].
Qed.

Lemma exact_number (v : json) (p : pynum) :
  exact_as_float v = true -> as_number v = Ok p ->
  pynum_truediv p 1000 = Ok (float64_of p / float_of_Z 1000)%float /\
  fits_numeric_dtype p = true.
Proof.
  assert (Hsmall : forall n, small_int n = true ->
            pynum_truediv (PyInt n) 1000 = Ok (float_of_Z n / float_of_Z 1000)%float /\
            fits_numeric_dtype (PyInt n) = true).
  { intros n Hn. unfold small_int in Hn. apply Z.ltb_lt in Hn.
    assert (H53 : (2 ^ 53 = 9007199254740992)%Z) by reflexivity.
    assert (H63 : (2 ^ 63 = 9223372036854775808)%Z) by reflexivity.
    assert (H64 : (2 ^ 64 = 18446744073709551616)%Z) by reflexivity.
    pose proof moderate_bound as Hb.
    assert (H1002 : (2 ^ 53 < 2 ^ 1002)%Z) by (apply Z.pow_lt_mono_r; lia).
    split.
    - cbn [pynum_truediv].
      destruct (1000 * float_overflow_bound <=? Z.abs n)%Z eqn:E;
        [apply Z.leb_le in E; lia |].
      unfold int_quotient, small_int.
      replace (Z.abs n <? 2 ^ 53)%Z with true by (symmetry; apply Z.ltb_lt; exact Hn).
      reflexivity.
    - cbn [fits_numeric_dtype]. apply andb_true_iff. split.
      + apply Z.leb_le. lia.
      + apply Z.ltb_lt. lia. }
  destruct v as [|b|n|x|s|items|fields]; cbn [exact_as_float as_number];
    try discriminate; intros Hexact [= <-].
  - apply Hsmall. destruct b; reflexivity.
  - apply Hsmall, Hexact.
  - split; reflexivity.
Qed.

Lemma shown_is_plotted (entries : list (Z * Fverify1024.estimate)) (shown means : list float) :
  Forall2 (fun d us => pynum_truediv (Fverify1024.mean (snd d)) 1000 = Ok us) entries shown ->
  (forall d, In d entries ->
     pynum_truediv (Fverify1024.mean (snd d)) 1000
     = Ok (float64_of (Fverify1024.mean (snd d)) / float_of_Z 1000)%float /\
     fits_numeric_dtype (Fverify1024.mean (snd d)) = true) ->
  np_array_truediv (map (fun d => Fverify1024.mean (snd d)) entries) 1000 = Ok means ->
  shown = means.
Proof.
  intros Hall Hexact Hmeans. unfold np_array_truediv in Hmeans.
  replace (forallb fits_numeric_dtype (map (fun d => Fverify1024.mean (snd d)) entries))
    with true in Hmeans.
  2:{ symmetry. apply forallb_forall. intros x Hx. apply in_map_iff in Hx.
      destruct Hx as (d & <- & Hd). apply (Hexact d Hd). }
  injection Hmeans as <-. rewrite map_map.
  induction Hall as [|d us entries shown Hd Hall IH]; [reflexivity|].
  cbn [map]. rewrite IH by (intros d' Hd'; apply Hexact; right; exact Hd').
  destruct (Hexact d (or_introl eq_refl)) as [Hus _]. rewrite Hus in Hd.
  injection Hd as <-. reflexivity.
Qed.

(** X17.  The report printed by a run of
    [plot_fverify_1024_benchmark.py] that completes has one line per
    plotted point, in the order of the plot, naming its index count, then
    the line of the Rust baseline and the line of the C FFI baseline with
    the values of the two horizontal lines; nothing else is printed
    before the figure is drawn.  Where every mean is a float, a bool or
    an int below [2^53] in absolute value, each line gives the very value
    that is plotted.  Beyond, the two can differ: the report divides as
    Python does and the plot as numpy does; for the int mean
    9007199254740995 the report shows 9007199254740.994 and the plot has
    9007199254740.996. *)
Theorem printed_report_matches_the_figure :
  (forall fs tr fig,
     Fverify1024.main fs = (tr, Ok fig) ->
     exists shown,
       List.length shown = List.length (Fverify1024.indices fig) /\
       printed tr
       = map estimate_line_1024 (combine (Fverify1024.indices fig) shown)
         ++ [LnEstimate "verify 1024" (Fverify1024.verify_mean fig);
             LnEstimate "C FFI verify 1024" (Fverify1024.ffi_mean fig)] /\
       ((forall n j v,
           In n Fverify1024.index_counts ->
           record_file fs (Fverify1024.fverify_path n) = Some (File (Parsed j)) ->
           lookup j point_estimate_key = Ok v ->
           exact_as_float v = true) ->
        shown = Fverify1024.means fig)) /\
  printed (fst (Fverify1024.main fs_int_mean))
  = [LnEstimate "fverify 1024 (1 indices)" 9007199254740.994;
     LnEstimate "verify 1024" 10; LnEstimate "C FFI verify 1024" 11] /\
  Fverify1024.means (returned no_figure_1024 (Fverify1024.main fs_int_mean))
  = [9007199254740.996%float].
Proof.
  split; [| split; vm_compute; reflexivity].
  intros fs tr fig Hmain.
  destruct (fverify_1024_main_inv fs tr fig Hmain)
    as (Hcells & tv & v & tf & f & vus & fus & means & los & his & vci & fci
        & Hv & Hf & _ & _ & Hmeans & _ & _ & _ & _ & -> & ->).
  destruct (printed_fverify_cells fs _ Hcells) as (shown & Hall & Hprinted).
  fold (fverify_data_of fs) in Hall, Hprinted.
  exists shown. cbn [Fverify1024.indices Fverify1024.means Fverify1024.verify_mean
    Fverify1024.ffi_mean].
  split; [| split].
  - rewrite length_map. symmetry. exact (Forall2_length Hall).
  - rewrite !printed_app, Hprinted.
    replace tv
      with (fst (Fverify1024.load_criterion_estimate ["falcon-rust"; "verify 1024"] fs))
      by (rewrite Hv; reflexivity).
    replace tf with (fst (Fverify1024.load_criterion_estimate ["c ffi"; "verify 1024"] fs))
      by (rewrite Hf; reflexivity).
    rewrite !fverify_load_prints_nothing. reflexivity.
  - intros Hexact. apply (shown_is_plotted (fverify_data_of fs) shown means Hall); [| exact Hmeans].
    intros d Hd. unfold fverify_data_of in Hd. apply in_flat_map in Hd.
    destruct Hd as (n & Hn & Hd).
    pose proof (fverify_entry_loaded fs n d Hd) as Hload.
    destruct (fverify_load_ok_record fs _ _ Hload) as (j & Hrec & Hread).
    apply read_estimate_iff in Hread.
    destruct Hread as (vm & vl & vu & m & l & u & el & eu
                       & Hvm & _ & _ & Hm & _ & _ & _ & _ & Hest).
    rewrite Hest. cbn [Fverify1024.mean].
    exact (exact_number vm m (Hexact n j vm Hn Hrec Hvm) Hm).
Qed.

(** The tree with three measured cells, all of floats: the report shows
    what is plotted. *)
Lemma printed_report_matches_the_figure_witness :
  exists shown,
    List.length shown
    = List.length (Fverify1024.indices
                     (returned no_figure_1024 (Fverify1024.main fs_partial_1024))) /\
    printed (fst (Fverify1024.main fs_partial_1024))
    = map estimate_line_1024
          (combine (Fverify1024.indices
                      (returned no_figure_1024 (Fverify1024.main fs_partial_1024))) shown)
      ++ [LnEstimate "verify 1024"
            (Fverify1024.verify_mean
               (returned no_figure_1024 (Fverify1024.main fs_partial_1024)));
          LnEstimate "C FFI verify 1024"
            (Fverify1024.ffi_mean
               (returned no_figure_1024 (Fverify1024.main fs_partial_1024)))] /\
    ((forall n j v,
        In n Fverify1024.index_counts ->
        record_file fs_partial_1024 (Fverify1024.fverify_path n) = Some (File (Parsed j)) ->
        lookup j point_estimate_key = Ok v ->
        exact_as_float v = true) ->
     shown = Fverify1024.means
               (returned no_figure_1024 (Fverify1024.main fs_partial_1024))).
Proof.
  apply (proj1 printed_report_matches_the_figure fs_partial_1024
           (fst (Fverify1024.main fs_partial_1024)) _).
  vm_compute. reflexivity.
Defined.
